(** * Payment-Dashboard: gateway integration layer

    A shallow embedding of the server side of the payment dashboard:

    - [server/src/types/payment.ts]       the data model,
    - [server/src/services/truelayer.ts]  the TrueLayer service (token
      cache, request signing, createPayment, getPayment),
    - [server/src/db/payments.repository.ts] the DynamoDB repository,
    - [server/src/routes/payments.ts]     the route handlers
      (POST /, POST /:id/refresh-status) and [mapPaymentStatus].

    JavaScript numbers are IEEE-754 binary64 values: the payment amount is
    a primitive [float].  Instants (Date.now()) and the token lifetime are
    integers far below 2^53, on which JavaScript arithmetic is exact; they
    are modelled in [Z] (milliseconds, seconds).

    Everything outside the process (the token endpoint, the gateway, the
    database transport, the random UUID source, the signing library) is an
    oracle of the environment [Env]; a handler is a function of the
    environment and of the [World] it runs in. *)

From Stdlib Require Import ZArith Lia Floats Ascii String.
From stdpp Require Import base option list gmap strings.

Open Scope Z_scope.

(** ** JavaScript helpers *)

Module Js.

(** Truthiness of a string value: the empty string is falsy. *)
Definition truthy_string (s : string) : bool :=
  match s with
  | EmptyString => false
  | String _ _ => true
  end.

(** Truthiness of [string | null | undefined]. *)
Definition truthy_opt_string (o : option string) : bool :=
  match o with
  | Some s => truthy_string s
  | None => false
  end.

(** Truthiness of a number: 0, -0 and NaN are falsy. *)
Definition truthy_number (x : float) : bool :=
  negb (PrimFloat.eqb x 0%float) && PrimFloat.eqb x x.

Definition upper_ascii (c : ascii) : ascii :=
  let n := Ascii.N_of_ascii c in
  if ((97 <=? n) && (n <=? 122))%N then Ascii.ascii_of_N (n - 32) else c.

(** [String.prototype.toUpperCase] on the ASCII range (a string is held as
    its bytes; bytes above 127 are left as they are). *)
Fixpoint toUpperCase (s : string) : string :=
  match s with
  | EmptyString => EmptyString
  | String c s' => String (upper_ascii c) (toUpperCase s')
  end.

Definition hex_digit (n : N) : ascii :=
  if (n <? 10)%N then Ascii.ascii_of_N (48 + n) else Ascii.ascii_of_N (55 + n).

(** The characters [encodeURIComponent] leaves alone:
    A-Z a-z 0-9 - _ . ! ~ * ' ( ) *)
Definition uri_unreserved (c : ascii) : bool :=
  let n := Ascii.N_of_ascii c in
  (((65 <=? n) && (n <=? 90)) || ((97 <=? n) && (n <=? 122))
   || ((48 <=? n) && (n <=? 57))
   || (n =? 45) || (n =? 95) || (n =? 46) || (n =? 33) || (n =? 126)
   || (n =? 42) || (n =? 39) || (n =? 40) || (n =? 41))%N.

(** [encodeURIComponent]: every other byte of the UTF-8 form becomes %XX. *)
Fixpoint encodeURIComponent (s : string) : string :=
  match s with
  | EmptyString => EmptyString
  | String c s' =>
      if uri_unreserved c then String c (encodeURIComponent s')
      else
        let n := Ascii.N_of_ascii c in
        String "%"%char (String (hex_digit (n / 16)) (String (hex_digit (n mod 16))
          (encodeURIComponent s')))
  end.

End Js.

(** ** Data model: [types/payment.ts] *)

Inductive PaymentStatus : Type :=
  | authorization_required
  | authorizing
  | authorized
  | failed
  | executed
  | settled.

#[global] Instance PaymentStatus_eq_dec : EqDecision PaymentStatus.
Proof. solve_decision. Defined.

(** Request bodies sent to the gateway are JSON trees. *)
Inductive Json : Type :=
  | JStr (s : string)
  | JNum (x : float)
  | JObj (fields : list (string * Json)).

Fixpoint json_assoc (k : string) (fields : list (string * Json)) : option Json :=
  match fields with
  | [] => None
  | (k', v) :: rest => if String.eqb k k' then Some v else json_assoc k rest
  end.

Definition json_field (k : string) (j : Json) : option Json :=
  match j with
  | JObj fields => json_assoc k fields
  | _ => None
  end.

(** [CreatePaymentRequest] *)
Record CreatePaymentRequest : Type := {
  amount : float;
  currency : string;
  reference : string;
  beneficiaryName : option string;
  beneficiaryReference : option string
}.

(** [TrueLayerPaymentResponse].  [payment_method] and [user] are of type
    [any] in the source and never inspected; [failure_reason] is read by the
    refresh route from the gateway's JSON (for logging only). *)
Record TrueLayerPaymentResponse : Type := {
  id : string;
  amount_in_minor : float;
  tl_currency : string;
  payment_method : Json;
  user : Json;
  status : PaymentStatus;
  created_at : string;
  resource_token : option string;
  hosted_payments_page_url : option string;
  failure_reason : option string
}.

Definition with_hosted_payments_page_url
    (url : string) (p : TrueLayerPaymentResponse) : TrueLayerPaymentResponse :=
  {| id := id p; amount_in_minor := amount_in_minor p;
     tl_currency := tl_currency p; payment_method := payment_method p;
     user := user p; status := status p; created_at := created_at p;
     resource_token := resource_token p;
     hosted_payments_page_url := Some url;
     failure_reason := failure_reason p |}.

(** Property values of a [Payment] object.  A [Payment] is a JavaScript
    object: the refresh route adds the properties [statusMessage] and
    [canRetry] to it, and a DynamoDB item is an attribute map.  [VDate ms]
    is the ISO-8601 string [new Date(ms).toISOString()]. *)
Inductive Val : Type :=
  | VStr (s : string)
  | VNum (x : float)
  | VBool (b : bool)
  | VStatus (s : PaymentStatus)
  | VDate (ms : Z)
  | VData (r : TrueLayerPaymentResponse).

(** [a !== b] for a mapped status [a] and a property value [b] that may be
    undefined. *)
Definition status_strict_neq (a : PaymentStatus) (b : option Val) : bool :=
  match b with
  | Some (VStatus s) => negb (bool_decide (a = s))
  | _ => true
  end.

(** [a !== b] for two property values, as far as the routes need it: both
    sides hold a status or are undefined. *)
Definition val_strict_neq (a b : option Val) : bool :=
  match a with
  | Some (VStatus s) => status_strict_neq s b
  | None => match b with None => false | Some _ => true end
  | Some _ => true
  end.

(** ** The world outside the handlers *)

(** What the token endpoint answers: [{access_token, expires_in}]. *)
Record TokenResponse : Type := {
  access_token : string;
  expires_in : Z
}.

(** A JavaScript [Error]: its message and, for an axios error that carries
    an HTTP response, [error.response.data.title]. *)
Record JsError : Type := {
  message : string;
  response_title : option string
}.

Definition Error_ (msg : string) : JsError :=
  {| message := msg; response_title := None |}.

(** The argument of [sign] of the truelayer-signing library. *)
Record SignInput : Type := {
  sg_kid : string;
  sg_method : string;
  sg_path : string;
  sg_headers : list (string * string);
  sg_body : string
}.

(** An outgoing request of the axios instance. *)
Record HttpRequest : Type := {
  rq_method : string;
  rq_path : string;
  rq_headers : list (string * string);
  rq_body : option Json
}.

Inductive Endpoint : Type :=
  | RandomUUID        (* crypto.randomUUID() *)
  | Signer            (* sign() of truelayer-signing *)
  | TokenEndpoint     (* POST {authUrl}/connect/token *)
  | GatewayPost       (* axiosInstance.post *)
  | GatewayGet        (* axiosInstance.get *)
  | Database.         (* docClient.send *)

#[global] Instance Endpoint_eq_dec : EqDecision Endpoint.
Proof. solve_decision. Defined.

(** The environment: the n-th use of each endpoint has an answer, and the
    answers that come over the network have a latency in milliseconds.  The
    gateway answers a POST by the request it receives and a GET by the path
    of the resource. *)
Record Env : Type := {
  kid : string;
  randomUUID : nat -> string;
  tl_sign : nat -> SignInput -> string;
  JSON_stringify : Json -> string;
  token_endpoint : nat -> N * option TokenResponse;
  gateway_post : nat -> HttpRequest -> N * (JsError + TrueLayerPaymentResponse);
  gateway_get : nat -> string -> N * (JsError + TrueLayerPaymentResponse);
  db_send : nat -> N * option JsError
}.

(** Observable actions, newest first in the trace. *)
Inductive Event : Type :=
  | EvTokenExchange
  | EvSign (inp : SignInput)
  | EvHttp (rq : HttpRequest)
  | EvGetPayment (paymentId : string)
  | EvSleep (ms : Z)
  | EvDbPut (key : string * string)
  | EvDbGet (key : string * string)
  | EvDbUpdate (key : string * string) (at_ms : Z).

Record World : Type := {
  now : Z;                                   (* Date.now() *)
  accessToken : option string;               (* TrueLayerService.accessToken *)
  tokenExpiresAt : Z;                        (* TrueLayerService.tokenExpiresAt *)
  table : gmap (string * string) (gmap string Val);   (* the Payments table *)
  calls : Endpoint -> nat;
  trace : list Event
}.

Definition elapse (d : Z) (w : World) : World :=
  {| now := now w + d; accessToken := accessToken w;
     tokenExpiresAt := tokenExpiresAt w; table := table w;
     calls := calls w; trace := trace w |}.

Definition set_token (tok : string) (expires : Z) (w : World) : World :=
  {| now := now w; accessToken := Some tok; tokenExpiresAt := expires;
     table := table w; calls := calls w; trace := trace w |}.

Definition set_table (t : gmap (string * string) (gmap string Val)) (w : World) : World :=
  {| now := now w; accessToken := accessToken w;
     tokenExpiresAt := tokenExpiresAt w; table := t;
     calls := calls w; trace := trace w |}.

Definition count_call (e : Endpoint) (w : World) : World :=
  {| now := now w; accessToken := accessToken w;
     tokenExpiresAt := tokenExpiresAt w; table := table w;
     calls := fun e' => if bool_decide (e = e') then S (calls w e') else calls w e';
     trace := trace w |}.

Definition log (ev : Event) (w : World) : World :=
  {| now := now w; accessToken := accessToken w;
     tokenExpiresAt := tokenExpiresAt w; table := table w;
     calls := calls w; trace := ev :: trace w |}.

(** ** Computations: state passing with exceptions *)

Inductive Result (A : Type) : Type :=
  | Ok (a : A)
  | Throw (e : JsError).
Arguments Ok {A} a.
Arguments Throw {A} e.

Definition M (A : Type) : Type := World -> Result A * World.

Definition ret {A} (a : A) : M A := fun w => (Ok a, w).

Definition throw {A} (e : JsError) : M A := fun w => (Throw e, w).

Definition bind {A B} (m : M A) (k : A -> M B) : M B :=
  fun w =>
    match m w with
    | (Ok a, w') => k a w'
    | (Throw e, w') => (Throw e, w')
    end.

(** [try { m } catch (error) { h error }] *)
Definition try_catch {A} (m : M A) (h : JsError -> M A) : M A :=
  fun w =>
    match m w with
    | (Ok a, w') => (Ok a, w')
    | (Throw e, w') => h e w'
    end.

Definition effect (f : World -> World) : M unit := fun w => (Ok tt, f w).

Definition get {A} (f : World -> A) : M A := fun w => (Ok (f w), w).

Notation "'let*' x ':=' m 'in' k" := (bind m (fun x => k))
  (at level 10, x name, m at level 100, k at level 200).

(** [await new Promise(resolve => setTimeout(resolve, ms))] *)
Definition sleep (ms : Z) : M unit :=
  effect (fun w => elapse ms (log (EvSleep ms) w)).

(** [new Date().toISOString()] *)
Definition new_Date_toISOString : M Val := get (fun w => VDate (now w)).

(** [crypto.randomUUID()] *)
Definition crypto_randomUUID (env : Env) : M string :=
  fun w => (Ok (randomUUID env (calls w RandomUUID)), count_call RandomUUID w).

(** ** [services/truelayer.ts] *)

Module TrueLayerService.

(** The guard of [getAccessToken]:
    [this.accessToken && Date.now() < this.tokenExpiresAt]. *)
Definition token_is_valid (w : World) : bool :=
  Js.truthy_opt_string (accessToken w) && (now w <? tokenExpiresAt w).

(** [getAccessToken] has one suspension point, the [await axios.post] of the
    token exchange.  [getAccessToken_begin] is the code that runs up to it:
    either the cached token is returned, or the exchange request is issued
    and the call waits for answer number [n] of the token endpoint. *)
Inductive TokenCall : Type :=
  | Cached (token : string)
  | Waiting (n : nat).

Definition getAccessToken_begin (w : World) : TokenCall * World :=
  if token_is_valid w then
    (Cached (default EmptyString (accessToken w)), w)
  else
    (Waiting (calls w TokenEndpoint), count_call TokenEndpoint (log EvTokenExchange w)).

(** [getAccessToken_resume] is the code that runs when the answer arrives:
    the cache is overwritten and the new token returned, or the failure is
    rethrown as an authentication error. *)
Definition getAccessToken_resume (env : Env) (n : nat) : M string :=
  fun w =>
    match snd (token_endpoint env n) with
    | Some response =>
        (Ok (access_token response),
         set_token (access_token response)
                   (now w + (expires_in response - 60) * 1000) w)
    | None => (Throw (Error_ "Failed to authenticate with TrueLayer"), w)
    end.

(** A call that runs alone: begin, wait for the answer, resume. *)
Definition getAccessToken (env : Env) : M string :=
  fun w =>
    match getAccessToken_begin w with
    | (Cached token, w1) => (Ok token, w1)
    | (Waiting n, w1) =>
        getAccessToken_resume env n (elapse (Z.of_N (fst (token_endpoint env n))) w1)
    end.

(** [signRequest]: the body is serialised once and handed to the signing
    library with the method in upper case, the path and the single header
    Idempotency-Key. *)
Definition signRequest (env : Env) (method path : string) (body : Json)
    (idempotencyKey : string) : M string :=
  let bodyString := JSON_stringify env body in
  let inp := {| sg_kid := kid env;
                sg_method := Js.toUpperCase method;
                sg_path := path;
                sg_headers := [("Idempotency-Key", idempotencyKey)];
                sg_body := bodyString |} in
  fun w => (Ok (tl_sign env (calls w Signer) inp), count_call Signer (log (EvSign inp) w)).

(** The axios instance: default header Content-Type, and the request
    interceptor that attaches the bearer token before the request leaves. *)
Definition axiosInstance_send (env : Env) (e : Endpoint)
    (oracle : nat -> HttpRequest -> N * (JsError + TrueLayerPaymentResponse))
    (method path : string) (body : option Json) (headers : list (string * string))
    : M TrueLayerPaymentResponse :=
  let* token := getAccessToken env in
  let rq := {| rq_method := method; rq_path := path;
               rq_headers := ("Content-Type", "application/json") :: headers
                             ++ [("Authorization", "Bearer " +:+ token)];
               rq_body := body |} in
  fun w =>
    let '(latency, answer) := oracle (calls w e) rq in
    let w1 := elapse (Z.of_N latency) (count_call e (log (EvHttp rq) w)) in
    match answer with
    | inl err => (Throw err, w1)
    | inr data => (Ok data, w1)
    end.

Definition axiosInstance_post (env : Env) (path : string) (body : Json)
    (headers : list (string * string)) : M TrueLayerPaymentResponse :=
  axiosInstance_send env GatewayPost (gateway_post env) "POST" path (Some body) headers.

Definition axiosInstance_get (env : Env) (path : string) : M TrueLayerPaymentResponse :=
  axiosInstance_send env GatewayGet (fun n rq => gateway_get env n (rq_path rq))
    "GET" path None [].

(** The request body of [createPayment]. *)
Definition requestBody (paymentData : CreatePaymentRequest) (userId : string) : Json :=
  JObj [
    ("amount_in_minor", JNum (amount paymentData * 100)%float);
    ("currency", JStr (Js.toUpperCase (currency paymentData)));
    ("payment_method", JObj [
      ("type", JStr "bank_transfer");
      ("provider_selection", JObj [("type", JStr "user_selected")]);
      ("beneficiary", JObj [
        ("type", JStr "external_account");
        ("account_holder_name", JStr "Test Merchant");
        ("account_identifier", JObj [
          ("type", JStr "sort_code_account_number");
          ("sort_code", JStr "123456");
          ("account_number", JStr "12345678")]);
        ("reference", JStr (reference paymentData))])]);
    ("user", JObj [
      ("id", JStr userId);
      ("name", JStr "Test User");
      ("email", JStr "test@example.com");
      ("date_of_birth", JStr "1990-01-01");
      ("address", JObj [
        ("address_line1", JStr "1 Test Street");
        ("city", JStr "London");
        ("state", JStr "London");
        ("zip", JStr "EC1A 1BB");
        ("country_code", JStr "GB")])])
  ].

(** The hosted payment page URL built from the payment id and the resource
    token. *)
Definition hosted_url (payment_id token : string) : string :=
  "https://payment.truelayer-sandbox.com/payments#payment_id=" +:+ payment_id
  +:+ "&resource_token=" +:+ token
  +:+ "&return_uri=" +:+ Js.encodeURIComponent "http://localhost:5173/dashboard".

Definition attach_hosted_url (payment : TrueLayerPaymentResponse) : TrueLayerPaymentResponse :=
  match resource_token payment with
  | Some token =>
      if Js.truthy_string token && Js.truthy_string (id payment)
      then with_hosted_payments_page_url (hosted_url (id payment) token) payment
      else payment
  | None => payment
  end.

(** [error.response?.data?.title || 'Failed to create payment'] *)
Definition create_error_message (error : JsError) : string :=
  match response_title error with
  | Some title => if Js.truthy_string title then title else "Failed to create payment"
  | None => "Failed to create payment"
  end.

Definition createPayment (env : Env) (paymentData : CreatePaymentRequest)
    : M TrueLayerPaymentResponse :=
  try_catch
    (let* userId := crypto_randomUUID env in
     let body := requestBody paymentData userId in
     let* idempotencyKey := crypto_randomUUID env in
     let* signature := signRequest env "POST" "/v3/payments" body idempotencyKey in
     let* payment :=
       axiosInstance_post env "/v3/payments" body
         [("Tl-Signature", signature); ("Idempotency-Key", idempotencyKey)] in
     ret (attach_hosted_url payment))
    (fun error => throw (Error_ (create_error_message error))).

Definition getPayment (env : Env) (paymentId : string) : M TrueLayerPaymentResponse :=
  let* _ := effect (log (EvGetPayment paymentId)) in
  try_catch
    (axiosInstance_get env ("/v3/payments/" +:+ paymentId))
    (fun _ => throw (Error_ "Failed to fetch payment details")).

End TrueLayerService.

(** ** [db/payments.repository.ts] *)

Module paymentsRepo.

(** [await docClient.send(command)]: the transport may fail; the command
    takes effect only when it does not. *)
Definition docClient_send (env : Env) : M unit :=
  fun w =>
    let '(latency, failure) := db_send env (calls w Database) in
    let w1 := elapse (Z.of_N latency) (count_call Database w) in
    match failure with
    | Some err => (Throw err, w1)
    | None => (Ok tt, w1)
    end.

(** The primary key (userId, paymentId) of an item. *)
Definition item_key (item : gmap string Val) : option (string * string) :=
  match item !! "userId", item !! "paymentId" with
  | Some (VStr u), Some (VStr p) => Some (u, p)
  | _, _ => None
  end.

(** PutCommand: the item replaces whatever is stored under its key. *)
Definition createPayment (env : Env) (payment : gmap string Val) : M (gmap string Val) :=
  match item_key payment with
  | Some key =>
      let* _ := effect (log (EvDbPut key)) in
      let* _ := docClient_send env in
      let* _ := effect (fun w => set_table (<[key := payment]> (table w)) w) in
      ret payment
  | None =>
      let* _ := docClient_send env in
      throw (Error_ "ValidationException")
  end.

(** GetCommand *)
Definition getPayment (env : Env) (userId paymentId : string) : M (option (gmap string Val)) :=
  let* _ := effect (log (EvDbGet (userId, paymentId))) in
  let* _ := docClient_send env in
  get (fun w => table w !! (userId, paymentId)).

(** The attributes an UpdateCommand of [updatePaymentStatus] sets. *)
Definition set_status_attributes (newStatus : PaymentStatus) (updatedAt : Val)
    (trueLayerData : option TrueLayerPaymentResponse) (item : gmap string Val)
    : gmap string Val :=
  let item1 := <["updatedAt" := updatedAt]> (<["status" := VStatus newStatus]> item) in
  match trueLayerData with
  | Some data => <["trueLayerData" := VData data]> item1
  | None => item1
  end.

(** UpdateCommand with ReturnValues ALL_NEW.  [updatedAt] is read from the
    clock when the command is built; an item that does not exist is created
    with its key attributes. *)
Definition updatePaymentStatus (env : Env) (userId paymentId : string)
    (newStatus : PaymentStatus) (trueLayerData : option TrueLayerPaymentResponse)
    : M (gmap string Val) :=
  let* updatedAt := new_Date_toISOString in
  let* at_ms := get now in
  let* _ := effect (log (EvDbUpdate (userId, paymentId) at_ms)) in
  let* _ := docClient_send env in
  fun w =>
    let old := default {[ "userId" := VStr userId; "paymentId" := VStr paymentId ]}
                       (table w !! (userId, paymentId)) in
    let new := set_status_attributes newStatus updatedAt trueLayerData old in
    (Ok new, set_table (<[(userId, paymentId) := new]> (table w)) w).

End paymentsRepo.

(** ** [routes/payments.ts] *)

Module PaymentsRouter.

(** What a handler sends back. *)
Inductive ResBody : Type :=
  | JsonPayment (payment : gmap string Val)
  | JsonError (error msg : string).

Record HttpResponse : Type := {
  res_status : Z;
  res_body : ResBody
}.

Definition res_json (code : Z) (body : ResBody) : M HttpResponse :=
  ret {| res_status := code; res_body := body |}.

(** [mapPaymentStatus]: TrueLayer's status is returned as it is. *)
Definition mapPaymentStatus (trueLayerPayment : TrueLayerPaymentResponse) : PaymentStatus :=
  status trueLayerPayment.

(** [getUserId] of the auth middleware: [req.auth?.sub] or an exception. *)
Definition getUserId (auth_sub : option string) : M string :=
  match auth_sub with
  | Some sub => if Js.truthy_string sub then ret sub else throw (Error_ "User not authenticated")
  | None => throw (Error_ "User not authenticated")
  end.

(** The outermost try/catch of a handler: any exception becomes a 500. *)
Definition handler (body : M HttpResponse) (on_error : JsError -> ResBody)
    : World -> HttpResponse * World :=
  fun w =>
    match body w with
    | (Ok res, w') => (res, w')
    | (Throw error, w') => ({| res_status := 500; res_body := on_error error |}, w')
    end.

(** The [Payment] object literal of POST /.  A property whose value is
    undefined ([paymentLink] without a hosted page URL) is neither stored nor
    serialised. *)
Definition new_payment (userId : string) (paymentRequest : CreatePaymentRequest)
    (trueLayerPayment : TrueLayerPaymentResponse) (createdAt updatedAt : Val)
    : gmap string Val :=
  let base : gmap string Val :=
    <["userId" := VStr userId]> (
    <["paymentId" := VStr (id trueLayerPayment)]> (
    <["amount" := VNum (amount paymentRequest)]> (
    <["currency" := VStr (Js.toUpperCase (currency paymentRequest))]> (
    <["status" := VStatus (mapPaymentStatus trueLayerPayment)]> (
    <["reference" := VStr (reference paymentRequest)]> (
    <["createdAt" := createdAt]> (
    <["updatedAt" := updatedAt]> (
    <["trueLayerData" := VData trueLayerPayment]> ∅)))))))) in
  match hosted_payments_page_url trueLayerPayment with
  | Some url => <["paymentLink" := VStr url]> base
  | None => base
  end.

(** POST /api/payments *)
Definition post_root (env : Env) (auth_sub : option string)
    (paymentRequest : CreatePaymentRequest) : World -> HttpResponse * World :=
  handler
    (let* userId := getUserId auth_sub in
     if negb (Js.truthy_number (amount paymentRequest))
        || negb (Js.truthy_string (currency paymentRequest))
        || negb (Js.truthy_string (reference paymentRequest))
     then res_json 400 (JsonError "Validation error"
                          "Missing required fields: amount, currency, reference")
     else if (amount paymentRequest <=? 0)%float
     then res_json 400 (JsonError "Validation error" "Amount must be greater than 0")
     else
       let* trueLayerPayment := TrueLayerService.createPayment env paymentRequest in
       let* createdAt := new_Date_toISOString in
       let* updatedAt := new_Date_toISOString in
       let payment := new_payment userId paymentRequest trueLayerPayment createdAt updatedAt in
       let* _ := paymentsRepo.createPayment env payment in
       res_json 201 (JsonPayment payment))
    (fun error =>
       JsonError "Server error"
         (if Js.truthy_string (message error) then message error
          else "Failed to create payment")).

Definition maxAttempts : nat := 4.
Definition delayMs : Z := 800.

Inductive LoopControl : Type := Break | Continue.

(** One pass through the body of the polling loop of refresh-status, at
    attempt number [attempt], with [trueLayerPayment] holding the last
    payment fetched so far. *)
Definition poll_once (env : Env) (paymentId : string) (originalStatus : option Val)
    (attempt : nat) (trueLayerPayment : option TrueLayerPaymentResponse)
    : M (LoopControl * option TrueLayerPaymentResponse) :=
  try_catch
    (let* fetched := TrueLayerService.getPayment env paymentId in
     let mappedStatus := mapPaymentStatus fetched in
     if status_strict_neq mappedStatus originalStatus then
       ret (Break, Some fetched)
     else if (attempt <? maxAttempts)%nat then
       let* _ := sleep delayMs in
       ret (Continue, Some fetched)
     else
       ret (Break, Some fetched))
    (fun error =>
       if (attempt =? maxAttempts)%nat then throw error
       else
         let* _ := sleep delayMs in
         ret (Continue, trueLayerPayment)).

(** [while (attempt <= maxAttempts) { ... }].  Every pass that continues
    increments [attempt], so [maxAttempts] passes are all the loop can make
    from attempt 1; [fuel] counts the passes left. *)
Fixpoint poll (env : Env) (paymentId : string) (originalStatus : option Val)
    (fuel attempt : nat) (trueLayerPayment : option TrueLayerPaymentResponse)
    : M (option TrueLayerPaymentResponse) :=
  match fuel with
  | O => ret trueLayerPayment
  | S fuel' =>
      if (attempt <=? maxAttempts)%nat then
        let* step := poll_once env paymentId originalStatus attempt trueLayerPayment in
        match step with
        | (Break, fetched) => ret fetched
        | (Continue, fetched) =>
            poll env paymentId originalStatus fuel' (S attempt) fetched
        end
      else ret trueLayerPayment
  end.

Definition statusMessage_text : string :=
  "Payment status is still processing. It may take a few moments to update.".

(** The code of refresh-status after the loop: write the new status, or
    annotate the unchanged payment. *)
Definition settle (env : Env) (userId paymentId : string) (payment : gmap string Val)
    (originalStatus : option Val) (trueLayerPayment : option TrueLayerPaymentResponse)
    : M (gmap string Val) :=
  match trueLayerPayment with
  | Some fetched =>
      let mappedStatus := mapPaymentStatus fetched in
      if status_strict_neq mappedStatus (payment !! "status") then
        let* _ := paymentsRepo.updatePaymentStatus env userId paymentId mappedStatus
                    (Some fetched) in
        let* updatedAt := new_Date_toISOString in
        ret (<["updatedAt" := updatedAt]> (
             <["trueLayerData" := VData fetched]> (
             <["status" := VStatus mappedStatus]> payment)))
      else if negb (status_strict_neq mappedStatus originalStatus) then
        ret (<["canRetry" := VBool true]> (
             <["statusMessage" := VStr statusMessage_text]> payment))
      else ret payment
  | None => ret payment
  end.

(** POST /api/payments/:id/refresh-status *)
Definition post_refresh_status (env : Env) (auth_sub : option string)
    (paymentId : string) : World -> HttpResponse * World :=
  handler
    (let* userId := getUserId auth_sub in
     let* found := paymentsRepo.getPayment env userId paymentId in
     match found with
     | None => res_json 404 (JsonError "Not found" "Payment not found")
     | Some payment =>
         let originalStatus := payment !! "status" in
         let* trueLayerPayment :=
           poll env paymentId originalStatus maxAttempts 1 None in
         let* payment' :=
           settle env userId paymentId payment originalStatus trueLayerPayment in
         res_json 200 (JsonPayment payment')
     end)
    (fun _ => JsonError "Server error" "Failed to refresh payment status from TrueLayer").

End PaymentsRouter.

(** ** Reading a trace *)

Fixpoint sign_events (l : list Event) : list SignInput :=
  match l with
  | [] => []
  | EvSign inp :: l' => inp :: sign_events l'
  | _ :: l' => sign_events l'
  end.

Fixpoint http_events (l : list Event) : list HttpRequest :=
  match l with
  | [] => []
  | EvHttp rq :: l' => rq :: http_events l'
  | _ :: l' => http_events l'
  end.

(** The payment ids of the calls of [trueLayerService.getPayment]. *)
Fixpoint getPayment_events (l : list Event) : list string :=
  match l with
  | [] => []
  | EvGetPayment paymentId :: l' => paymentId :: getPayment_events l'
  | _ :: l' => getPayment_events l'
  end.

(** The durations of the sleeps. *)
Fixpoint sleep_events (l : list Event) : list Z :=
  match l with
  | [] => []
  | EvSleep ms :: l' => ms :: sleep_events l'
  | _ :: l' => sleep_events l'
  end.

(** The instants at which an UpdateCommand for [key] was built. *)
Fixpoint update_events (key : string * string) (l : list Event) : list Z :=
  match l with
  | [] => []
  | EvDbUpdate key' at_ms :: l' =>
      if bool_decide (key = key') then at_ms :: update_events key l'
      else update_events key l'
  | _ :: l' => update_events key l'
  end.

(** The value of a header of a request. *)
Fixpoint header (name : string) (headers : list (string * string)) : option string :=
  match headers with
  | [] => None
  | (k, v) :: rest => if String.eqb name k then Some v else header name rest
  end.

(** The amount_in_minor of the last request that left. *)
Definition sent_amount (w : World) : option Json :=
  match http_events (trace w) with
  | rq :: _ => rq_body rq ≫= json_field "amount_in_minor"
  | [] => None
  end.

(** The token endpoint answers every exchange. *)
Definition auth_ok (env : Env) : Prop :=
  forall n, is_Some (snd (token_endpoint env n)).

(** The path of the GET that fetches a payment. *)
Definition payment_path (paymentId : string) : string := "/v3/payments/" +:+ paymentId.

(** ** Concurrent callers of [getAccessToken]

    Node runs a call of an async function up to its first [await] before
    anything else runs.  Callers are concurrent when each of them has entered
    [getAccessToken] before the answer to any of them has arrived: all the
    [getAccessToken_begin] parts run first, then the answers are delivered
    (here in the order in which the requests were issued). *)

Module Concurrent.

Import TrueLayerService.

Fixpoint begin_all (n : nat) (w : World) : list TokenCall * World :=
  match n with
  | O => ([], w)
  | S n' =>
      let '(call, w1) := getAccessToken_begin w in
      let '(rest, w2) := begin_all n' w1 in
      (call :: rest, w2)
  end.

(** The answer to request [n], issued at [issued_at], arrives after its
    latency (and not before what has already happened). *)
Definition arrive (env : Env) (issued_at : Z) (n : nat) (w : World) : World :=
  elapse (Z.max 0 (issued_at + Z.of_N (fst (token_endpoint env n)) - now w)) w.

Fixpoint resume_all (env : Env) (issued_at : Z) (pending : list TokenCall) (w : World)
    : list (Result string) * World :=
  match pending with
  | [] => ([], w)
  | Cached token :: rest =>
      let '(results, w') := resume_all env issued_at rest w in
      (Ok token :: results, w')
  | Waiting n :: rest =>
      let '(result, w1) := getAccessToken_resume env n (arrive env issued_at n w) in
      let '(results, w2) := resume_all env issued_at rest w1 in
      (result :: results, w2)
  end.

(** The exchanges that are in flight once every caller has begun. *)
Fixpoint in_flight (pending : list TokenCall) : nat :=
  match pending with
  | [] => O
  | Waiting _ :: rest => S (in_flight rest)
  | Cached _ :: rest => in_flight rest
  end.

Definition getAccessToken_concurrent (env : Env) (n : nat) (w : World)
    : list (Result string) * World :=
  let '(pending, w1) := begin_all n w in
  resume_all env (now w1) pending w1.

(** What caller [i] is owed when the exchanges start at answer [n0]: the
    token of its own exchange. *)
Definition own_token (env : Env) (n0 i : nat) : Result string :=
  match snd (token_endpoint env (n0 + i)) with
  | Some response => Ok (access_token response)
  | None => Throw (Error_ "Failed to authenticate with TrueLayer")
  end.

End Concurrent.

(** ** The exact value of a binary64 number *)

Module Exact.

(** A finite float is [m * 2^e]. *)
Definition of_float (x : float) : option (Z * Z) :=
  match Prim2SF x with
  | S754_zero _ => Some (0, 0)
  | S754_finite sign m e => Some (if sign then Z.neg m else Z.pos m, e)
  | _ => None
  end.

(** [k * a = b] on dyadic numbers. *)
Definition times_eqb (k : Z) (a b : Z * Z) : bool :=
  let e := Z.min (snd a) (snd b) in
  (k * fst a * 2 ^ (snd a - e) =? fst b * 2 ^ (snd b - e)).

Definition is_integer (a : Z * Z) : bool :=
  if 0 <=? snd a then true else (fst a mod 2 ^ (- snd a) =? 0).

(** [y] is exactly [k] times [x]. *)
Definition is_exactly_times (k : Z) (x y : float) : bool :=
  match of_float x, of_float y with
  | Some a, Some b => times_eqb k a b
  | _, _ => false
  end.

Definition is_whole (x : float) : bool :=
  match of_float x with
  | Some a => is_integer a
  | None => false
  end.

End Exact.

(** ** Concrete scenarios *)

Module Scenario.

Definition gateway_payment (paymentId : string) (s : PaymentStatus)
    (token : option string) (reason : option string) : TrueLayerPaymentResponse :=
  {| id := paymentId; amount_in_minor := 5000%float; tl_currency := "GBP";
     payment_method := JObj [("type", JStr "bank_transfer")];
     user := JObj [("name", JStr "Test User")];
     status := s; created_at := "2024-05-01T10:00:00Z";
     resource_token := token; hosted_payments_page_url := None;
     failure_reason := reason |}.

(** The token endpoint hands out a new four-hour token at every exchange. *)
Definition four_hour_token (n : nat) : N * option TokenResponse :=
  (120%N, Some {| access_token := match n with
                                  | O => "token-a"
                                  | S O => "token-b"
                                  | _ => "token-c"
                                  end;
                  expires_in := 14400 |}).

(** An environment in which the gateway creates payment [pay-1] in state
    authorization_required with resource token [abc], and answers the GETs
    with the answers [gets]. *)
Definition env_with (gets : nat -> JsError + TrueLayerPaymentResponse) : Env :=
  {| kid := "key-1";
     randomUUID := fun n => match n with
                            | O => "0b0e6a4e-user"
                            | S O => "7c1d2f90-idem"
                            | _ => "ffffffff-more"
                            end;
     tl_sign := fun _ inp => "sig." +:+ sg_body inp;
     JSON_stringify := fun _ => "{...}";
     token_endpoint := four_hour_token;
     gateway_post := fun _ _ =>
       (300%N, inr (gateway_payment "pay-1" authorization_required (Some "abc") None));
     gateway_get := fun n _ => (90%N, gets n);
     db_send := fun _ => (4%N, None) |}.

Definition gateway_down : JsError :=
  {| message := "Request failed with status code 503"; response_title := None |}.

Definition fetched (s : PaymentStatus) : TrueLayerPaymentResponse :=
  gateway_payment "pay-1" s None None.

(** A process that has just started: no token, empty table. *)
Definition fresh : World :=
  {| now := 1714557600000; accessToken := None; tokenExpiresAt := 0;
     table := ∅; calls := fun _ => O; trace := [] |}.

(** The stored record of payment [pay-1] of user [user-1]. *)
Definition stored_payment : gmap string Val :=
  PaymentsRouter.new_payment "user-1"
    {| amount := 50%float; currency := "GBP"; reference := "inv-1";
       beneficiaryName := None; beneficiaryReference := None |}
    (TrueLayerService.attach_hosted_url
       (gateway_payment "pay-1" authorization_required (Some "abc") None))
    (VDate 1714557600000) (VDate 1714557600000).

(** A process that holds that record and nothing else. *)
Definition with_payment : World :=
  set_table {[ ("user-1", "pay-1") := stored_payment ]} fresh.

(** Fifty pounds. *)
Definition fifty_pounds : CreatePaymentRequest :=
  {| amount := 50%float; currency := "gbp"; reference := "inv-1";
     beneficiaryName := None; beneficiaryReference := None |}.

(** 19.99 pounds: the binary64 number nearest to 19.99. *)
Definition nineteen_99 : CreatePaymentRequest :=
  {| amount := 0x1.3fd70a3d70a3dp+4%float; currency := "GBP"; reference := "inv-2";
     beneficiaryName := None; beneficiaryReference := None |}.

(** Answers of the gateway to the successive GETs of payment [pay-1]. *)
Definition always_pending (n : nat) : JsError + TrueLayerPaymentResponse :=
  inr (fetched authorization_required).

Definition changes_on_third (n : nat) : JsError + TrueLayerPaymentResponse :=
  match n with
  | O | S O => inr (fetched authorization_required)
  | _ => inr (fetched executed)
  end.

Definition fails_then_executed (n : nat) : JsError + TrueLayerPaymentResponse :=
  match n with
  | O => inl gateway_down
  | _ => inr (fetched executed)
  end.

Definition always_down (n : nat) : JsError + TrueLayerPaymentResponse :=
  inl gateway_down.

(** A process that holds a token that is good for almost four hours. *)
Definition leased : World :=
  set_token "token-a" (1714557600000 + 14340000) fresh.

(** The creation of a payment of 19.99 pounds by a process that has just
    started. *)
Definition run_19_99 : PaymentsRouter.HttpResponse * World :=
  PaymentsRouter.post_root (env_with always_pending) (Some "user-1") nineteen_99 fresh.

End Scenario.

(** ** Vocabulary of the proofs *)

(** The database is reachable. *)
Definition db_ok (env : Env) : Prop := forall n, snd (db_send env n) = None.

(** The answer of the gateway to GET number [n] of a payment. *)
Definition answer (env : Env) (paymentId : string) (n : nat)
    : JsError + TrueLayerPaymentResponse :=
  snd (gateway_get env n (payment_path paymentId)).

(** [data] is an answer of the gateway to some GET of the payment. *)
Definition from_gateway (env : Env) (paymentId : string)
    (data : TrueLayerPaymentResponse) : Prop :=
  exists n, answer env paymentId n = inr data.

(** An attempt that gives the polling loop no reason to stop before the
    ceiling: the fetch fails, or the fetched status is the original one. *)
Definition quiet (originalStatus : option Val) (a : JsError + TrueLayerPaymentResponse)
    : Prop :=
  match a with
  | inl _ => True
  | inr data =>
      status_strict_neq (PaymentsRouter.mapPaymentStatus data) originalStatus = false
  end.

(** The error [getPayment] throws for any failure on the way. *)
Definition fetch_failed : JsError := Error_ "Failed to fetch payment details".

(** The world after a token exchange that succeeded, and after one that was
    refused. *)
Definition exchanged (w : World) (latency : N) (response : TokenResponse) : World :=
  set_token (access_token response)
    (now w + Z.of_N latency + (expires_in response - 60) * 1000)
    (elapse (Z.of_N latency) (count_call TokenEndpoint (log EvTokenExchange w))).

Definition refused (w : World) (latency : N) : World :=
  elapse (Z.of_N latency) (count_call TokenEndpoint (log EvTokenExchange w)).

(** What a round trip to the token endpoint leaves alone. *)
Record untouched (w w' : World) : Prop := {
  same_table : table w' = table w;
  same_db_calls : calls w' Database = calls w Database;
  same_sleeps : sleep_events (trace w') = sleep_events (trace w);
  same_updates : forall key, update_events key (trace w') = update_events key (trace w);
  same_gets : getPayment_events (trace w') = getPayment_events (trace w);
  later : now w <= now w'
}.

(** What one call of [getPayment] does: one more call in the trace, an
    outcome that is an answer of the gateway or [fetch_failed], and, when
    the token endpoint answers, the outcome of the next GET. *)
Record fetch_step (env : Env) (paymentId : string) (w : World)
    (res : Result TrueLayerPaymentResponse) (w' : World) : Prop := {
  fs_table : table w' = table w;
  fs_db_calls : calls w' Database = calls w Database;
  fs_sleeps : sleep_events (trace w') = sleep_events (trace w);
  fs_updates : forall key, update_events key (trace w') = update_events key (trace w);
  fs_gets : getPayment_events (trace w') = paymentId :: getPayment_events (trace w);
  fs_later : now w <= now w';
  fs_result :
    res = Throw fetch_failed
    \/ exists data, res = Ok data /\ from_gateway env paymentId data;
  fs_auth :
    auth_ok env ->
    calls w' GatewayGet = S (calls w GatewayGet)
    /\ res = match answer env paymentId (calls w GatewayGet) with
             | inl _ => Throw fetch_failed
             | inr data => Ok data
             end
}.

(** The world after the inter-attempt sleep. *)
Definition slept (w : World) : World :=
  elapse PaymentsRouter.delayMs (log (EvSleep PaymentsRouter.delayMs) w).

(** What [gets] passes through the polling loop with [sleeps] sleeps do to
    the world. *)
Record loop_span (paymentId : string) (w w' : World) (gets sleeps : nat) : Prop := {
  ls_table : table w' = table w;
  ls_db_calls : calls w' Database = calls w Database;
  ls_updates : forall key, update_events key (trace w') = update_events key (trace w);
  ls_gets : getPayment_events (trace w')
            = repeat paymentId gets ++ getPayment_events (trace w);
  ls_sleeps : sleep_events (trace w')
              = repeat PaymentsRouter.delayMs sleeps ++ sleep_events (trace w);
  ls_later : now w <= now w'
}.

(** The 500 of the refresh route. *)
Definition refresh_failed : PaymentsRouter.HttpResponse :=
  {| PaymentsRouter.res_status := 500;
     PaymentsRouter.res_body :=
       PaymentsRouter.JsonError "Server error"
         "Failed to refresh payment status from TrueLayer" |}.

(** The 500 of the creation route. *)
Definition create_failed (error : JsError) : PaymentsRouter.HttpResponse :=
  {| PaymentsRouter.res_status := 500;
     PaymentsRouter.res_body :=
       PaymentsRouter.JsonError "Server error"
         (if Js.truthy_string (message error) then message error
          else "Failed to create payment") |}.

(** The world once the stored payment has been read, and once the
    UpdateCommand has been sent. *)
Definition after_read (env : Env) (key : string * string) (w : World) : World :=
  elapse (Z.of_N (fst (db_send env (calls w Database))))
    (count_call Database (log (EvDbGet key) w)).

Definition after_update (env : Env) (key : string * string) (w : World) : World :=
  elapse (Z.of_N (fst (db_send env (calls w Database))))
    (count_call Database (log (EvDbUpdate key (now w)) w)).

(** What [createPayment] hands to the signing library, and the world in
    which it sends its POST: two UUIDs drawn, the body signed. *)
Definition signed_input (env : Env) (paymentData : CreatePaymentRequest) (w : World)
    : SignInput :=
  {| sg_kid := kid env; sg_method := "POST"; sg_path := "/v3/payments";
     sg_headers := [("Idempotency-Key", randomUUID env (S (calls w RandomUUID)))];
     sg_body := JSON_stringify env
                  (TrueLayerService.requestBody paymentData
                     (randomUUID env (calls w RandomUUID))) |}.

Definition prepared (env : Env) (paymentData : CreatePaymentRequest) (w : World) : World :=
  count_call Signer
    (log (EvSign (signed_input env paymentData w))
       (count_call RandomUUID (count_call RandomUUID w))).

(** * The rest of the server code *)

(** ** [services/truelayer.ts]: the signature test *)

Module SignatureTest.

Import TrueLayerService.

(** A request through the axios instance, whatever its answer holds: the
    request interceptor fetches the token, then the request leaves. *)
Definition axiosInstance_request {A : Type} (env : Env) (e : Endpoint)
    (oracle : nat -> HttpRequest -> N * (JsError + A))
    (method path : string) (body : option Json) (headers : list (string * string))
    : M A :=
  let* token := getAccessToken env in
  let rq := {| rq_method := method; rq_path := path;
               rq_headers := ("Content-Type", "application/json") :: headers
                             ++ [("Authorization", "Bearer " +:+ token)];
               rq_body := body |} in
  fun w =>
    let '(latency, answer) := oracle (calls w e) rq in
    let w1 := elapse (Z.of_N latency) (count_call e (log (EvHttp rq) w)) in
    match answer with
    | inl err => (Throw err, w1)
    | inr data => (Ok data, w1)
    end.

(** What the gateway answers to POST /test-signature: a transport failure or
    an HTTP status.  axios resolves for a status in 200..299 and rejects for
    any other one. *)
Definition validateStatus (answer : N * (JsError + Z)) : N * (JsError + Z) :=
  match answer with
  | (latency, inr code) =>
      if (200 <=? code) && (code <? 300) then (latency, inr code)
      else (latency, inl {| message := "Request failed"; response_title := None |})
  | failure => failure
  end.

Definition testBody : Json := JObj [("test", JStr "signature validation")].

(** [testSignature]: true when the answer is a 204, false for any other
    answer and for any failure. *)
Definition testSignature (env : Env) (test_endpoint : nat -> HttpRequest -> N * (JsError + Z))
    : M bool :=
  try_catch
    (let* idempotencyKey := crypto_randomUUID env in
     let* signature := signRequest env "POST" "/test-signature" testBody idempotencyKey in
     let* code :=
       axiosInstance_request env GatewayPost
         (fun n rq => validateStatus (test_endpoint n rq))
         "POST" "/test-signature" (Some testBody)
         [("Tl-Signature", signature); ("Idempotency-Key", idempotencyKey)] in
     ret (code =? 204))
    (fun _ => ret false).

End SignatureTest.

(** ** [db/payments.repository.ts]: deletion *)

Module Repository.

(** DeleteCommand: the item under the key is removed, if there is one. *)
Definition deletePayment (env : Env) (userId paymentId : string) : M unit :=
  let* _ := paymentsRepo.docClient_send env in
  effect (fun w => set_table (delete (userId, paymentId) (table w)) w).

End Repository.

(** ** [routes/payments.ts]: the routes of one payment *)

Module PaymentRoutes.

Import PaymentsRouter.

(** GET /api/payments/:id, the part in the inner try: fetch the status from
    the gateway and store it if it has changed; on any failure, go on with
    the payment as read. *)
Definition fetch_latest (env : Env) (userId paymentId : string)
    (payment : gmap string Val) : M (gmap string Val) :=
  try_catch
    (let* trueLayerPayment := TrueLayerService.getPayment env paymentId in
     let mappedStatus := mapPaymentStatus trueLayerPayment in
     if status_strict_neq mappedStatus (payment !! "status") then
       let* _ := paymentsRepo.updatePaymentStatus env userId paymentId mappedStatus
                   (Some trueLayerPayment) in
       ret (<["trueLayerData" := VData trueLayerPayment]> (
            <["status" := VStatus mappedStatus]> payment))
     else ret payment)
    (fun _ => ret payment).

(** GET /api/payments/:id *)
Definition get_by_id (env : Env) (auth_sub : option string) (paymentId : string)
    : World -> HttpResponse * World :=
  handler
    (let* userId := getUserId auth_sub in
     let* found := paymentsRepo.getPayment env userId paymentId in
     match found with
     | None => res_json 404 (JsonError "Not found" "Payment not found")
     | Some payment =>
         let* payment' := fetch_latest env userId paymentId payment in
         res_json 200 (JsonPayment payment')
     end)
    (fun _ => JsonError "Server error" "Failed to fetch payment").

(** What DELETE and the signature test send back: a status and, unless the
    answer is empty, a body. *)
Inductive Sent : Type :=
  | SentNothing
  | SentError (error msg : string)
  | SentValid (valid : bool) (msg : string).

Record Reply : Type := {
  reply_status : Z;
  reply_body : Sent
}.

Definition reply (code : Z) (body : Sent) : M Reply :=
  ret {| reply_status := code; reply_body := body |}.

Definition replying (body : M Reply) (on_error : JsError -> Sent) : World -> Reply * World :=
  fun w =>
    match body w with
    | (Ok res, w') => (res, w')
    | (Throw error, w') => ({| reply_status := 500; reply_body := on_error error |}, w')
    end.

Definition deletableStatuses : list PaymentStatus :=
  [authorization_required; authorizing; failed].

(** [deletableStatuses.includes(payment.status)] *)
Definition deletable (s : option Val) : bool :=
  match s with
  | Some (VStatus s) => bool_decide (s ∈ deletableStatuses)
  | _ => false
  end.

(** DELETE /api/payments/:id *)
Definition delete_by_id (env : Env) (auth_sub : option string) (paymentId : string)
    : World -> Reply * World :=
  replying
    (let* userId := getUserId auth_sub in
     let* found := paymentsRepo.getPayment env userId paymentId in
     match found with
     | None => reply 404 (SentError "Not found" "Payment not found")
     | Some payment =>
         if negb (deletable (payment !! "status")) then
           reply 400 (SentError "Invalid operation" "Cannot delete paid or completed payments")
         else
           let* _ := Repository.deletePayment env userId paymentId in
           reply 204 SentNothing
     end)
    (fun _ => SentError "Server error" "Failed to delete payment").

(** GET /api/payments/test-signature *)
Definition get_test_signature (env : Env)
    (test_endpoint : nat -> HttpRequest -> N * (JsError + Z)) : World -> Reply * World :=
  replying
    (let* result := SignatureTest.testSignature env test_endpoint in
     reply 200 (SentValid result
                  (if result then "Signature is valid!"
                   else "Signature validation failed - check logs")))
    (fun _ => SentError "Server error" "Failed to test signature").

End PaymentRoutes.

(** ** The in-memory store

    [MemoryStore] keeps references to [Payment] objects in a Map from
    [userId#paymentId] to the object.  The objects live in a heap of
    addresses; the Map keeps its entries in the order in which their keys
    were first set.  An instant is held as its number of milliseconds, which
    stands for its ISO-8601 string. *)

Module MemoryStore.

(** [Payment] *)
Record Payment : Type := {
  userId : string;
  paymentId : string;
  p_amount : float;
  p_currency : string;
  p_status : PaymentStatus;
  p_reference : string;
  createdAt : Z;
  updatedAt : Z;
  paymentLink : option string;
  trueLayerData : option TrueLayerPaymentResponse
}.

Record Store : Type := {
  objects : gmap nat Payment;          (* the heap: address -> object *)
  payments : list (string * nat)       (* the Map: key -> address *)
}.

Definition empty : Store := {| objects := ∅; payments := [] |}.

(** [`${userId}#${paymentId}`] *)
Definition key (userId paymentId : string) : string :=
  userId +:+ "#" +:+ paymentId.

(** [Map.prototype.get] *)
Fixpoint Map_get (k : string) (m : list (string * nat)) : option nat :=
  match m with
  | [] => None
  | (k', v) :: rest => if String.eqb k k' then Some v else Map_get k rest
  end.

(** [Map.prototype.set]: the value of an existing key is replaced where it
    stands, a new key goes to the end. *)
Fixpoint Map_set (k : string) (v : nat) (m : list (string * nat)) : list (string * nat) :=
  match m with
  | [] => [(k, v)]
  | (k', v') :: rest =>
      if String.eqb k k' then (k, v) :: rest else (k', v') :: Map_set k v rest
  end.

(** [createPayment(payment)]: [payment] is the address of the caller's
    object, which is what the Map then holds. *)
Definition createPayment (payment : nat) (st : Store) : nat * Store :=
  match objects st !! payment with
  | Some obj =>
      (payment,
       {| objects := objects st;
          payments := Map_set (key (userId obj) (paymentId obj)) payment (payments st) |})
  | None => (payment, st)
  end.

(** [getPayment(userId, paymentId)]: the stored address, or null. *)
Definition getPayment (user pid : string) (st : Store) : option nat :=
  Map_get (key user pid) (payments st).

(** [Array.from(this.payments.values())], with the objects the addresses
    point to. *)
Definition values (st : Store) : list (nat * Payment) :=
  omap (fun entry => (fun obj => (snd entry, obj)) <$> objects st !! snd entry) (payments st).

(** [listPayments(userId, status?)] *)
Definition listPayments (user : string) (wanted : option PaymentStatus) (st : Store)
    : list nat :=
  let userPayments :=
    filter (fun entry => userId (snd entry) = user) (values st) in
  match wanted with
  | Some s => fst <$> filter (fun entry => p_status (snd entry) = s) userPayments
  | None => fst <$> userPayments
  end.

(** The assignments of [updatePaymentStatus] to the stored object. *)
Definition set_status (s : PaymentStatus) (at_ms : Z)
    (data : option TrueLayerPaymentResponse) (obj : Payment) : Payment :=
  {| userId := userId obj; paymentId := paymentId obj; p_amount := p_amount obj;
     p_currency := p_currency obj; p_status := s; p_reference := p_reference obj;
     createdAt := createdAt obj; updatedAt := at_ms;
     paymentLink := paymentLink obj;
     trueLayerData := match data with
                      | Some d => Some d
                      | None => trueLayerData obj
                      end |}.

(** [updatePaymentStatus(userId, paymentId, status, trueLayerData?)], run at
    instant [at_ms]: the stored object is changed in place. *)
Definition updatePaymentStatus (at_ms : Z) (user pid : string) (s : PaymentStatus)
    (data : option TrueLayerPaymentResponse) (st : Store) : Result nat * Store :=
  match Map_get (key user pid) (payments st) with
  | None => (Throw (Error_ "Payment not found"), st)
  | Some payment =>
      match objects st !! payment with
      | Some obj =>
          (Ok payment,
           {| objects := <[payment := set_status s at_ms data obj]> (objects st);
              payments := Map_set (key user pid) payment (payments st) |})
      | None => (Ok payment, st)
      end
  end.

(** No [#] in a string. *)
Fixpoint hash_free (s : string) : bool :=
  match s with
  | EmptyString => true
  | String c s' => negb (Ascii.eqb c "#") && hash_free s'
  end.

End MemoryStore.

(** ** More vocabulary of the proofs *)

(** A token the token endpoint has issued. *)
Definition issued (env : Env) (token : string) : Prop :=
  exists n latency response,
    token_endpoint env n = (latency, Some response) /\ access_token response = token.

(** What the gateway answered to the POST of a creation with this body. *)
Definition post_answered (env : Env) (w : World) (body : Json)
    (a : JsError + TrueLayerPaymentResponse) : Prop :=
  exists rq latency,
    gateway_post env (calls w GatewayPost) rq = (latency, a)
    /\ rq_body rq = Some body.

(** The value at the end of a path of property names. *)
Fixpoint json_path (path : list string) (j : Json) : option Json :=
  match path with
  | [] => Some j
  | k :: rest => json_field k j ≫= json_path rest
  end.

(** The body of the last request that left. *)
Definition sent_body (w : World) : option Json :=
  match http_events (trace w) with
  | rq :: _ => rq_body rq
  | [] => None
  end.

(** The answers of the routes that are not a payment. *)
Definition not_authenticated : PaymentsRouter.HttpResponse :=
  {| PaymentsRouter.res_status := 500;
     PaymentsRouter.res_body :=
       PaymentsRouter.JsonError "Server error" "User not authenticated" |}.

Definition get_failed : PaymentsRouter.HttpResponse :=
  {| PaymentsRouter.res_status := 500;
     PaymentsRouter.res_body :=
       PaymentsRouter.JsonError "Server error" "Failed to fetch payment" |}.

Definition not_found : PaymentsRouter.HttpResponse :=
  {| PaymentsRouter.res_status := 404;
     PaymentsRouter.res_body := PaymentsRouter.JsonError "Not found" "Payment not found" |}.

Definition delete_failed : PaymentRoutes.Reply :=
  {| PaymentRoutes.reply_status := 500;
     PaymentRoutes.reply_body :=
       PaymentRoutes.SentError "Server error" "Failed to delete payment" |}.

Definition delete_refused : PaymentRoutes.Reply :=
  {| PaymentRoutes.reply_status := 400;
     PaymentRoutes.reply_body :=
       PaymentRoutes.SentError "Invalid operation"
         "Cannot delete paid or completed payments" |}.

Definition delete_not_found : PaymentRoutes.Reply :=
  {| PaymentRoutes.reply_status := 404;
     PaymentRoutes.reply_body := PaymentRoutes.SentError "Not found" "Payment not found" |}.

(** The world once the DeleteCommand has been sent. *)
Definition after_delete (env : Env) (w : World) : World :=
  elapse (Z.of_N (fst (db_send env (calls w Database)))) (count_call Database w).

(** The item an UpdateCommand finds under a key: the stored one, or one
    that has the key attributes only. *)
Definition item_or_key (w : World) (userId paymentId : string) : gmap string Val :=
  default {[ "userId" := VStr userId; "paymentId" := VStr paymentId ]}
          (table w !! (userId, paymentId)).

(** ** More scenarios *)

Module Scenario2.

(** A request for nothing. *)
Definition zero_pounds : CreatePaymentRequest :=
  {| amount := 0%float; currency := "GBP"; reference := "inv-3";
     beneficiaryName := None; beneficiaryReference := None |}.

(** A gateway that accepts every signature, with a 204. *)
Definition accepts (n : nat) (rq : HttpRequest) : N * (JsError + Z) := (80%N, inr 204).

(** A token endpoint answer with a lifetime of one minute. *)
Definition env_one_minute : Env :=
  {| kid := "key-1";
     randomUUID := fun _ => "0b0e6a4e-user";
     tl_sign := fun _ inp => "sig." +:+ sg_body inp;
     JSON_stringify := fun _ => "{...}";
     token_endpoint := fun _ => (120%N, Some {| access_token := "token-m"; expires_in := 60 |});
     gateway_post := fun _ _ => (300%N, inl Scenario.gateway_down);
     gateway_get := fun _ _ => (90%N, inl Scenario.gateway_down);
     db_send := fun _ => (4%N, None) |}.

(** A payment of user [alice] in the heap of the in-memory store, at
    address 7. *)
Definition alice_payment : MemoryStore.Payment :=
  {| MemoryStore.userId := "alice"; MemoryStore.paymentId := "pay-1";
     MemoryStore.p_amount := 50%float; MemoryStore.p_currency := "GBP";
     MemoryStore.p_status := authorization_required;
     MemoryStore.p_reference := "inv-1";
     MemoryStore.createdAt := 1714557600000; MemoryStore.updatedAt := 1714557600000;
     MemoryStore.paymentLink := None; MemoryStore.trueLayerData := None |}.

Definition heap_with_alice : MemoryStore.Store :=
  {| MemoryStore.objects := {[ 7%nat := alice_payment ]}; MemoryStore.payments := [] |}.

Definition store_with_alice : MemoryStore.Store :=
  snd (MemoryStore.createPayment 7 heap_with_alice).

(** A payment whose user id holds a [#]. *)
Definition odd_payment : MemoryStore.Payment :=
  {| MemoryStore.userId := "al#ice"; MemoryStore.paymentId := "pay-9";
     MemoryStore.p_amount := 50%float; MemoryStore.p_currency := "GBP";
     MemoryStore.p_status := executed;
     MemoryStore.p_reference := "inv-9";
     MemoryStore.createdAt := 1714557600000; MemoryStore.updatedAt := 1714557600000;
     MemoryStore.paymentLink := None; MemoryStore.trueLayerData := None |}.

Definition heap_with_odd : MemoryStore.Store :=
  {| MemoryStore.objects := {[ 3%nat := odd_payment ]}; MemoryStore.payments := [] |}.

End Scenario2.

(** * Proofs *)

(** ** The token cache *)

Section TokenLease.
Import TrueLayerService.
Variable env : Env.

Lemma token_is_valid_true w token :
  accessToken w = Some token -> token <> EmptyString -> now w < tokenExpiresAt w ->
  token_is_valid w = true.
Proof.
  intros Htok Hne Hlt. unfold token_is_valid. rewrite Htok. simpl.
  destruct token as [|c s]; [congruence|]. simpl.
  apply Z.ltb_lt. exact Hlt.
Qed.

Lemma getAccessToken_cached w token :
  accessToken w = Some token -> token <> EmptyString -> now w < tokenExpiresAt w ->
  getAccessToken env w = (Ok token, w).
Proof.
  intros Htok Hne Hlt. unfold getAccessToken, getAccessToken_begin.
  rewrite (token_is_valid_true w token Htok Hne Hlt). rewrite Htok. reflexivity.
Qed.

Lemma getAccessToken_exchange w latency response :
  token_is_valid w = false ->
  token_endpoint env (calls w TokenEndpoint) = (latency, Some response) ->
  getAccessToken env w = (Ok (access_token response), exchanged w latency response).
Proof.
  intros Hinv Hans. unfold getAccessToken, getAccessToken_begin, getAccessToken_resume.
  rewrite Hinv, Hans. reflexivity.
Qed.

(** C6.  A call of [getAccessToken] that finds a cached token and a clock
    before the cached expiry returns that token and leaves the world as it
    is: no exchange.  A call that finds no valid token and whose exchange
    succeeds caches the new token with expiry (time of the answer) +
    (expires_in - 60) seconds, which is 60 seconds, hence strictly, before
    the expiry the gateway reports.  So with a four-hour token, a call and a
    second call one second after the first has returned make one exchange. *)
Theorem cached_token_is_reused :
  forall w : World,
    (forall token, accessToken w = Some token -> token <> EmptyString ->
       now w < tokenExpiresAt w ->
       getAccessToken env w = (Ok token, w))
    /\ (forall latency response,
          token_is_valid w = false ->
          token_endpoint env (calls w TokenEndpoint) = (latency, Some response) ->
          exists w',
            getAccessToken env w = (Ok (access_token response), w')
            /\ now w' = now w + Z.of_N latency
            /\ accessToken w' = Some (access_token response)
            /\ tokenExpiresAt w' = now w' + (expires_in response - 60) * 1000
            /\ tokenExpiresAt w' < now w' + expires_in response * 1000
            /\ calls w' TokenEndpoint = S (calls w TokenEndpoint))
    /\ (forall latency token,
          token_is_valid w = false -> token <> EmptyString ->
          token_endpoint env (calls w TokenEndpoint)
            = (latency, Some {| access_token := token; expires_in := 4 * 3600 |}) ->
          exists w1 w2,
            getAccessToken env w = (Ok token, w1)
            /\ getAccessToken env (elapse 1000 w1) = (Ok token, w2)
            /\ calls w2 TokenEndpoint = S (calls w TokenEndpoint)
            /\ trace w2 = EvTokenExchange :: trace w).
Proof.
  intros w. split; [|split].
  - intros token. apply getAccessToken_cached.
  - intros latency response Hinv Hans. eexists. split.
    + apply getAccessToken_exchange; eassumption.
    + simpl. repeat split; lia.
  - intros latency token Hinv Hne Hans. eexists. eexists. split; [|split].
    + apply (getAccessToken_exchange w latency _ Hinv Hans).
    + apply getAccessToken_cached; simpl; [reflexivity | assumption | lia].
    + simpl. split; reflexivity.
Qed.

End TokenLease.

(** ** The idempotency key of a creation *)

Section IdempotencyKey.
Import TrueLayerService.
Variable env : Env.

Lemma getAccessToken_cases w :
  (token_is_valid w = true
   /\ getAccessToken env w = (Ok (default EmptyString (accessToken w)), w))
  \/ (token_is_valid w = false
      /\ exists latency response,
           token_endpoint env (calls w TokenEndpoint) = (latency, Some response)
           /\ getAccessToken env w
              = (Ok (access_token response), exchanged w latency response))
  \/ (token_is_valid w = false
      /\ exists latency,
           token_endpoint env (calls w TokenEndpoint) = (latency, None)
           /\ getAccessToken env w
              = (Throw (Error_ "Failed to authenticate with TrueLayer"),
                 refused w latency)).
Proof.
  unfold getAccessToken, getAccessToken_begin, getAccessToken_resume.
  destruct (token_is_valid w) eqn:Hvalid.
  - left. split; reflexivity.
  - right.
    destruct (token_endpoint env (calls w TokenEndpoint)) as [latency [response|]] eqn:Hans.
    + left. split; [reflexivity|]. exists latency, response. split; reflexivity.
    + right. split; [reflexivity|]. exists latency. split; reflexivity.
Qed.

(** C5.  A call of [createPayment] draws two UUIDs, the user id of the
    request body and then the idempotency key; it calls the signer once,
    with that key as the only header; and the POST to /v3/payments, which
    leaves unless no token can be had, carries the same key in its
    Idempotency-Key header, next to the signature made over it. *)
Theorem createPayment_one_idempotency_key :
  forall (paymentData : CreatePaymentRequest) (w : World),
    let userId := randomUUID env (calls w RandomUUID) in
    let key := randomUUID env (S (calls w RandomUUID)) in
    let signed :=
      {| sg_kid := kid env; sg_method := "POST"; sg_path := "/v3/payments";
         sg_headers := [("Idempotency-Key", key)];
         sg_body := JSON_stringify env (requestBody paymentData userId) |} in
    let w' := snd (createPayment env paymentData w) in
    exists new,
      trace w' = new ++ trace w
      /\ calls w' RandomUUID = S (S (calls w RandomUUID))
      /\ sign_events new = [signed]
      /\ match http_events new with
         | [] =>
             token_is_valid w = false
             /\ snd (token_endpoint env (calls w TokenEndpoint)) = None
         | [rq] =>
             rq_method rq = "POST" /\ rq_path rq = "/v3/payments"
             /\ header "Idempotency-Key" (rq_headers rq) = Some key
             /\ header "Tl-Signature" (rq_headers rq)
                = Some (tl_sign env (calls w Signer) signed)
             /\ rq_body rq = Some (requestBody paymentData userId)
         | _ => False
         end.
Proof.
  intros paymentData w userId key signed w'. subst w'.
  unfold createPayment, try_catch, bind, crypto_randomUUID, signRequest,
    axiosInstance_post, axiosInstance_send, bind, ret, throw.
  match goal with
  | |- context [getAccessToken env ?x] =>
      destruct (getAccessToken_cases x)
        as [[Hvalid Heq] | [[Hvalid (lat & response & Hans & Heq)]
                           | [Hvalid (lat & Hans & Heq)]]];
      rewrite Heq; clear Heq
  end; simpl.
  - match goal with
    | |- context [gateway_post env ?n ?rq] =>
        destruct (gateway_post env n rq) as [latency [err | data]]
    end; simpl; (eexists [_; _]; simpl; repeat split; reflexivity).
  - match goal with
    | |- context [gateway_post env ?n ?rq] =>
        destruct (gateway_post env n rq) as [latency [err | data]]
    end; simpl; (eexists [_; _; _]; simpl; repeat split; reflexivity).
  - eexists [_; _]; simpl. change (token_is_valid w = false) in Hvalid.
    simpl in Hans. rewrite Hans. repeat split; try reflexivity. exact Hvalid.
Qed.

End IdempotencyKey.

(** ** Concurrent callers of the token cache *)

Section SingleFlight.
Import TrueLayerService Concurrent.
Variable env : Env.

Lemma begin_all_no_token n : forall w,
  token_is_valid w = false ->
  fst (begin_all n w) = map Waiting (seq (calls w TokenEndpoint) n)
  /\ calls (snd (begin_all n w)) TokenEndpoint = (calls w TokenEndpoint + n)%nat.
Proof.
  induction n as [|n IH]; intros w Hinv.
  - simpl. split; [reflexivity | lia].
  - simpl. unfold getAccessToken_begin. rewrite Hinv.
    set (w1 := count_call TokenEndpoint (log EvTokenExchange w)).
    assert (Hinv1 : token_is_valid w1 = false) by exact Hinv.
    destruct (IH w1 Hinv1) as (Heq & Hcalls).
    destruct (begin_all n w1) as [rest w2]. simpl in *.
    split.
    + f_equal. exact Heq.
    + rewrite Hcalls. lia.
Qed.

Lemma in_flight_waiting (l : list nat) : in_flight (map Waiting l) = length l.
Proof. induction l as [|n l IH]; simpl; [reflexivity | now rewrite IH]. Qed.

Lemma resume_all_waiting issued_at (l : list nat) : forall w,
  fst (resume_all env issued_at (map Waiting l) w)
    = map (fun n => own_token env n 0) l
  /\ calls (snd (resume_all env issued_at (map Waiting l) w)) = calls w.
Proof.
  induction l as [|n l IH]; intros w; simpl.
  - split; reflexivity.
  - unfold getAccessToken_resume, own_token. rewrite Nat.add_0_r.
    destruct (snd (token_endpoint env n)) as [response|].
    + match goal with
      | |- context [resume_all env issued_at (map Waiting l) ?x] =>
          destruct (IH x) as [Hres Hcalls];
          destruct (resume_all env issued_at (map Waiting l) x) as [results w2]
      end. simpl in *. split; [f_equal; exact Hres | exact Hcalls].
    + match goal with
      | |- context [resume_all env issued_at (map Waiting l) ?x] =>
          destruct (IH x) as [Hres Hcalls];
          destruct (resume_all env issued_at (map Waiting l) x) as [results w2]
      end. simpl in *. split; [f_equal; exact Hres | exact Hcalls].
Qed.

Lemma own_token_seq n : forall start,
  map (fun m => own_token env m 0) (seq start n) = map (own_token env start) (seq 0 n).
Proof.
  induction n as [|n IH]; intros start; simpl; [reflexivity|].
  f_equal. rewrite IH, <- seq_shift, map_map.
  apply map_ext. intros i. unfold own_token. now rewrite Nat.add_succ_r.
Qed.

(** C7, as amended.  [n] callers that enter [getAccessToken] while no valid
    token is cached each start an exchange of their own: [n] exchanges are
    in flight at once, the token endpoint is called [n] times, and every
    caller receives the token of its own exchange. *)
Theorem concurrent_callers_each_exchange :
  forall (n : nat) (w : World),
    token_is_valid w = false ->
    in_flight (fst (begin_all n w)) = n
    /\ calls (snd (getAccessToken_concurrent env n w)) TokenEndpoint
       = (calls w TokenEndpoint + n)%nat
    /\ fst (getAccessToken_concurrent env n w)
       = map (own_token env (calls w TokenEndpoint)) (seq 0 n).
Proof.
  intros n w Hinv.
  destruct (begin_all_no_token n w Hinv) as [Hpending Hcalls].
  unfold getAccessToken_concurrent.
  destruct (begin_all n w) as [pending w1]. simpl in Hpending, Hcalls. subst pending.
  destruct (resume_all_waiting (now w1) (seq (calls w TokenEndpoint) n) w1) as [Hres Hc].
  simpl. split; [|split].
  - rewrite in_flight_waiting. apply length_seq.
  - rewrite Hc. exact Hcalls.
  - rewrite Hres. apply own_token_seq.
Qed.

End SingleFlight.

Lemma untouched_refl w : untouched w w.
Proof. split; auto; lia. Qed.

Lemma untouched_trans w1 w2 w3 : untouched w1 w2 -> untouched w2 w3 -> untouched w1 w3.
Proof.
  intros [T1 D1 S1 U1 G1 L1] [T2 D2 S2 U2 G2 L2].
  split; [congruence | congruence | congruence | | congruence | lia].
  intros key. rewrite U2. apply U1.
Qed.

(** ** What the service calls leave alone *)

Section Service.
Import TrueLayerService.
Variable env : Env.

Lemma getAccessToken_untouched w : untouched w (snd (getAccessToken env w)).
Proof.
  unfold getAccessToken, getAccessToken_begin, getAccessToken_resume.
  destruct (token_is_valid w); simpl; [apply untouched_refl|].
  destruct (snd (token_endpoint env (calls w TokenEndpoint))); simpl;
    split; simpl; auto; lia.
Qed.

Lemma getAccessToken_get_calls w :
  calls (snd (getAccessToken env w)) GatewayGet = calls w GatewayGet.
Proof.
  unfold getAccessToken, getAccessToken_begin, getAccessToken_resume.
  destruct (token_is_valid w); simpl; [reflexivity|].
  destruct (snd (token_endpoint env (calls w TokenEndpoint))); reflexivity.
Qed.

Lemma getAccessToken_auth_ok w :
  auth_ok env -> exists token, fst (getAccessToken env w) = Ok token.
Proof.
  intros Hauth. unfold getAccessToken, getAccessToken_begin, getAccessToken_resume.
  destruct (token_is_valid w); simpl; [eauto|].
  destruct (Hauth (calls w TokenEndpoint)) as [response ->]. eauto.
Qed.

Lemma getPayment_outcome paymentId w :
  fetch_step env paymentId w (fst (getPayment env paymentId w)) (snd (getPayment env paymentId w)).
Proof.
  unfold getPayment, try_catch, bind, effect, throw, axiosInstance_get, axiosInstance_send, bind.
  set (w0 := log (EvGetPayment paymentId) w).
  pose proof (getAccessToken_untouched w0) as Hun.
  pose proof (getAccessToken_get_calls w0) as Hcalls.
  pose proof (getAccessToken_auth_ok w0) as Hok.
  destruct (getAccessToken env w0) as [[token | err] w1]; simpl in *.
  - fold (payment_path paymentId).
    destruct (gateway_get env (calls w1 GatewayGet) (payment_path paymentId))
      as [latency [err | data]] eqn:Hans; simpl;
      destruct Hun; simpl in *; split; simpl; auto; try lia.
    + intros _. unfold answer. rewrite <- Hcalls, Hans. split; [|reflexivity].
      rewrite Hcalls. reflexivity.
    + right. exists data. split; [reflexivity|].
      exists (calls w1 GatewayGet). unfold answer. rewrite Hans. reflexivity.
    + intros _. unfold answer. rewrite <- Hcalls, Hans. split; [|reflexivity].
      rewrite Hcalls. reflexivity.
  - destruct Hun; simpl in *; split; simpl; auto; try lia.
    intros Hauth. destruct (Hok Hauth) as [token Habs]. discriminate.
Qed.

End Service.

(** ** The polling loop *)

Section Polling.
Import TrueLayerService PaymentsRouter.
Variable env : Env.
Variable paymentId : string.
Variable originalStatus : option Val.

Lemma loop_span_refl w : loop_span paymentId w w 0 0.
Proof. split; simpl; auto; lia. Qed.

Lemma loop_span_trans w1 w2 w3 a b c d :
  loop_span paymentId w1 w2 a b -> loop_span paymentId w2 w3 c d -> loop_span paymentId w1 w3 (c + a) (d + b).
Proof.
  intros [T1 D1 U1 G1 S1 L1] [T2 D2 U2 G2 S2 L2].
  split; [congruence | congruence | | | | lia].
  - intros key. rewrite U2. apply U1.
  - rewrite G2, G1, repeat_app, <- app_assoc. reflexivity.
  - rewrite S2, S1, repeat_app, <- app_assoc. reflexivity.
Qed.

Lemma fetch_step_span w res w' :
  fetch_step env paymentId w res w' -> loop_span paymentId w w' 1 0.
Proof. intros []. split; simpl; auto. Qed.

Lemma slept_span w : loop_span paymentId w (slept w) 0 1.
Proof. split; simpl; auto. unfold delayMs. lia. Qed.

Lemma loop_span_eq w w' a b a' b' :
  loop_span paymentId w w' a b -> a = a' -> b = b' -> loop_span paymentId w w' a' b'.
Proof. intros H -> ->. exact H. Qed.

(** One more pass, a sleep, and the rest of the loop. *)
Lemma loop_span_pass w w1 w' res n :
  fetch_step env paymentId w res w1 -> loop_span paymentId (slept w1) w' n (n - 1) ->
  (1 <= n)%nat ->
  loop_span paymentId w w' (S n) (S n - 1).
Proof.
  intros Hstep Hspan Hn.
  eapply loop_span_eq;
    [eapply loop_span_trans;
       [eapply loop_span_trans; [eapply fetch_step_span; eassumption | apply slept_span]
       | exact Hspan]
    | lia | lia].
Qed.

Lemma poll_once_eq attempt tlp w :
  poll_once env paymentId originalStatus attempt tlp w =
    match getPayment env paymentId w with
    | (Ok fetched, w1) =>
        if status_strict_neq (mapPaymentStatus fetched) originalStatus
        then (Ok (Break, Some fetched), w1)
        else if (attempt <? maxAttempts)%nat
             then (Ok (Continue, Some fetched), slept w1)
             else (Ok (Break, Some fetched), w1)
    | (Throw error, w1) =>
        if (attempt =? maxAttempts)%nat then (Throw error, w1)
        else (Ok (Continue, tlp), slept w1)
    end.
Proof.
  unfold poll_once, try_catch, bind.
  destruct (getPayment env paymentId w) as [[fetched | error] w1].
  - destruct (status_strict_neq _ _); [reflexivity|].
    destruct (attempt <? maxAttempts)%nat; reflexivity.
  - destruct (attempt =? maxAttempts)%nat; reflexivity.
Qed.

(** The passes the route grants are all the loop can use: with more of
    them the loop does the same. *)
Lemma poll_fuel_enough fuel : forall extra attempt tlp w,
  (1 <= attempt)%nat -> (maxAttempts - attempt < fuel)%nat ->
  poll env paymentId originalStatus (fuel + extra) attempt tlp w
  = poll env paymentId originalStatus fuel attempt tlp w.
Proof.
  induction fuel as [|fuel IH]; intros extra attempt tlp w Hatt Hfuel; [lia|].
  simpl. destruct (attempt <=? maxAttempts)%nat eqn:Hle; [|reflexivity].
  apply Nat.leb_le in Hle.
  unfold bind. rewrite poll_once_eq.
  destruct (getPayment env paymentId w) as [[fetched | error] w1].
  - destruct (status_strict_neq _ _); [reflexivity|].
    destruct (attempt <? maxAttempts)%nat eqn:Hlt; [|reflexivity].
    apply Nat.ltb_lt in Hlt. apply IH; lia.
  - destruct (attempt =? maxAttempts)%nat eqn:Heq; [reflexivity|].
    apply Nat.eqb_neq in Heq. apply IH; lia.
Qed.

(** The loop always ends, after at most [maxAttempts] calls, with one sleep
    between two calls; it writes nothing. *)
Lemma poll_runs fuel : forall attempt tlp w,
  (1 <= attempt <= maxAttempts)%nat -> (maxAttempts - attempt < fuel)%nat ->
  exists n,
    (1 <= n <= S maxAttempts - attempt)%nat
    /\ loop_span paymentId w (snd (poll env paymentId originalStatus fuel attempt tlp w)) n (n - 1)
    /\ match fst (poll env paymentId originalStatus fuel attempt tlp w) with
       | Ok (Some data) => tlp = Some data \/ from_gateway env paymentId data
       | Ok None => tlp = None
       | Throw error => error = fetch_failed
       end.
Proof.
  unfold maxAttempts.
  induction fuel as [|fuel IH]; intros attempt tlp w Hatt Hfuel; [lia|].
  simpl. replace (attempt <=? maxAttempts)%nat with true
    by (symmetry; apply Nat.leb_le; unfold maxAttempts; lia).
  unfold bind. rewrite poll_once_eq.
  pose proof (getPayment_outcome env paymentId w) as Hstep.
  destruct (getPayment env paymentId w) as [[fetched | error] w1]; simpl in Hstep.
  - assert (Hfrom : from_gateway env paymentId fetched).
    { destruct (fs_result _ _ _ _ _ Hstep) as [Habs | (data & Heq & Hfrom)];
        [discriminate|]. inversion Heq; subst. exact Hfrom. }
    destruct (status_strict_neq _ _).
    + exists 1%nat. simpl. split; [lia|]. split; [|right; exact Hfrom].
      eapply fetch_step_span; eassumption.
    + destruct (attempt <? maxAttempts)%nat eqn:Hlt.
      * apply Nat.ltb_lt in Hlt. unfold maxAttempts in Hlt.
        destruct (IH (S attempt) (Some fetched) (slept w1)) as (n & Hn & Hspan & Hres);
          [lia | lia |].
        exists (S n). split; [lia|]. split.
        -- eapply loop_span_pass; [eassumption | exact Hspan | lia].
        -- destruct (fst (poll env paymentId originalStatus fuel (S attempt) (Some fetched) (slept w1)))
             as [[data|]|err]; auto.
           ++ destruct Hres as [Heq | Hg]; [inversion Heq; subst|]; right; assumption.
           ++ discriminate.
      * exists 1%nat. simpl. split; [lia|]. split; [|right; exact Hfrom].
        eapply fetch_step_span; eassumption.
  - assert (Herr : error = fetch_failed).
    { destruct (fs_result _ _ _ _ _ Hstep) as [Heq | (data & Heq & _)];
        [inversion Heq; reflexivity | discriminate]. }
    destruct (attempt =? maxAttempts)%nat eqn:Heqb.
    + exists 1%nat. simpl. split; [lia|]. split; [|exact Herr].
      eapply fetch_step_span; eassumption.
    + apply Nat.eqb_neq in Heqb. unfold maxAttempts in Heqb.
      destruct (IH (S attempt) tlp (slept w1)) as (n & Hn & Hspan & Hres);
        [lia | lia |].
      exists (S n). split; [lia|]. split.
      * eapply loop_span_pass; [eassumption | exact Hspan | lia].
      * exact Hres.
Qed.

Hypothesis Hauth : auth_ok env.

Lemma getPayment_answer w :
  calls (snd (getPayment env paymentId w)) GatewayGet = S (calls w GatewayGet)
  /\ fst (getPayment env paymentId w)
     = match answer env paymentId (calls w GatewayGet) with
       | inl _ => Throw fetch_failed
       | inr data => Ok data
       end.
Proof. exact (fs_auth _ _ _ _ _ (getPayment_outcome env paymentId w) Hauth). Qed.

(** A quiet attempt below the ceiling: sleep, then the next attempt. *)
Lemma poll_quiet_pass fuel attempt tlp w :
  (attempt < maxAttempts)%nat -> quiet originalStatus (answer env paymentId (calls w GatewayGet)) ->
  exists tlp1 w1,
    poll env paymentId originalStatus (S fuel) attempt tlp w
      = poll env paymentId originalStatus fuel (S attempt) tlp1 w1
    /\ loop_span paymentId w w1 1 1
    /\ calls w1 GatewayGet = S (calls w GatewayGet).
Proof.
  intros Hlt Hquiet. simpl.
  replace (attempt <=? maxAttempts)%nat with true
    by (symmetry; apply Nat.leb_le; lia).
  unfold bind. rewrite poll_once_eq.
  pose proof (getPayment_outcome env paymentId w) as Hstep.
  destruct (getPayment_answer w) as [Hcalls Hres].
  destruct (getPayment env paymentId w) as [res w1]; simpl in Hstep, Hcalls, Hres.
  assert (Hspan : loop_span paymentId w (slept w1) 1 1).
  { eapply loop_span_eq;
      [eapply loop_span_trans; [eapply fetch_step_span; eassumption | apply slept_span]
      | reflexivity | reflexivity]. }
  destruct (answer env paymentId (calls w GatewayGet)) as [err | data]; subst res.
  - replace (attempt =? maxAttempts)%nat with false
      by (symmetry; apply Nat.eqb_neq; lia).
    exists tlp, (slept w1). auto.
  - simpl in Hquiet. rewrite Hquiet.
    replace (attempt <? maxAttempts)%nat with true
      by (symmetry; apply Nat.ltb_lt; lia).
    exists (Some data), (slept w1). auto.
Qed.

(** [j] quiet attempts in a row below the ceiling. *)
Lemma poll_quiet_prefix j : forall fuel attempt tlp w,
  (attempt + j <= maxAttempts)%nat ->
  (forall i, (i < j)%nat -> quiet originalStatus (answer env paymentId (calls w GatewayGet + i))) ->
  exists tlp1 w1,
    poll env paymentId originalStatus (j + fuel) attempt tlp w
      = poll env paymentId originalStatus fuel (attempt + j) tlp1 w1
    /\ loop_span paymentId w w1 j j
    /\ calls w1 GatewayGet = (calls w GatewayGet + j)%nat.
Proof.
  induction j as [|j IH]; intros fuel attempt tlp w Hle Hquiet.
  - exists tlp, w. rewrite !Nat.add_0_r. simpl. auto using loop_span_refl.
  - destruct (poll_quiet_pass (j + fuel) attempt tlp w) as (tlp1 & w1 & Heq & Hspan & Hcalls).
    + lia.
    + rewrite <- (Nat.add_0_r (calls w GatewayGet)). apply Hquiet. lia.
    + destruct (IH fuel (S attempt) tlp1 w1) as (tlp2 & w2 & Heq2 & Hspan2 & Hcalls2).
      * lia.
      * intros i Hi. rewrite Hcalls. replace (S (calls w GatewayGet) + i)%nat
          with (calls w GatewayGet + S i)%nat by lia. apply Hquiet. lia.
      * exists tlp2, w2. split; [|split].
        -- simpl Nat.add at 1. rewrite Heq, Heq2. f_equal. lia.
        -- eapply loop_span_eq; [eapply loop_span_trans; eassumption | lia | lia].
        -- lia.
Qed.

(** The pass that ends the loop: the status has changed, or this was the
    last attempt. *)
Lemma poll_last_pass fuel attempt tlp w :
  (attempt <= maxAttempts)%nat ->
  match answer env paymentId (calls w GatewayGet) with
  | inl _ => attempt = maxAttempts
  | inr data =>
      status_strict_neq (mapPaymentStatus data) originalStatus = true
      \/ attempt = maxAttempts
  end ->
  loop_span paymentId w (snd (poll env paymentId originalStatus (S fuel) attempt tlp w)) 1 0
  /\ fst (poll env paymentId originalStatus (S fuel) attempt tlp w)
     = match answer env paymentId (calls w GatewayGet) with
       | inl _ => Throw fetch_failed
       | inr data => Ok (Some data)
       end.
Proof.
  intros Hle Hlast. simpl.
  replace (attempt <=? maxAttempts)%nat with true
    by (symmetry; apply Nat.leb_le; lia).
  unfold bind. rewrite poll_once_eq.
  pose proof (getPayment_outcome env paymentId w) as Hstep.
  destruct (getPayment_answer w) as [Hcalls Hres].
  destruct (getPayment env paymentId w) as [res w1]; simpl in Hstep, Hcalls, Hres.
  apply fetch_step_span in Hstep.
  destruct (answer env paymentId (calls w GatewayGet)) as [err | data]; subst res.
  - subst attempt. simpl. auto.
  - destruct (status_strict_neq (mapPaymentStatus data) originalStatus) eqn:Hneq; simpl; auto.
    destruct Hlast as [Habs | ->]; [discriminate|]. simpl. auto.
Qed.

(** The whole loop: [j] quiet attempts, then the pass that ends it. *)
Lemma poll_after_quiet j w :
  (j < maxAttempts)%nat ->
  (forall i, (i < j)%nat -> quiet originalStatus (answer env paymentId (calls w GatewayGet + i))) ->
  match answer env paymentId (calls w GatewayGet + j) with
  | inl _ => S j = maxAttempts
  | inr data =>
      status_strict_neq (mapPaymentStatus data) originalStatus = true
      \/ S j = maxAttempts
  end ->
  loop_span paymentId w (snd (poll env paymentId originalStatus maxAttempts 1 None w)) (S j) j
  /\ fst (poll env paymentId originalStatus maxAttempts 1 None w)
     = match answer env paymentId (calls w GatewayGet + j) with
       | inl _ => Throw fetch_failed
       | inr data => Ok (Some data)
       end.
Proof.
  intros Hj Hquiet Hlast.
  destruct (poll_quiet_prefix j (S (maxAttempts - S j)) 1 None w)
    as (tlp1 & w1 & Heq & Hspan & Hcalls); [lia | exact Hquiet |].
  replace (j + S (maxAttempts - S j))%nat with maxAttempts in Heq by lia.
  rewrite Heq. rewrite <- Hcalls in *.
  destruct (poll_last_pass (maxAttempts - S j) (1 + j) tlp1 w1) as [Hspan1 Hres].
  - lia.
  - destruct (answer env paymentId (calls w1 GatewayGet)); [exact Hlast|].
    destruct Hlast; auto.
  - split; [|exact Hres].
    eapply loop_span_eq; [eapply loop_span_trans; eassumption | lia | lia].
Qed.

End Polling.

(** ** The refresh route, piece by piece *)

Section Refresh.
Import TrueLayerService PaymentsRouter.
Variable env : Env.

Lemma after_read_facts key w :
  table (after_read env key w) = table w
  /\ calls (after_read env key w) GatewayGet = calls w GatewayGet
  /\ getPayment_events (trace (after_read env key w)) = getPayment_events (trace w)
  /\ sleep_events (trace (after_read env key w)) = sleep_events (trace w)
  /\ (forall k, update_events k (trace (after_read env key w)) = update_events k (trace w))
  /\ now w <= now (after_read env key w).
Proof. unfold after_read. simpl. repeat split. lia. Qed.

(** The route, once the user is known: read, poll, settle. *)
Lemma post_refresh_status_eq sub paymentId w :
  sub <> EmptyString ->
  post_refresh_status env (Some sub) paymentId w =
    let w0 := after_read env (sub, paymentId) w in
    match snd (db_send env (calls w Database)) with
    | Some _ => (refresh_failed, w0)
    | None =>
        match table w !! (sub, paymentId) with
        | None =>
            ({| res_status := 404; res_body := JsonError "Not found" "Payment not found" |}, w0)
        | Some payment =>
            match poll env paymentId (payment !! "status") maxAttempts 1 None w0 with
            | (Throw _, w1) => (refresh_failed, w1)
            | (Ok fetched, w1) =>
                match settle env sub paymentId payment (payment !! "status") fetched w1 with
                | (Throw _, w2) => (refresh_failed, w2)
                | (Ok payment', w2) =>
                    ({| res_status := 200; res_body := JsonPayment payment' |}, w2)
                end
            end
        end
    end.
Proof.
  intros Hsub. destruct sub as [|c sub]; [congruence|].
  unfold post_refresh_status, handler, getUserId, paymentsRepo.getPayment,
    paymentsRepo.docClient_send, after_read, res_json, bind, ret, effect, get.
  cbn beta iota delta [Js.truthy_string calls log count_call elapse table fst snd].
  destruct (db_send env (calls w Database)) as [latency [err|]];
    cbn beta iota delta [fst snd]; [reflexivity|].
  change (table (elapse (Z.of_N latency)
            (count_call Database (log (EvDbGet (String c sub, paymentId)) w))))
    with (table w).
  destruct (table w !! (String c sub, paymentId)) as [payment|]; [|reflexivity].
  destruct (poll env paymentId (payment !! "status") maxAttempts 1 None _) as [[fetched|err] w1];
    [|reflexivity].
  destruct (settle env (String c sub) paymentId payment (payment !! "status") fetched w1)
    as [[payment'|err] w2]; reflexivity.
Qed.

Lemma settle_eq sub paymentId payment fetched w :
  settle env sub paymentId payment (payment !! "status") (Some fetched) w =
    if status_strict_neq (mapPaymentStatus fetched) (payment !! "status") then
      let w1 := after_update env (sub, paymentId) w in
      match snd (db_send env (calls w Database)) with
      | Some err => (Throw err, w1)
      | None =>
          let stored :=
            paymentsRepo.set_status_attributes (mapPaymentStatus fetched) (VDate (now w))
              (Some fetched)
              (default {[ "userId" := VStr sub; "paymentId" := VStr paymentId ]}
                       (table w !! (sub, paymentId))) in
          (Ok (<["updatedAt" := VDate (now w1)]> (
               <["trueLayerData" := VData fetched]> (
               <["status" := VStatus (mapPaymentStatus fetched)]> payment))),
           set_table (<[(sub, paymentId) := stored]> (table w)) w1)
      end
    else
      (Ok (<["canRetry" := VBool true]> (
           <["statusMessage" := VStr statusMessage_text]> payment)), w).
Proof.
  unfold settle.
  destruct (status_strict_neq (mapPaymentStatus fetched) (payment !! "status")) eqn:Hneq.
  - unfold paymentsRepo.updatePaymentStatus, paymentsRepo.docClient_send, after_update,
      new_Date_toISOString, bind, ret, effect, get.
    cbn beta iota delta [calls log count_call elapse table now fst snd].
    destruct (db_send env (calls w Database)) as [latency [err|]]; reflexivity.
  - reflexivity.
Qed.

End Refresh.

(** ** Convergence, exhaustion, errors and writes of the refresh route *)

Section Reconciliation.
Import TrueLayerService PaymentsRouter.
Variable env : Env.

Lemma same_status_quiet last (data : TrueLayerPaymentResponse) :
  mapPaymentStatus data = last ->
  status_strict_neq (mapPaymentStatus data) (Some (VStatus last)) = false.
Proof. intros ->. simpl. now rewrite bool_decide_eq_true_2. Qed.

Lemma other_status_changed last (data : TrueLayerPaymentResponse) :
  mapPaymentStatus data <> last ->
  status_strict_neq (mapPaymentStatus data) (Some (VStatus last)) = true.
Proof. intros Hne. simpl. now rewrite bool_decide_eq_false_2. Qed.

(** C2.  If attempts 1..k-1 fetch the last known status and attempt k
    (k <= 4) fetches another one, the refresh route makes k calls of
    [getPayment] with k-1 sleeps of 800 ms between them, and answers with
    the payment as fetched on attempt k.  The ceiling is 4 attempts, the
    delay 800 ms. *)
Theorem refresh_stops_at_first_change :
  forall (sub paymentId : string) (w : World) (payment : gmap string Val)
         (lastKnownStatus : PaymentStatus) (k : nat) (data : TrueLayerPaymentResponse),
    auth_ok env -> db_ok env -> sub <> EmptyString ->
    table w !! (sub, paymentId) = Some payment ->
    payment !! "status" = Some (VStatus lastKnownStatus) ->
    (1 <= k <= 4)%nat ->
    (forall i, (i < k - 1)%nat ->
       exists same, answer env paymentId (calls w GatewayGet + i) = inr same
                    /\ mapPaymentStatus same = lastKnownStatus) ->
    answer env paymentId (calls w GatewayGet + (k - 1)) = inr data ->
    mapPaymentStatus data <> lastKnownStatus ->
    let res := fst (post_refresh_status env (Some sub) paymentId w) in
    let w' := snd (post_refresh_status env (Some sub) paymentId w) in
    maxAttempts = 4%nat /\ delayMs = 800
    /\ getPayment_events (trace w') = repeat paymentId k ++ getPayment_events (trace w)
    /\ sleep_events (trace w') = repeat 800 (k - 1) ++ sleep_events (trace w)
    /\ res_status res = 200
    /\ exists payment',
         res_body res = JsonPayment payment'
         /\ payment' !! "status" = Some (VStatus (mapPaymentStatus data))
         /\ payment' !! "trueLayerData" = Some (VData data).
Proof.
  intros sub paymentId w payment last k data Hauth Hdb Hsub Hfound Hstatus Hk
    Hsame Hdata Hchanged res w'. subst res w'.
  rewrite (post_refresh_status_eq env sub paymentId w Hsub).
  cbv zeta. rewrite Hdb, Hfound, Hstatus.
  destruct (after_read_facts env (sub, paymentId) w) as (Htab & Hcalls & Hgets & Hsleeps & Hupd & Hnow).
  set (w0 := after_read env (sub, paymentId) w) in *.
  destruct (poll_after_quiet env paymentId (Some (VStatus last)) Hauth (k - 1) w0)
    as [Hspan Hres].
  - unfold maxAttempts. lia.
  - intros i Hi. rewrite Hcalls. destruct (Hsame i Hi) as (same & -> & Heq).
    simpl. now apply same_status_quiet.
  - rewrite Hcalls, Hdata. left. now apply other_status_changed.
  - rewrite Hcalls, Hdata in Hres.
    destruct (poll env paymentId (Some (VStatus last)) maxAttempts 1 None w0) as [fetched w1].
    simpl in Hres, Hspan. subst fetched.
    rewrite <- Hstatus. rewrite settle_eq. rewrite Hstatus.
    rewrite (other_status_changed last data Hchanged). cbv zeta. rewrite Hdb.
    destruct Hspan as [Lt Ld Lu Lg Ls Ll]. simpl.
    split; [reflexivity|]. split; [reflexivity|].
    split; [rewrite Lg, Hgets; f_equal; f_equal; lia|].
    split; [rewrite Ls, Hsleeps; reflexivity|].
    split; [reflexivity|].
    eexists. split; [reflexivity|]. split.
    + rewrite lookup_insert_ne by done. rewrite lookup_insert_ne by done.
      apply lookup_insert_eq.
    + rewrite lookup_insert_ne by done. apply lookup_insert_eq.
Qed.

(** C3.  If all 4 attempts fetch the last known status, the route answers
    200 with the payment as stored plus [statusMessage] and
    [canRetry = true]; it has made 4 calls and 3 sleeps and written
    nothing. *)
Theorem refresh_unchanged_is_advisory :
  forall (sub paymentId : string) (w : World) (payment : gmap string Val)
         (lastKnownStatus : PaymentStatus),
    auth_ok env -> db_ok env -> sub <> EmptyString ->
    table w !! (sub, paymentId) = Some payment ->
    payment !! "status" = Some (VStatus lastKnownStatus) ->
    (forall i, (i < 4)%nat ->
       exists same, answer env paymentId (calls w GatewayGet + i) = inr same
                    /\ mapPaymentStatus same = lastKnownStatus) ->
    let res := fst (post_refresh_status env (Some sub) paymentId w) in
    let w' := snd (post_refresh_status env (Some sub) paymentId w) in
    res = {| res_status := 200;
             res_body := JsonPayment
               (<["canRetry" := VBool true]> (
                <["statusMessage" :=
                    VStr "Payment status is still processing. It may take a few moments to update."]>
                  payment)) |}
    /\ getPayment_events (trace w') = repeat paymentId 4 ++ getPayment_events (trace w)
    /\ sleep_events (trace w') = repeat 800 3 ++ sleep_events (trace w)
    /\ table w' = table w.
Proof.
  intros sub paymentId w payment last Hauth Hdb Hsub Hfound Hstatus Hsame res w'.
  subst res w'.
  rewrite (post_refresh_status_eq env sub paymentId w Hsub).
  cbv zeta. rewrite Hdb, Hfound, Hstatus.
  destruct (after_read_facts env (sub, paymentId) w) as (Htab & Hcalls & Hgets & Hsleeps & Hupd & Hnow).
  set (w0 := after_read env (sub, paymentId) w) in *.
  destruct (Hsame 3%nat) as (data & Hdata & Hlast); [lia|].
  destruct (poll_after_quiet env paymentId (Some (VStatus last)) Hauth 3 w0)
    as [Hspan Hres].
  - unfold maxAttempts. lia.
  - intros i Hi. rewrite Hcalls. destruct (Hsame i) as (same & -> & Heq); [lia|].
    simpl. now apply same_status_quiet.
  - rewrite Hcalls, Hdata. right. reflexivity.
  - rewrite Hcalls, Hdata in Hres.
    destruct (poll env paymentId (Some (VStatus last)) maxAttempts 1 None w0) as [fetched w1].
    simpl in Hres, Hspan. subst fetched.
    rewrite <- Hstatus. rewrite settle_eq. rewrite Hstatus.
    rewrite (same_status_quiet last data Hlast).
    destruct Hspan as [Lt Ld Lu Lg Ls Ll]. simpl.
    split; [reflexivity|].
    split; [rewrite Lg, Hgets; reflexivity|].
    split; [rewrite Ls, Hsleeps; reflexivity|].
    congruence.
Qed.

Lemma settle_events sub paymentId payment fetched w :
  let w' := snd (settle env sub paymentId payment (payment !! "status") fetched w) in
  getPayment_events (trace w') = getPayment_events (trace w)
  /\ sleep_events (trace w') = sleep_events (trace w).
Proof.
  destruct fetched as [data|]; [|split; reflexivity].
  rewrite settle_eq.
  destruct (status_strict_neq _ _); [|split; reflexivity].
  cbv zeta. destruct (snd (db_send env (calls w Database))); split; reflexivity.
Qed.

(** C4, as amended.  A failure of [getPayment] on attempt k, after attempts
    that gave no reason to stop, ends the loop only on the last attempt
    (k = 4): the route then answers 500 after 4 calls and writes nothing.
    On an earlier attempt the failure is swallowed: the loop sleeps and
    calls [getPayment] again, so more than k calls are made. *)
Theorem refresh_error_retried_until_last :
  forall (sub paymentId : string) (w : World) (payment : gmap string Val)
         (lastKnownStatus : PaymentStatus) (k : nat) (err : JsError),
    auth_ok env -> db_ok env -> sub <> EmptyString ->
    table w !! (sub, paymentId) = Some payment ->
    payment !! "status" = Some (VStatus lastKnownStatus) ->
    (1 <= k <= 4)%nat ->
    (forall i, (i < k - 1)%nat ->
       match answer env paymentId (calls w GatewayGet + i) with
       | inl _ => True
       | inr same => mapPaymentStatus same = lastKnownStatus
       end) ->
    answer env paymentId (calls w GatewayGet + (k - 1)) = inl err ->
    let res := fst (post_refresh_status env (Some sub) paymentId w) in
    let w' := snd (post_refresh_status env (Some sub) paymentId w) in
    (k = 4%nat ->
       res = {| res_status := 500;
                res_body := JsonError "Server error"
                              "Failed to refresh payment status from TrueLayer" |}
       /\ getPayment_events (trace w') = repeat paymentId 4 ++ getPayment_events (trace w)
       /\ sleep_events (trace w') = repeat 800 3 ++ sleep_events (trace w)
       /\ table w' = table w)
    /\ ((k < 4)%nat ->
        exists n, (k < n <= 4)%nat
          /\ getPayment_events (trace w') = repeat paymentId n ++ getPayment_events (trace w)
          /\ sleep_events (trace w') = repeat 800 (n - 1) ++ sleep_events (trace w)).
Proof.
  intros sub paymentId w payment last k err Hauth Hdb Hsub Hfound Hstatus Hk
    Hquiet Herr res w'. subst res w'.
  rewrite (post_refresh_status_eq env sub paymentId w Hsub).
  cbv zeta. rewrite Hdb, Hfound, Hstatus.
  destruct (after_read_facts env (sub, paymentId) w) as (Htab & Hcalls & Hgets & Hsleeps & Hupd & Hnow).
  set (w0 := after_read env (sub, paymentId) w) in *.
  assert (Hq : forall i, (i < k - 1)%nat ->
             quiet (Some (VStatus last)) (answer env paymentId (calls w0 GatewayGet + i))).
  { intros i Hi. rewrite Hcalls. specialize (Hquiet i Hi).
    destruct (answer env paymentId (calls w GatewayGet + i)); simpl; [exact I|].
    now apply same_status_quiet. }
  split.
  - intros ->.
    destruct (poll_after_quiet env paymentId (Some (VStatus last)) Hauth 3 w0)
      as [Hspan Hres].
    + unfold maxAttempts. lia.
    + exact Hq.
    + rewrite Hcalls. simpl in Herr. rewrite Herr. reflexivity.
    + rewrite Hcalls in Hres. simpl in Herr. rewrite Herr in Hres.
      destruct (poll env paymentId (Some (VStatus last)) maxAttempts 1 None w0) as [fetched w1].
      simpl in Hres, Hspan. subst fetched. destruct Hspan as [Lt Ld Lu Lg Ls Ll]. simpl.
      split; [reflexivity|].
      split; [rewrite Lg, Hgets; reflexivity|].
      split; [rewrite Ls, Hsleeps; reflexivity|].
      congruence.
  - intros Hlt.
    destruct (poll_quiet_prefix env paymentId (Some (VStatus last)) Hauth k
                (maxAttempts - k) 1 None w0) as (tlp1 & w1 & Heq & Hspan & Hcalls1).
    + unfold maxAttempts. lia.
    + intros i Hi. destruct (Nat.eq_dec i (k - 1)%nat) as [-> | Hne].
      * rewrite Hcalls, Herr. exact I.
      * apply Hq. lia.
    + replace (k + (maxAttempts - k))%nat with maxAttempts in Heq
        by (unfold maxAttempts; lia).
      rewrite Heq.
      destruct (poll_runs env paymentId (Some (VStatus last)) (maxAttempts - k) (1 + k) tlp1 w1)
        as (n & Hn & Hspan2 & _).
      * unfold maxAttempts. lia.
      * unfold maxAttempts. lia.
      * unfold maxAttempts in Hn. exists (n + k)%nat. split; [lia|].
        pose proof (loop_span_trans _ _ _ _ _ _ _ _ Hspan Hspan2) as Hall.
        destruct (poll env paymentId (Some (VStatus last)) (maxAttempts - k) (1 + k) tlp1 w1)
          as [[fetched | e] w2]; simpl in Hall; destruct Hall as [Lt Ld Lu Lg Ls Ll].
        -- pose proof (settle_events sub paymentId payment fetched w2) as Hset.
           cbv zeta in Hset. rewrite Hstatus in Hset. destruct Hset as [Hg Hs].
           destruct (settle env sub paymentId payment (Some (VStatus last)) fetched w2)
             as [[payment' | e] w3]; simpl in Hg, Hs; simpl;
             (split; [rewrite Hg, Lg, Hgets; reflexivity
                     | rewrite Hs, Ls, Hsleeps; f_equal; f_equal; lia]).
        -- simpl. split; [rewrite Lg, Hgets; reflexivity
                         | rewrite Ls, Hsleeps; f_equal; f_equal; lia].
Qed.

(** What a run of the route can do to the table: nothing without an
    UpdateCommand, nothing with one that fails, or one successful write of
    the status a fetch has brought. *)
Lemma refresh_effect sub paymentId w payment :
  table w !! (sub, paymentId) = Some payment ->
  let w' := snd (post_refresh_status env (Some sub) paymentId w) in
  let key := (sub, paymentId) in
  (table w' = table w /\ update_events key (trace w') = update_events key (trace w))
  \/ exists data t,
       from_gateway env paymentId data
       /\ status_strict_neq (mapPaymentStatus data) (payment !! "status") = true
       /\ now w <= t <= now w'
       /\ update_events key (trace w') = t :: update_events key (trace w)
       /\ (table w' = table w
           \/ table w' =
                <[key := <["trueLayerData" := VData data]> (
                         <["updatedAt" := VDate t]> (
                         <["status" := VStatus (mapPaymentStatus data)]> payment))]>
                  (table w)).
Proof.
  intros Hfound w' key. subst w' key.
  destruct (decide (sub = EmptyString)) as [-> | Hsub].
  { left. split; reflexivity. }
  rewrite (post_refresh_status_eq env sub paymentId w Hsub). cbv zeta.
  destruct (after_read_facts env (sub, paymentId) w)
    as (Htab & Hcalls & Hgets & Hsleeps & Hupd & Hnow).
  set (w0 := after_read env (sub, paymentId) w) in *.
  destruct (snd (db_send env (calls w Database))) as [e|]; [left; auto|].
  rewrite Hfound.
  destruct (poll_runs env paymentId (payment !! "status") maxAttempts 1 None w0)
    as (n & Hn & Hspan & Hres); [unfold maxAttempts; lia | unfold maxAttempts; lia |].
  destruct (poll env paymentId (payment !! "status") maxAttempts 1 None w0)
    as [[fetched | e] w1]; simpl in Hspan, Hres; destruct Hspan as [Lt Ld Lu Lg Ls Ll].
  2: { left. simpl. split; [congruence | rewrite Lu; apply Hupd]. }
  destruct fetched as [data|].
  2: { left. simpl. split; [congruence | rewrite Lu; apply Hupd]. }
  destruct Hres as [Habs | Hfrom]; [discriminate|].
  rewrite settle_eq.
  destruct (status_strict_neq (mapPaymentStatus data) (payment !! "status")) eqn:Hneq.
  2: { left. simpl. split; [congruence | rewrite Lu; apply Hupd]. }
  right. exists data, (now w1). cbv zeta.
  split; [exact Hfrom|]. split; [first [reflexivity | exact Hneq]|].
  destruct (snd (db_send env (calls w1 Database))) as [e|]; simpl.
  - split; [lia|]. rewrite bool_decide_eq_true_2 by reflexivity.
    split; [rewrite Lu, Hupd; reflexivity|]. left. congruence.
  - split; [lia|]. rewrite bool_decide_eq_true_2 by reflexivity.
    split; [rewrite Lu, Hupd; reflexivity|]. right.
    rewrite Lt, Htab, Hfound. reflexivity.
Qed.

(** C9.  A run of the refresh route in which every fetched status is the
    stored one writes nothing: the table is as before and no UpdateCommand
    was built.  In any run the table is as before, or one fetched status
    differs from the stored one and the stored record has become the old
    record with the new status, the fetched payment as [trueLayerData], and
    [updatedAt] set to the instant at which the UpdateCommand was built. *)
Theorem refresh_writes_only_on_change :
  forall (sub paymentId : string) (w : World) (payment : gmap string Val)
         (stored : PaymentStatus),
    table w !! (sub, paymentId) = Some payment ->
    payment !! "status" = Some (VStatus stored) ->
    let w' := snd (post_refresh_status env (Some sub) paymentId w) in
    let key := (sub, paymentId) in
    ((forall n data, answer env paymentId n = inr data -> mapPaymentStatus data = stored) ->
       table w' = table w
       /\ update_events key (trace w') = update_events key (trace w))
    /\ (table w' = table w
        \/ exists data t,
             from_gateway env paymentId data
             /\ mapPaymentStatus data <> stored
             /\ now w <= t <= now w'
             /\ update_events key (trace w') = t :: update_events key (trace w)
             /\ table w' =
                  <[key := <["trueLayerData" := VData data]> (
                           <["updatedAt" := VDate t]> (
                           <["status" := VStatus (mapPaymentStatus data)]> payment))]>
                    (table w)).
Proof.
  intros sub paymentId w payment stored Hfound Hstatus w' key.
  pose proof (refresh_effect sub paymentId w payment Hfound) as Heffect.
  cbv zeta in Heffect. fold w' key in Heffect. rewrite Hstatus in Heffect.
  assert (Hne : forall data,
            status_strict_neq (mapPaymentStatus data) (Some (VStatus stored)) = true ->
            mapPaymentStatus data <> stored).
  { intros data H Heq. rewrite (same_status_quiet stored data Heq) in H. discriminate. }
  split.
  - intros Hsame.
    destruct Heffect as [Hnone | (data & t & [n Hfrom] & Hneq & _)]; [exact Hnone|].
    exfalso. apply (Hne data Hneq). apply (Hsame n). exact Hfrom.
  - destruct Heffect as [[Htab _] | (data & t & Hfrom & Hneq & Ht & Hupd & [Htab | Htab])];
      [left; exact Htab | left; exact Htab |].
    right. exists data, t. auto.
Qed.

End Reconciliation.

(** ** The creation route *)

Section Creation.
Import TrueLayerService PaymentsRouter.
Variable env : Env.

Lemma createPayment_eq paymentData w :
  createPayment env paymentData w =
    match axiosInstance_post env "/v3/payments"
            (requestBody paymentData (randomUUID env (calls w RandomUUID)))
            [("Tl-Signature", tl_sign env (calls w Signer) (signed_input env paymentData w));
             ("Idempotency-Key", randomUUID env (S (calls w RandomUUID)))]
            (prepared env paymentData w) with
    | (Ok payment, w1) => (Ok (attach_hosted_url payment), w1)
    | (Throw error, w1) => (Throw (Error_ (create_error_message error)), w1)
    end.
Proof.
  unfold createPayment, try_catch, bind, crypto_randomUUID, signRequest, ret, throw.
  change (Js.toUpperCase "POST") with "POST".
  cbn beta iota delta [calls count_call log bool_decide decide decide_rel Endpoint_eq_dec
                       Endpoint_rect Endpoint_rec].
  fold (signed_input env paymentData w). fold (prepared env paymentData w).
  destruct (axiosInstance_post env _ _ _ _) as [[payment | error] w1]; reflexivity.
Qed.

Lemma axiosInstance_post_answered path body headers w data :
  auth_ok env ->
  (forall rq, snd (gateway_post env (calls w GatewayPost) rq) = inr data) ->
  exists w1 rq,
    axiosInstance_post env path body headers w = (Ok data, w1)
    /\ table w1 = table w
    /\ calls w1 Database = calls w Database
    /\ http_events (trace w1) = rq :: http_events (trace w)
    /\ rq_body rq = Some body /\ rq_path rq = path.
Proof.
  intros Hauth Hpost.
  unfold axiosInstance_post, axiosInstance_send, bind.
  pose proof (getAccessToken_untouched env w) as Hun.
  destruct (getAccessToken_auth_ok env w Hauth) as [token Htok].
  assert (Hhttp : http_events (trace (snd (getAccessToken env w))) = http_events (trace w)
                  /\ calls (snd (getAccessToken env w)) GatewayPost = calls w GatewayPost).
  { unfold getAccessToken, getAccessToken_begin, getAccessToken_resume.
    destruct (token_is_valid w); simpl; [auto|].
    destruct (snd (token_endpoint env (calls w TokenEndpoint))); simpl; auto. }
  destruct Hhttp as [Hhttp Hcalls].
  destruct (getAccessToken env w) as [res w1].
  simpl in Htok, Hun, Hhttp, Hcalls. subst res. cbn beta iota.
  rewrite Hcalls.
  match goal with
  | |- context [gateway_post env (calls w GatewayPost) ?rq] =>
      specialize (Hpost rq);
      destruct (gateway_post env (calls w GatewayPost) rq) as [latency answer]
  end.
  simpl in Hpost. subst answer. destruct Hun.
  eexists. eexists. split; [reflexivity|]. simpl.
  repeat split; auto.
  - rewrite Hhttp. reflexivity.
  - reflexivity.
  - reflexivity.
Qed.

Lemma createPayment_created paymentData w data :
  auth_ok env ->
  (forall rq, snd (gateway_post env (calls w GatewayPost) rq) = inr data) ->
  exists w1 rq,
    createPayment env paymentData w = (Ok (attach_hosted_url data), w1)
    /\ table w1 = table w
    /\ calls w1 Database = calls w Database
    /\ http_events (trace w1) = rq :: http_events (trace w)
    /\ rq_body rq = Some (requestBody paymentData (randomUUID env (calls w RandomUUID))).
Proof.
  intros Hauth Hpost. rewrite createPayment_eq.
  destruct (axiosInstance_post_answered "/v3/payments"
              (requestBody paymentData (randomUUID env (calls w RandomUUID)))
              [("Tl-Signature", tl_sign env (calls w Signer) (signed_input env paymentData w));
               ("Idempotency-Key", randomUUID env (S (calls w RandomUUID)))]
              (prepared env paymentData w) data Hauth Hpost)
    as (w1 & rq & Heq & Htab & Hdb & Hhttp & Hbody & _).
  rewrite Heq. exists w1, rq. repeat split; auto.
Qed.

(** The route for a request that passes validation: create, store, answer. *)
Lemma post_root_valid sub paymentRequest w :
  sub <> EmptyString ->
  Js.truthy_number (amount paymentRequest) = true ->
  currency paymentRequest <> EmptyString ->
  reference paymentRequest <> EmptyString ->
  (amount paymentRequest <=? 0)%float = false ->
  post_root env (Some sub) paymentRequest w =
    match createPayment env paymentRequest w with
    | (Throw error, w1) => (create_failed error, w1)
    | (Ok trueLayerPayment, w1) =>
        let payment := new_payment sub paymentRequest trueLayerPayment
                         (VDate (now w1)) (VDate (now w1)) in
        match paymentsRepo.createPayment env payment w1 with
        | (Throw error, w2) => (create_failed error, w2)
        | (Ok _, w2) => ({| res_status := 201; res_body := JsonPayment payment |}, w2)
        end
    end.
Proof.
  intros Hsub Hamount Hcur Href Hpos.
  destruct sub as [|c sub]; [congruence|].
  unfold post_root, handler, getUserId, bind, ret, res_json, new_Date_toISOString, get.
  cbn beta iota delta [Js.truthy_string].
  rewrite Hamount, Hpos.
  destruct (currency paymentRequest) as [|c1 cur]; [congruence|].
  destruct (reference paymentRequest) as [|c2 ref]; [congruence|].
  cbn beta iota delta [Js.truthy_string negb orb].
  destruct (createPayment env paymentRequest w) as [[trueLayerPayment | error] w1];
    [|reflexivity].
  cbv zeta.
  destruct (paymentsRepo.createPayment env _ w1) as [[stored | error] w2]; reflexivity.
Qed.

Lemma item_key_new_payment sub paymentRequest trueLayerPayment createdAt updatedAt :
  paymentsRepo.item_key
    (new_payment sub paymentRequest trueLayerPayment createdAt updatedAt)
  = Some (sub, id trueLayerPayment).
Proof.
  unfold paymentsRepo.item_key, new_payment.
  destruct (hosted_payments_page_url trueLayerPayment); simplify_map_eq; reflexivity.
Qed.

Lemma new_payment_status sub paymentRequest trueLayerPayment createdAt updatedAt :
  new_payment sub paymentRequest trueLayerPayment createdAt updatedAt !! "status"
  = Some (VStatus (mapPaymentStatus trueLayerPayment)).
Proof.
  unfold new_payment.
  destruct (hosted_payments_page_url trueLayerPayment); simplify_map_eq; reflexivity.
Qed.

Lemma new_payment_amount sub paymentRequest trueLayerPayment createdAt updatedAt :
  new_payment sub paymentRequest trueLayerPayment createdAt updatedAt !! "amount"
  = Some (VNum (amount paymentRequest)).
Proof.
  unfold new_payment.
  destruct (hosted_payments_page_url trueLayerPayment); simplify_map_eq; reflexivity.
Qed.

Lemma new_payment_link sub paymentRequest trueLayerPayment createdAt updatedAt :
  new_payment sub paymentRequest trueLayerPayment createdAt updatedAt !! "paymentLink"
  = VStr <$> hosted_payments_page_url trueLayerPayment.
Proof.
  unfold new_payment.
  destruct (hosted_payments_page_url trueLayerPayment); simplify_map_eq; reflexivity.
Qed.

Lemma repo_createPayment_stored payment key w :
  db_ok env -> paymentsRepo.item_key payment = Some key ->
  exists w1,
    paymentsRepo.createPayment env payment w = (Ok payment, w1)
    /\ table w1 = <[key := payment]> (table w)
    /\ http_events (trace w1) = http_events (trace w).
Proof.
  intros Hdb Hkey. unfold paymentsRepo.createPayment. rewrite Hkey.
  unfold paymentsRepo.docClient_send, bind, ret, effect.
  cbn beta iota delta [calls log].
  specialize (Hdb (calls w Database)).
  destruct (db_send env (calls w Database)) as [latency failure]. simpl in Hdb. subst failure.
  eexists. split; [reflexivity|]. split; reflexivity.
Qed.

Lemma attach_hosted_url_both data token :
  id data <> EmptyString -> resource_token data = Some token -> token <> EmptyString ->
  attach_hosted_url data
  = with_hosted_payments_page_url (hosted_url (id data) token) data.
Proof.
  intros Hid Htok Hne. unfold attach_hosted_url. rewrite Htok.
  destruct token as [|c t]; [congruence|].
  destruct (id data) as [|c' i]; [congruence|]. reflexivity.
Qed.

(** C8.  When the gateway answers the creation with an id and a resource
    token, the creation route answers 201 with a payment whose status is the
    gateway's and whose [paymentLink] is the hosted page URL made of that id
    and that token; the record stored under (user, id) is that payment. *)
Theorem created_payment_carries_status_and_link :
  forall (sub : string) (paymentRequest : CreatePaymentRequest) (w : World)
         (data : TrueLayerPaymentResponse) (token : string),
    auth_ok env -> db_ok env -> sub <> EmptyString ->
    Js.truthy_number (amount paymentRequest) = true ->
    currency paymentRequest <> EmptyString ->
    reference paymentRequest <> EmptyString ->
    (amount paymentRequest <=? 0)%float = false ->
    (forall rq, snd (gateway_post env (calls w GatewayPost) rq) = inr data) ->
    id data <> EmptyString ->
    resource_token data = Some token -> token <> EmptyString ->
    let res := fst (post_root env (Some sub) paymentRequest w) in
    let w' := snd (post_root env (Some sub) paymentRequest w) in
    let link :=
      "https://payment.truelayer-sandbox.com/payments#payment_id=" +:+ id data
      +:+ "&resource_token=" +:+ token
      +:+ "&return_uri=http%3A%2F%2Flocalhost%3A5173%2Fdashboard" in
    res_status res = 201
    /\ link <> EmptyString
    /\ exists payment,
         res_body res = JsonPayment payment
         /\ payment !! "status" = Some (VStatus (status data))
         /\ payment !! "paymentLink" = Some (VStr link)
         /\ table w' !! (sub, id data) = Some payment.
Proof.
  intros sub paymentRequest w data token Hauth Hdb Hsub Hamount Hcur Href Hpos
    Hpost Hid Htok Hne res w' link. subst res w'.
  rewrite (post_root_valid sub paymentRequest w Hsub Hamount Hcur Href Hpos).
  destruct (createPayment_created paymentRequest w data Hauth Hpost)
    as (w1 & rq & Heq & Htab & Hcalls & _).
  rewrite Heq. cbv zeta.
  rewrite (attach_hosted_url_both data token Hid Htok Hne).
  set (created := with_hosted_payments_page_url (hosted_url (id data) token) data).
  set (payment := new_payment sub paymentRequest created (VDate (now w1)) (VDate (now w1))).
  destruct (repo_createPayment_stored payment (sub, id data) w1 Hdb) as (w2 & Hput & Htab2 & _).
  { exact (item_key_new_payment sub paymentRequest created _ _). }
  rewrite Hput. simpl.
  split; [reflexivity|]. split; [discriminate|].
  exists payment. split; [reflexivity|].
  split; [exact (new_payment_status sub paymentRequest created _ _)|].
  split; [exact (new_payment_link sub paymentRequest created _ _)|].
  rewrite Htab2. apply lookup_insert_eq.
Qed.

End Creation.

(** ** Status mapping, amounts, and the scenarios *)

Import TrueLayerService PaymentsRouter.

(** C1.  [mapPaymentStatus] returns the status of the gateway's payment as
    it is, whatever the status and whatever the other fields, the failure
    reason among them. *)
Theorem mapPaymentStatus_verbatim :
  forall (paymentId : string) (minor : float) (cur : string) (method usr : Json)
         (s : PaymentStatus) (created : string) (token url reason : option string),
    mapPaymentStatus
      {| id := paymentId; amount_in_minor := minor; tl_currency := cur;
         payment_method := method; user := usr; status := s; created_at := created;
         resource_token := token; hosted_payments_page_url := url;
         failure_reason := reason |} = s.
Proof. reflexivity. Qed.

(** The amount the creation route sends and the amount it stores: the body
    of the POST carries the binary64 product of the caller's amount and 100,
    the stored record the caller's amount. *)
Lemma requestBody_amount_in_minor paymentData userId :
  json_field "amount_in_minor" (requestBody paymentData userId)
  = Some (JNum (amount paymentData * 100)%float).
Proof. reflexivity. Qed.

(** C10, at the failing input.  For the amount 19.99 the route answers 201
    and stores 19.99, but the amount_in_minor it sends is the binary64
    number 1998.9999999999998: not 1999, not a whole number of minor units,
    and not 100 times the amount it was given. *)
Theorem minor_units_inexact_at_19_99 :
  res_status (fst Scenario.run_19_99) = 201
  /\ sent_amount (snd Scenario.run_19_99) = Some (JNum 0x1.f3bffffffffffp+10%float)
  /\ (0x1.f3bffffffffffp+10 =? 1999)%float = false
  /\ Exact.is_whole 0x1.f3bffffffffffp+10%float = false
  /\ Exact.is_exactly_times 100 (amount Scenario.nineteen_99) 0x1.f3bffffffffffp+10%float
     = false
  /\ (table (snd Scenario.run_19_99) !! ("user-1", "pay-1")) ≫= (fun p => p !! "amount")
     = Some (VNum (amount Scenario.nineteen_99)).
Proof. vm_compute. repeat split. Qed.

(** For fifty pounds the product is exact. *)
Lemma minor_units_exact_at_50 :
  json_field "amount_in_minor" (requestBody Scenario.fifty_pounds "u")
  = Some (JNum 5000%float)
  /\ Exact.is_exactly_times 100 (amount Scenario.fifty_pounds) 5000%float = true.
Proof. vm_compute. split; reflexivity. Qed.

(** The scenarios: the token endpoint answers, the database is reachable,
    the payment is stored in state authorization_required. *)
Lemma auth_ok_env_with gets : auth_ok (Scenario.env_with gets).
Proof. intros n. simpl. eauto. Qed.

Lemma db_ok_env_with gets : db_ok (Scenario.env_with gets).
Proof. intros n. reflexivity. Qed.

Lemma stored_payment_found :
  table Scenario.with_payment !! ("user-1", "pay-1") = Some Scenario.stored_payment.
Proof. apply lookup_singleton_eq. Qed.

Lemma stored_payment_status :
  Scenario.stored_payment !! "status" = Some (VStatus authorization_required).
Proof. apply new_payment_status. Qed.

(** The token cache on a process that holds a lease, and on one that has
    just started. *)
Lemma cached_token_is_reused_witness :
  (accessToken Scenario.leased = Some "token-a" /\ now Scenario.leased < tokenExpiresAt Scenario.leased
   /\ getAccessToken (Scenario.env_with Scenario.always_pending) Scenario.leased = (Ok "token-a", Scenario.leased))
  /\ (token_is_valid Scenario.fresh = false
      /\ exists w1 w2,
           getAccessToken (Scenario.env_with Scenario.always_pending) Scenario.fresh
             = (Ok "token-a", w1)
           /\ getAccessToken (Scenario.env_with Scenario.always_pending) (elapse 1000 w1)
              = (Ok "token-a", w2)
           /\ calls w2 TokenEndpoint = 1%nat
           /\ trace w2 = [EvTokenExchange]).
Proof.
  pose proof (cached_token_is_reused (Scenario.env_with Scenario.always_pending) Scenario.leased) as [Hhit _].
  pose proof (cached_token_is_reused (Scenario.env_with Scenario.always_pending) Scenario.fresh)
    as (_ & _ & Htwice).
  split.
  - split; [reflexivity|]. split; [reflexivity|].
    apply Hhit; [reflexivity | discriminate | reflexivity].
  - split; [reflexivity|].
    apply (Htwice 120%N "token-a"); [reflexivity | discriminate | reflexivity].
Defined.

(** Three callers at once on a process that has just started. *)
Lemma concurrent_callers_each_exchange_witness :
  token_is_valid Scenario.fresh = false
  /\ Concurrent.in_flight (fst (Concurrent.begin_all 3 Scenario.fresh)) = 3%nat
  /\ calls (snd (Concurrent.getAccessToken_concurrent (Scenario.env_with Scenario.always_pending) 3
                   Scenario.fresh)) TokenEndpoint = 3%nat
  /\ fst (Concurrent.getAccessToken_concurrent (Scenario.env_with Scenario.always_pending) 3
            Scenario.fresh)
     = [Ok "token-a"; Ok "token-b"; Ok "token-c"].
Proof.
  split; [reflexivity|].
  exact (concurrent_callers_each_exchange (Scenario.env_with Scenario.always_pending) 3
           Scenario.fresh eq_refl).
Defined.

(** C7, as stated, fails: two concurrent callers with no cached token make
    two exchanges, not one, both in flight together, and do not receive the
    same token. *)
Lemma concurrent_exchange_counterexample :
  token_is_valid Scenario.fresh = false
  /\ Concurrent.in_flight (fst (Concurrent.begin_all 2 Scenario.fresh)) = 2%nat
  /\ calls (snd (Concurrent.getAccessToken_concurrent (Scenario.env_with Scenario.always_pending) 2
                   Scenario.fresh)) TokenEndpoint <> 1%nat
  /\ fst (Concurrent.getAccessToken_concurrent (Scenario.env_with Scenario.always_pending) 2
            Scenario.fresh)
     = [Ok "token-a"; Ok "token-b"].
Proof. vm_compute. repeat split. discriminate. Qed.

(** The status changes on the third attempt. *)
Lemma refresh_stops_at_first_change_witness :
  let run := post_refresh_status (Scenario.env_with Scenario.changes_on_third) (Some "user-1")
               "pay-1" Scenario.with_payment in
  (forall i, (i < 3 - 1)%nat ->
     exists same,
       answer (Scenario.env_with Scenario.changes_on_third) "pay-1"
         (calls Scenario.with_payment GatewayGet + i) = inr same
       /\ mapPaymentStatus same = authorization_required)
  /\ answer (Scenario.env_with Scenario.changes_on_third) "pay-1"
       (calls Scenario.with_payment GatewayGet + (3 - 1)) = inr (Scenario.fetched executed)
  /\ getPayment_events (trace (snd run)) = ["pay-1"; "pay-1"; "pay-1"]
  /\ sleep_events (trace (snd run)) = [800; 800]
  /\ res_status (fst run) = 200
  /\ exists payment',
       res_body (fst run) = JsonPayment payment'
       /\ payment' !! "status" = Some (VStatus executed)
       /\ payment' !! "trueLayerData" = Some (VData (Scenario.fetched executed)).
Proof.
  intros run.
  assert (Hsame : forall i, (i < 3 - 1)%nat ->
            exists same,
              answer (Scenario.env_with Scenario.changes_on_third) "pay-1"
                (calls Scenario.with_payment GatewayGet + i) = inr same
              /\ mapPaymentStatus same = authorization_required).
  { intros i Hi. destruct i as [|[|i]]; [eexists; split; reflexivity ..|lia]. }
  split; [exact Hsame|]. split; [reflexivity|].
  destruct (refresh_stops_at_first_change (Scenario.env_with Scenario.changes_on_third)
              "user-1" "pay-1" Scenario.with_payment Scenario.stored_payment
              authorization_required 3 (Scenario.fetched executed)
              (auth_ok_env_with _) (db_ok_env_with _)
              ltac:(discriminate) stored_payment_found stored_payment_status
              ltac:(lia) Hsame eq_refl ltac:(discriminate))
    as (_ & _ & Hgets & Hsleeps & Hcode & Hbody).
  repeat split; assumption.
Defined.

(** The status never changes. *)
Lemma refresh_unchanged_is_advisory_witness :
  let run := post_refresh_status (Scenario.env_with Scenario.always_pending) (Some "user-1")
               "pay-1" Scenario.with_payment in
  (forall i, (i < 4)%nat ->
     exists same,
       answer (Scenario.env_with Scenario.always_pending) "pay-1"
         (calls Scenario.with_payment GatewayGet + i) = inr same
       /\ mapPaymentStatus same = authorization_required)
  /\ fst run =
       {| res_status := 200;
          res_body := JsonPayment
            (<["canRetry" := VBool true]> (
             <["statusMessage" :=
                 VStr "Payment status is still processing. It may take a few moments to update."]>
               Scenario.stored_payment)) |}
  /\ getPayment_events (trace (snd run)) = ["pay-1"; "pay-1"; "pay-1"; "pay-1"]
  /\ sleep_events (trace (snd run)) = [800; 800; 800]
  /\ table (snd run) = table Scenario.with_payment.
Proof.
  intros run.
  assert (Hsame : forall i, (i < 4)%nat ->
            exists same,
              answer (Scenario.env_with Scenario.always_pending) "pay-1"
                (calls Scenario.with_payment GatewayGet + i) = inr same
              /\ mapPaymentStatus same = authorization_required).
  { intros i Hi. eexists. split; reflexivity. }
  split; [exact Hsame|].
  exact (refresh_unchanged_is_advisory (Scenario.env_with Scenario.always_pending)
           "user-1" "pay-1" Scenario.with_payment Scenario.stored_payment
           authorization_required
           (auth_ok_env_with _) (db_ok_env_with _)
           ltac:(discriminate) stored_payment_found stored_payment_status Hsame).
Defined.

(** C4, as stated, fails: the first call of [getPayment] fails, and the loop
    goes on; a second call is made, and the route answers 200 with the
    status it fetched. *)
Lemma refresh_error_counterexample :
  let run := post_refresh_status (Scenario.env_with Scenario.fails_then_executed) (Some "user-1")
               "pay-1" Scenario.with_payment in
  answer (Scenario.env_with Scenario.fails_then_executed) "pay-1" 0 = inl Scenario.gateway_down
  /\ fst (getPayment (Scenario.env_with Scenario.fails_then_executed) "pay-1" Scenario.with_payment)
     = Throw fetch_failed
  /\ getPayment_events (trace (snd run)) = ["pay-1"; "pay-1"]
  /\ sleep_events (trace (snd run)) = [800]
  /\ res_status (fst run) = 200
  /\ match res_body (fst run) with
     | JsonPayment payment => payment !! "status"
     | JsonError _ _ => None
     end = Some (VStatus executed).
Proof. vm_compute. repeat split. Qed.

(** The gateway is down on every attempt; and down on the first only. *)
Lemma refresh_error_retried_until_last_witness :
  let last := post_refresh_status (Scenario.env_with Scenario.always_down) (Some "user-1")
                "pay-1" Scenario.with_payment in
  (fst last = refresh_failed
   /\ getPayment_events (trace (snd last)) = ["pay-1"; "pay-1"; "pay-1"; "pay-1"]
   /\ sleep_events (trace (snd last)) = [800; 800; 800]
   /\ table (snd last) = table Scenario.with_payment)
  /\ (let run := post_refresh_status (Scenario.env_with Scenario.fails_then_executed)
                   (Some "user-1") "pay-1" Scenario.with_payment in
      exists n, (1 < n <= 4)%nat
        /\ getPayment_events (trace (snd run)) = repeat "pay-1" n
        /\ sleep_events (trace (snd run)) = repeat 800 (n - 1)).
Proof.
  split.
  - apply (refresh_error_retried_until_last (Scenario.env_with Scenario.always_down)
             "user-1" "pay-1" Scenario.with_payment Scenario.stored_payment
             authorization_required 4 Scenario.gateway_down
             (auth_ok_env_with _) (db_ok_env_with _)
             ltac:(discriminate) stored_payment_found stored_payment_status
             ltac:(lia)).
    + intros i Hi. exact I.
    + reflexivity.
    + reflexivity.
  - destruct (refresh_error_retried_until_last (Scenario.env_with Scenario.fails_then_executed)
                "user-1" "pay-1" Scenario.with_payment Scenario.stored_payment
                authorization_required 1 Scenario.gateway_down
                (auth_ok_env_with _) (db_ok_env_with _)
                ltac:(discriminate) stored_payment_found stored_payment_status
                ltac:(lia) ltac:(intros i Hi; lia) eq_refl) as [_ Hmore].
    destruct (Hmore ltac:(lia)) as (n & Hn & Hgets & Hsleeps).
    exists n. rewrite !app_nil_r in *. auto.
Defined.

(** The status never changes: nothing is written. *)
Lemma refresh_writes_only_on_change_witness :
  let run := post_refresh_status (Scenario.env_with Scenario.always_pending) (Some "user-1")
               "pay-1" Scenario.with_payment in
  (forall n data,
     answer (Scenario.env_with Scenario.always_pending) "pay-1" n = inr data ->
     mapPaymentStatus data = authorization_required)
  /\ table (snd run) = table Scenario.with_payment
  /\ update_events ("user-1", "pay-1") (trace (snd run)) = [].
Proof.
  intros run.
  assert (Hsame : forall n data,
            answer (Scenario.env_with Scenario.always_pending) "pay-1" n = inr data ->
            mapPaymentStatus data = authorization_required).
  { intros n data Heq. inversion Heq. reflexivity. }
  split; [exact Hsame|].
  exact (proj1 (refresh_writes_only_on_change (Scenario.env_with Scenario.always_pending)
                  "user-1" "pay-1" Scenario.with_payment Scenario.stored_payment
                  authorization_required stored_payment_found stored_payment_status)
           Hsame).
Defined.

(** Fifty pounds, that is 5000 minor units, in GBP: the gateway answers
    authorization_required with resource token abc. *)
Lemma created_payment_carries_status_and_link_witness :
  let run := post_root (Scenario.env_with Scenario.always_pending) (Some "user-1")
               Scenario.fifty_pounds Scenario.fresh in
  Js.truthy_number (amount Scenario.fifty_pounds) = true
  /\ (amount Scenario.fifty_pounds <=? 0)%float = false
  /\ res_status (fst run) = 201
  /\ exists payment,
       res_body (fst run) = JsonPayment payment
       /\ payment !! "status" = Some (VStatus authorization_required)
       /\ payment !! "paymentLink"
          = Some (VStr "https://payment.truelayer-sandbox.com/payments#payment_id=pay-1&resource_token=abc&return_uri=http%3A%2F%2Flocalhost%3A5173%2Fdashboard")
       /\ table (snd run) !! ("user-1", "pay-1") = Some payment.
Proof.
  intros run. split; [reflexivity|]. split; [reflexivity|].
  destruct (created_payment_carries_status_and_link (Scenario.env_with Scenario.always_pending)
              "user-1" Scenario.fifty_pounds Scenario.fresh
              (Scenario.gateway_payment "pay-1" authorization_required (Some "abc") None)
              "abc"
              (auth_ok_env_with _) (db_ok_env_with _)
              ltac:(discriminate) eq_refl ltac:(discriminate) ltac:(discriminate) eq_refl
              ltac:(intros rq; reflexivity) ltac:(discriminate) eq_refl ltac:(discriminate))
    as (Hcode & _ & Hbody).
  split; [exact Hcode | exact Hbody].
Defined.

(** * The rest of the server code: proofs *)

Section TokenCacheMore.
Import TrueLayerService.
Variable env : Env.

(** X1.  After an exchange that brought a non-empty token, a call made
    [d] ms after the answer returns the cached token without an exchange
    when [d] is below (expires_in - 60) seconds, and makes a second exchange
    otherwise; so a token with a lifetime of at most 60 seconds is never
    reused. *)
Theorem token_reused_inside_its_window :
  forall (w : World) (latency : N) (response : TokenResponse) (d : Z),
    token_is_valid w = false ->
    token_endpoint env (calls w TokenEndpoint) = (latency, Some response) ->
    access_token response <> EmptyString ->
    let w' := snd (getAccessToken env w) in
    (d < (expires_in response - 60) * 1000 ->
       getAccessToken env (elapse d w') = (Ok (access_token response), elapse d w'))
    /\ ((expires_in response - 60) * 1000 <= d ->
          token_is_valid (elapse d w') = false
          /\ calls (snd (getAccessToken env (elapse d w'))) TokenEndpoint
             = S (S (calls w TokenEndpoint))).
Proof.
  intros w latency response d Hinv Hans Hne w'. subst w'.
  rewrite (getAccessToken_exchange env w latency response Hinv Hans).
  cbn [snd]. split.
  - intros Hd. apply getAccessToken_cached; simpl; [reflexivity | exact Hne | lia].
  - intros Hd.
    assert (Hexp : token_is_valid (elapse d (exchanged w latency response)) = false).
    { unfold token_is_valid. simpl. apply andb_false_intro2. apply Z.ltb_ge. lia. }
    split; [exact Hexp|].
    unfold getAccessToken, getAccessToken_begin. rewrite Hexp.
    unfold getAccessToken_resume.
    destruct (snd (token_endpoint env _)); reflexivity.
Qed.

(** X2.  [getAccessToken] keeps the cache to tokens the token endpoint has
    issued and returns only such a token; when the exchange fails it throws
    the authentication error and leaves the cached token and expiry as they
    were. *)
Theorem cache_holds_issued_tokens :
  forall w : World,
    (forall token, accessToken w = Some token -> issued env token) ->
    let res := fst (getAccessToken env w) in
    let w' := snd (getAccessToken env w) in
    (forall token, accessToken w' = Some token -> issued env token)
    /\ match res with
       | Ok token => issued env token
       | Throw error =>
           error = Error_ "Failed to authenticate with TrueLayer"
           /\ accessToken w' = accessToken w
           /\ tokenExpiresAt w' = tokenExpiresAt w
       end.
Proof.
  intros w Hinv res w'. subst res w'.
  destruct (getAccessToken_cases env w)
    as [[Hvalid Heq] | [[Hvalid (lat & response & Hans & Heq)]
                       | [Hvalid (lat & Hans & Heq)]]]; rewrite Heq; cbn [fst snd].
  - split; [exact Hinv|].
    unfold token_is_valid in Hvalid.
    destruct (accessToken w) as [token|] eqn:Htok; [|discriminate].
    simpl. apply Hinv. reflexivity.
  - assert (Hissued : issued env (access_token response)).
    { exists (calls w TokenEndpoint), lat, response. split; [exact Hans | reflexivity]. }
    split; [|exact Hissued].
    intros token Htok. simpl in Htok. inversion Htok. subst. exact Hissued.
  - split; [exact Hinv|]. repeat split.
Qed.

End TokenCacheMore.

Section CreationMore.
Import TrueLayerService PaymentsRouter.
Variable env : Env.

Lemma axiosInstance_post_outcome path body headers w :
  let res := fst (axiosInstance_post env path body headers w) in
  let w1 := snd (axiosInstance_post env path body headers w) in
  table w1 = table w
  /\ calls w1 Database = calls w Database
  /\ now w <= now w1
  /\ match res with
     | Ok data =>
         post_answered env w body (inr data)
         /\ exists rq, http_events (trace w1) = rq :: http_events (trace w)
                       /\ rq_body rq = Some body
     | Throw error =>
         (error = Error_ "Failed to authenticate with TrueLayer"
          /\ http_events (trace w1) = http_events (trace w))
         \/ post_answered env w body (inl error)
     end.
Proof.
  intros res w1. subst res w1.
  unfold axiosInstance_post, axiosInstance_send, bind.
  pose proof (getAccessToken_untouched env w) as [Ht Hd _ _ _ Hl].
  assert (Hhttp : http_events (trace (snd (getAccessToken env w))) = http_events (trace w)
                  /\ calls (snd (getAccessToken env w)) GatewayPost = calls w GatewayPost
                  /\ match fst (getAccessToken env w) with
                     | Ok _ => True
                     | Throw e => e = Error_ "Failed to authenticate with TrueLayer"
                     end).
  { unfold getAccessToken, getAccessToken_begin, getAccessToken_resume.
    destruct (token_is_valid w); simpl; [auto|].
    destruct (snd (token_endpoint env (calls w TokenEndpoint))); simpl; auto. }
  destruct Hhttp as (Hhttp & Hcalls & Herr).
  destruct (getAccessToken env w) as [[token | err] w1]; simpl in *.
  - rewrite Hcalls.
    match goal with
    | |- context [gateway_post env (calls w GatewayPost) ?rq] =>
        destruct (gateway_post env (calls w GatewayPost) rq) as [latency [e | data]] eqn:Hans
    end; simpl.
    + repeat split; auto; try lia. right. eexists. exists latency. split; [exact Hans|reflexivity].
    + repeat split; auto; try lia.
      * eexists. exists latency. split; [exact Hans|reflexivity].
      * eexists. split; [rewrite Hhttp; reflexivity | reflexivity].
  - repeat split; auto.
Qed.


Lemma createPayment_frame paymentData w :
  table (snd (createPayment env paymentData w)) = table w
  /\ match fst (createPayment env paymentData w) with
     | Ok _ =>
         sent_body (snd (createPayment env paymentData w))
         = Some (requestBody paymentData (randomUUID env (calls w RandomUUID)))
     | Throw _ => True
     end.
Proof.
  rewrite createPayment_eq.
  match goal with
  | |- context [axiosInstance_post env ?p ?b ?h ?x] =>
      pose proof (axiosInstance_post_outcome p b h x) as Hout
  end.
  cbv zeta in Hout.
  destruct (axiosInstance_post env _ _ _ _) as [[payment | error] w1];
    cbn [fst snd] in *; destruct Hout as (Ht & _ & _ & Hres); split; auto.
  destruct Hres as (_ & rq & Hhttp & Hbody). unfold sent_body. rewrite Hhttp. exact Hbody.
Qed.

Lemma repo_createPayment_cases payment k w :
  paymentsRepo.item_key payment = Some k ->
  let res := fst (paymentsRepo.createPayment env payment w) in
  let w1 := snd (paymentsRepo.createPayment env payment w) in
  http_events (trace w1) = http_events (trace w)
  /\ match res with
     | Ok stored => stored = payment /\ table w1 = <[k := payment]> (table w)
     | Throw _ => table w1 = table w
     end.
Proof.
  intros Hkey. cbv zeta. unfold paymentsRepo.createPayment. rewrite Hkey.
  unfold paymentsRepo.docClient_send, bind, ret, effect.
  cbn beta iota delta [calls log].
  destruct (db_send env (calls w Database)) as [latency [err|]]; simpl; auto.
Qed.

Lemma post_root_not_authenticated paymentRequest w :
  post_root env None paymentRequest w = (not_authenticated, w)
  /\ post_root env (Some EmptyString) paymentRequest w = (not_authenticated, w).
Proof. split; reflexivity. Qed.

Lemma post_root_rejects :
  forall (sub : string) (paymentRequest : CreatePaymentRequest) (w : World),
    sub <> EmptyString ->
    Js.truthy_number (amount paymentRequest) = false
    \/ currency paymentRequest = EmptyString
    \/ reference paymentRequest = EmptyString
    \/ (amount paymentRequest <=? 0)%float = true ->
    let res := fst (post_root env (Some sub) paymentRequest w) in
    res_status res = 400
    /\ (exists msg, res_body res = JsonError "Validation error" msg)
    /\ snd (post_root env (Some sub) paymentRequest w) = w.
Proof.
  intros sub paymentRequest w Hsub Hbad res. subst res.
  destruct sub as [|c sub]; [congruence|].
  unfold post_root, handler, getUserId, bind, ret, res_json.
  cbn beta iota delta [Js.truthy_string].
  destruct (Js.truthy_number (amount paymentRequest)) eqn:Hnum;
    [|simpl; eauto].
  destruct (currency paymentRequest) as [|c1 cur] eqn:Hcur; [simpl; eauto|].
  destruct (reference paymentRequest) as [|c2 ref] eqn:Href; [simpl; eauto|].
  destruct (amount paymentRequest <=? 0)%float eqn:Hpos; [simpl; eauto|].
  destruct Hbad as [H | [H | [H | H]]]; discriminate.
Qed.

(** X4.  A creation request whose amount is 0, NaN or not positive, or
    whose currency or reference is empty, is answered 400 with a validation
    error, and nothing else happens: no UUID is drawn, no token fetched, no
    request sent, nothing stored. *)
Theorem invalid_creation_has_no_effect :
  forall (sub : string) (paymentRequest : CreatePaymentRequest) (w : World),
    sub <> EmptyString ->
    Js.truthy_number (amount paymentRequest) = false
    \/ currency paymentRequest = EmptyString
    \/ reference paymentRequest = EmptyString
    \/ (amount paymentRequest <=? 0)%float = true ->
    let res := fst (post_root env (Some sub) paymentRequest w) in
    res_status res = 400
    /\ (exists msg, res_body res = JsonError "Validation error" msg)
    /\ snd (post_root env (Some sub) paymentRequest w) = w.
Proof. exact post_root_rejects. Qed.

(** X5.  The creation route answers 201, 400 or 500.  It answers 201
    exactly when it has stored the payment it returns, under the caller's
    user id and the payment's id; with 400 or 500 the table is as it was. *)
Theorem creation_stores_exactly_when_201 :
  forall (auth_sub : option string) (paymentRequest : CreatePaymentRequest) (w : World),
    let res := fst (post_root env auth_sub paymentRequest w) in
    let w' := snd (post_root env auth_sub paymentRequest w) in
    (res_status res = 201
     /\ exists sub payment pid,
          auth_sub = Some sub
          /\ res_body res = JsonPayment payment
          /\ payment !! "userId" = Some (VStr sub)
          /\ payment !! "paymentId" = Some (VStr pid)
          /\ table w' = <[(sub, pid) := payment]> (table w))
    \/ ((res_status res = 400 \/ res_status res = 500) /\ table w' = table w).
Proof.
  intros auth_sub paymentRequest w res w'. subst res w'.
  destruct auth_sub as [[|c sub]|]; [right; split; [right|]; reflexivity | | right; split; [right|]; reflexivity].
  destruct (Js.truthy_number (amount paymentRequest)) eqn:Hnum.
  2: { destruct (post_root_rejects (String c sub) paymentRequest w)
         as (Hcode & _ & Hw); [discriminate | auto |].
       right. rewrite Hw. auto. }
  destruct (decide (currency paymentRequest = EmptyString)) as [Hcur | Hcur].
  { destruct (post_root_rejects (String c sub) paymentRequest w)
      as (Hcode & _ & Hw); [discriminate | auto |].
    right. rewrite Hw. auto. }
  destruct (decide (reference paymentRequest = EmptyString)) as [Href | Href].
  { destruct (post_root_rejects (String c sub) paymentRequest w)
      as (Hcode & _ & Hw); [discriminate | auto |].
    right. rewrite Hw. auto. }
  destruct (amount paymentRequest <=? 0)%float eqn:Hpos.
  { destruct (post_root_rejects (String c sub) paymentRequest w)
      as (Hcode & _ & Hw); [discriminate | auto 6 |].
    right. rewrite Hw. auto. }
  rewrite (post_root_valid env (String c sub) paymentRequest w
             ltac:(discriminate) Hnum Hcur Href Hpos).
  destruct (createPayment_frame paymentRequest w) as [Htab _].
  destruct (createPayment env paymentRequest w) as [[created | error] w1];
    cbn [fst snd] in *; [|right; split; [right; reflexivity | exact Htab]].
  cbv zeta.
  set (payment := new_payment (String c sub) paymentRequest created
                    (VDate (now w1)) (VDate (now w1))).
  pose proof (item_key_new_payment (String c sub) paymentRequest created
                (VDate (now w1)) (VDate (now w1))) as Hkey.
  fold payment in Hkey.
  pose proof (repo_createPayment_cases payment _ w1 Hkey) as [_ Hput].
  cbv zeta in Hput.
  destruct (paymentsRepo.createPayment env payment w1) as [[stored | error] w2];
    cbn [fst snd] in *.
  - left. split; [reflexivity|]. destruct Hput as [_ Hput].
    exists (String c sub), payment, (id created).
    split; [reflexivity|]. split; [reflexivity|].
    unfold paymentsRepo.item_key in Hkey.
    destruct (payment !! "userId") as [[u| | | | |]|]; try discriminate.
    destruct (payment !! "paymentId") as [[p| | | | |]|]; try discriminate.
    inversion Hkey; subst. split; [reflexivity|]. split; [reflexivity|].
    rewrite Hput, Htab. reflexivity.
  - right. split; [right; reflexivity | congruence].
Qed.

Lemma sent_body_after_store payment k w :
  paymentsRepo.item_key payment = Some k ->
  sent_body (snd (paymentsRepo.createPayment env payment w)) = sent_body w.
Proof.
  intros Hkey. destruct (repo_createPayment_cases payment k w Hkey) as [Hhttp _].
  unfold sent_body. rewrite Hhttp. reflexivity.
Qed.

Lemma new_payment_currency sub paymentRequest trueLayerPayment createdAt updatedAt :
  new_payment sub paymentRequest trueLayerPayment createdAt updatedAt !! "currency"
  = Some (VStr (Js.toUpperCase (currency paymentRequest))).
Proof.
  unfold new_payment.
  destruct (hosted_payments_page_url trueLayerPayment); simplify_map_eq; reflexivity.
Qed.

Lemma new_payment_reference sub paymentRequest trueLayerPayment createdAt updatedAt :
  new_payment sub paymentRequest trueLayerPayment createdAt updatedAt !! "reference"
  = Some (VStr (reference paymentRequest)).
Proof.
  unfold new_payment.
  destruct (hosted_payments_page_url trueLayerPayment); simplify_map_eq; reflexivity.
Qed.

(** X6.  When the creation route answers 201, the currency and the
    reference of the stored payment are the ones sent to the gateway: the
    currency in upper case in both, the reference as given. *)
Theorem stored_currency_and_reference_are_those_sent :
  forall (auth_sub : option string) (paymentRequest : CreatePaymentRequest) (w : World),
    let res := fst (post_root env auth_sub paymentRequest w) in
    let w' := snd (post_root env auth_sub paymentRequest w) in
    res_status res = 201 ->
    exists payment,
      res_body res = JsonPayment payment
      /\ sent_body w' ≫= json_path ["currency"]
         = Some (JStr (Js.toUpperCase (currency paymentRequest)))
      /\ payment !! "currency" = Some (VStr (Js.toUpperCase (currency paymentRequest)))
      /\ sent_body w' ≫= json_path ["payment_method"; "beneficiary"; "reference"]
         = Some (JStr (reference paymentRequest))
      /\ payment !! "reference" = Some (VStr (reference paymentRequest)).
Proof.
  intros auth_sub paymentRequest w res w'. subst res w'.
  destruct auth_sub as [[|c sub]|]; [discriminate | | discriminate].
  destruct (Js.truthy_number (amount paymentRequest)) eqn:Hnum.
  2: { destruct (post_root_rejects (String c sub) paymentRequest w)
         as (Hcode & _); [discriminate | auto |]. cbv zeta in Hcode. congruence. }
  destruct (decide (currency paymentRequest = EmptyString)) as [Hcur | Hcur].
  { destruct (post_root_rejects (String c sub) paymentRequest w)
      as (Hcode & _); [discriminate | auto |]. cbv zeta in Hcode. congruence. }
  destruct (decide (reference paymentRequest = EmptyString)) as [Href | Href].
  { destruct (post_root_rejects (String c sub) paymentRequest w)
      as (Hcode & _); [discriminate | auto |]. cbv zeta in Hcode. congruence. }
  destruct (amount paymentRequest <=? 0)%float eqn:Hpos.
  { destruct (post_root_rejects (String c sub) paymentRequest w)
      as (Hcode & _); [discriminate | auto 6 |]. cbv zeta in Hcode. congruence. }
  rewrite (post_root_valid env (String c sub) paymentRequest w
             ltac:(discriminate) Hnum Hcur Href Hpos).
  destruct (createPayment_frame paymentRequest w) as [_ Hsent].
  destruct (createPayment env paymentRequest w) as [[created | error] w1];
    cbn [fst snd] in *; [|discriminate].
  cbv zeta.
  set (payment := new_payment (String c sub) paymentRequest created
                    (VDate (now w1)) (VDate (now w1))).
  pose proof (item_key_new_payment (String c sub) paymentRequest created
                (VDate (now w1)) (VDate (now w1))) as Hkey.
  fold payment in Hkey.
  pose proof (sent_body_after_store payment _ w1 Hkey) as Hsame.
  destruct (paymentsRepo.createPayment env payment w1) as [[stored | error] w2];
    cbn [fst snd] in *; [|discriminate].
  intros _. exists payment. split; [reflexivity|].
  rewrite Hsame, Hsent.
  split; [reflexivity|]. split; [apply new_payment_currency|].
  split; [reflexivity | apply new_payment_reference].
Qed.

End CreationMore.

Section RefreshMore.
Import TrueLayerService PaymentsRouter.
Variable env : Env.

Lemma refresh_not_authenticated paymentId w :
  post_refresh_status env None paymentId w = (refresh_failed, w)
  /\ post_refresh_status env (Some EmptyString) paymentId w = (refresh_failed, w).
Proof. split; reflexivity. Qed.

(** X7.  Whatever the gateway, the token endpoint and the database do,
    and whoever calls, a run of the refresh route makes at most 4 calls of
    [getPayment], with a sleep of 800 ms between two calls and no other
    sleep. *)
Theorem refresh_never_polls_more_than_four_times :
  forall (auth_sub : option string) (paymentId : string) (w : World),
    let w' := snd (post_refresh_status env auth_sub paymentId w) in
    exists n,
      (n <= 4)%nat
      /\ getPayment_events (trace w') = repeat paymentId n ++ getPayment_events (trace w)
      /\ sleep_events (trace w') = repeat 800 (n - 1) ++ sleep_events (trace w).
Proof.
  intros auth_sub paymentId w w'. subst w'.
  destruct auth_sub as [user|]; [|exists 0%nat; simpl; repeat split; auto; lia].
  destruct (decide (user = EmptyString)) as [-> | Hsub]; [exists 0%nat; simpl; repeat split; auto; lia|].
  rename user into sub.
  rewrite (post_refresh_status_eq env sub paymentId w Hsub). cbv zeta.
  destruct (after_read_facts env (sub, paymentId) w)
    as (Htab & Hcalls & Hgets & Hsleeps & Hupd & Hnow).
  set (w0 := after_read env (sub, paymentId) w) in *.
  destruct (snd (db_send env (calls w Database))) as [e|];
    [exists 0%nat; simpl; repeat split; auto; lia|].
  destruct (table w !! (sub, paymentId)) as [payment|];
    [|exists 0%nat; simpl; repeat split; auto; lia].
  destruct (poll_runs env paymentId (payment !! "status") maxAttempts 1 None w0)
    as (n & Hn & Hspan & _); [unfold maxAttempts; lia | unfold maxAttempts; lia |].
  unfold maxAttempts in Hn. exists n. split; [lia|].
  destruct (poll env paymentId (payment !! "status") maxAttempts 1 None w0)
    as [[fetched | e] w1]; simpl in Hspan; destruct Hspan as [Lt Ld Lu Lg Ls Ll].
  - pose proof (settle_events env sub paymentId payment fetched w1) as Hset.
    cbv zeta in Hset. destruct Hset as [Hg Hs].
    destruct (settle env sub paymentId payment (payment !! "status") fetched w1)
      as [[payment' | e] w2]; simpl in Hg, Hs; simpl;
      (split; [rewrite Hg, Lg, Hgets; reflexivity | rewrite Hs, Ls, Hsleeps; reflexivity]).
  - simpl. split; [rewrite Lg, Hgets; reflexivity | rewrite Ls, Hsleeps; reflexivity].
Qed.

(** X8.  When the refresh route answers 200, the status in its answer is
    the status of the stored record. *)
Theorem refresh_reports_the_stored_status :
  forall (sub paymentId : string) (w : World),
    let res := fst (post_refresh_status env (Some sub) paymentId w) in
    let w' := snd (post_refresh_status env (Some sub) paymentId w) in
    res_status res = 200 ->
    exists reported stored,
      res_body res = JsonPayment reported
      /\ table w' !! (sub, paymentId) = Some stored
      /\ stored !! "status" = reported !! "status".
Proof.
  intros sub paymentId w res w'. subst res w'.
  destruct (decide (sub = EmptyString)) as [-> | Hsub]; [discriminate|].
  rewrite (post_refresh_status_eq env sub paymentId w Hsub). cbv zeta.
  destruct (after_read_facts env (sub, paymentId) w)
    as (Htab & Hcalls & Hgets & Hsleeps & Hupd & Hnow).
  set (w0 := after_read env (sub, paymentId) w) in *.
  destruct (snd (db_send env (calls w Database))) as [e|]; [discriminate|].
  destruct (table w !! (sub, paymentId)) as [payment|] eqn:Hfound; [|discriminate].
  destruct (poll_runs env paymentId (payment !! "status") maxAttempts 1 None w0)
    as (n & Hn & Hspan & _); [unfold maxAttempts; lia | unfold maxAttempts; lia |].
  destruct (poll env paymentId (payment !! "status") maxAttempts 1 None w0)
    as [[fetched | e] w1]; simpl in Hspan; destruct Hspan as [Lt Ld Lu Lg Ls Ll];
    [|discriminate].
  destruct fetched as [data|].
  2: { simpl. intros _. exists payment, payment. split; [reflexivity|].
       split; [rewrite Lt, Htab; exact Hfound | reflexivity]. }
  rewrite settle_eq.
  destruct (status_strict_neq (mapPaymentStatus data) (payment !! "status")).
  - cbv zeta. destruct (snd (db_send env (calls w1 Database))) as [e|]; [discriminate|].
    simpl. intros _. eexists. eexists. split; [reflexivity|].
    split; [apply lookup_insert_eq|].
    rewrite Lt, Htab, Hfound. simpl. unfold paymentsRepo.set_status_attributes.
    by simplify_map_eq.
  - simpl. intros _. eexists. exists payment. split; [reflexivity|].
    split; [rewrite Lt, Htab; exact Hfound|].
    by simplify_map_eq.
Qed.

End RefreshMore.

Section OnePayment.
Import TrueLayerService PaymentsRouter PaymentRoutes.
Variable env : Env.

Lemma get_by_id_eq sub paymentId w :
  sub <> EmptyString ->
  get_by_id env (Some sub) paymentId w =
    let w0 := after_read env (sub, paymentId) w in
    match snd (db_send env (calls w Database)) with
    | Some _ => (get_failed, w0)
    | None =>
        match table w !! (sub, paymentId) with
        | None => (not_found, w0)
        | Some payment =>
            match fetch_latest env sub paymentId payment w0 with
            | (Throw _, w1) => (get_failed, w1)
            | (Ok payment', w1) =>
                ({| res_status := 200; res_body := JsonPayment payment' |}, w1)
            end
        end
    end.
Proof.
  intros Hsub. destruct sub as [|c sub]; [congruence|].
  unfold get_by_id, handler, getUserId, paymentsRepo.getPayment,
    paymentsRepo.docClient_send, after_read, res_json, bind, ret, effect, get.
  cbn beta iota delta [Js.truthy_string calls log count_call elapse table fst snd].
  destruct (db_send env (calls w Database)) as [latency [err|]];
    cbn beta iota delta [fst snd]; [reflexivity|].
  change (table (elapse (Z.of_N latency)
            (count_call Database (log (EvDbGet (String c sub, paymentId)) w))))
    with (table w).
  destruct (table w !! (String c sub, paymentId)) as [payment|]; [|reflexivity].
  destruct (fetch_latest env (String c sub) paymentId payment _) as [[payment'|err] w1];
    reflexivity.
Qed.

(** The inner try of GET /:id never throws: it ends with the payment as
    read and the table as it was, or with the fetched status written. *)
Lemma fetch_latest_cases sub paymentId payment w :
  let res := fst (fetch_latest env sub paymentId payment w) in
  let w1 := snd (fetch_latest env sub paymentId payment w) in
  getPayment_events (trace w1) = paymentId :: getPayment_events (trace w)
  /\ sleep_events (trace w1) = sleep_events (trace w)
  /\ now w <= now w1
  /\ ((res = Ok payment /\ table w1 = table w)
      \/ exists data t,
           from_gateway env paymentId data
           /\ status_strict_neq (mapPaymentStatus data) (payment !! "status") = true
           /\ res = Ok (<["trueLayerData" := VData data]> (
                        <["status" := VStatus (mapPaymentStatus data)]> payment))
           /\ now w <= t <= now w1
           /\ table w1 =
                <[(sub, paymentId) :=
                    paymentsRepo.set_status_attributes (mapPaymentStatus data) (VDate t)
                      (Some data)
                      (default {[ "userId" := VStr sub; "paymentId" := VStr paymentId ]}
                               (table w !! (sub, paymentId)))]> (table w)).
Proof.
  cbv zeta. unfold fetch_latest, try_catch, bind.
  pose proof (getPayment_outcome env paymentId w) as Hstep.
  destruct (getPayment env paymentId w) as [[data | error] w0];
    cbn [fst snd] in Hstep; destruct Hstep as [Ft Fd Fs Fu Fg Fl Fr _].
  2: { simpl. repeat split; auto. }
  assert (Hfrom : from_gateway env paymentId data).
  { destruct Fr as [Habs | (d & Heq & Hfrom)]; [discriminate|].
    inversion Heq; subst. exact Hfrom. }
  destruct (status_strict_neq (mapPaymentStatus data) (payment !! "status")) eqn:Hneq.
  2: { simpl. repeat split; auto. }
  unfold paymentsRepo.updatePaymentStatus, paymentsRepo.docClient_send,
    new_Date_toISOString, bind, ret, effect, get.
  cbn beta iota delta [calls log count_call elapse table now fst snd].
  destruct (db_send env (calls w0 Database)) as [latency [err|]]; simpl.
  - split; [exact Fg|]. split; [exact Fs|]. split; [lia|]. left. auto.
  - split; [exact Fg|]. split; [exact Fs|]. split; [lia|]. right.
    exists data, (now w0). split; [exact Hfrom|]. split; [exact Hneq|].
    split; [reflexivity|]. split; [lia|]. rewrite Ft. reflexivity.
Qed.

(** X10.  GET /:id answers 200 for a stored payment whatever the gateway
    and the later database calls do.  It calls [getPayment] once and never
    sleeps.  Either it returns the payment as read and leaves the table as
    it was, or a fetched status differs: then the stored record gets the
    new status, the fetched payment and a new [updatedAt], while the answer
    carries the new status with the [updatedAt] that was read. *)
Theorem get_by_id_survives_gateway_failures :
  forall (sub paymentId : string) (w : World) (payment : gmap string Val),
    sub <> EmptyString ->
    snd (db_send env (calls w Database)) = None ->
    table w !! (sub, paymentId) = Some payment ->
    let res := fst (get_by_id env (Some sub) paymentId w) in
    let w' := snd (get_by_id env (Some sub) paymentId w) in
    res_status res = 200
    /\ getPayment_events (trace w') = paymentId :: getPayment_events (trace w)
    /\ sleep_events (trace w') = sleep_events (trace w)
    /\ ((res_body res = JsonPayment payment /\ table w' = table w)
        \/ exists data t,
             from_gateway env paymentId data
             /\ status_strict_neq (mapPaymentStatus data) (payment !! "status") = true
             /\ res_body res =
                  JsonPayment (<["trueLayerData" := VData data]> (
                               <["status" := VStatus (mapPaymentStatus data)]> payment))
             /\ now w <= t <= now w'
             /\ table w' =
                  <[(sub, paymentId) :=
                      <["trueLayerData" := VData data]> (
                      <["updatedAt" := VDate t]> (
                      <["status" := VStatus (mapPaymentStatus data)]> payment))]>
                    (table w)).
Proof.
  intros sub paymentId w payment Hsub Hdb Hfound res w'. subst res w'.
  rewrite (get_by_id_eq sub paymentId w Hsub). cbv zeta. rewrite Hdb, Hfound.
  destruct (after_read_facts env (sub, paymentId) w)
    as (Htab & Hcalls & Hgets & Hsleeps & Hupd & Hnow).
  set (w0 := after_read env (sub, paymentId) w) in *.
  pose proof (fetch_latest_cases sub paymentId payment w0) as Hcases.
  cbv zeta in Hcases. destruct Hcases as (Hg & Hs & Hl & Hres).
  destruct (fetch_latest env sub paymentId payment w0) as [res w1].
  cbn [fst snd] in *.
  destruct Hres as [[-> Ht] | (data & t & Hfrom & Hneq & -> & Htime & Ht)]; simpl.
  - split; [reflexivity|]. split; [rewrite Hg, Hgets; reflexivity|].
    split; [rewrite Hs, Hsleeps; reflexivity|]. left. split; [reflexivity | congruence].
  - split; [reflexivity|]. split; [rewrite Hg, Hgets; reflexivity|].
    split; [rewrite Hs, Hsleeps; reflexivity|]. right.
    exists data, t. split; [exact Hfrom|]. split; [exact Hneq|]. split; [reflexivity|].
    split; [lia|]. rewrite Ht, Htab, Hfound. reflexivity.
Qed.

Lemma delete_by_id_eq sub paymentId w :
  sub <> EmptyString ->
  delete_by_id env (Some sub) paymentId w =
    let w0 := after_read env (sub, paymentId) w in
    match snd (db_send env (calls w Database)) with
    | Some _ => (delete_failed, w0)
    | None =>
        match table w !! (sub, paymentId) with
        | None => (delete_not_found, w0)
        | Some payment =>
            if deletable (payment !! "status") then
              match snd (db_send env (calls w0 Database)) with
              | Some _ => (delete_failed, after_delete env w0)
              | None =>
                  ({| reply_status := 204; reply_body := SentNothing |},
                   set_table (delete (sub, paymentId) (table w)) (after_delete env w0))
              end
            else (delete_refused, w0)
        end
    end.
Proof.
  intros Hsub. destruct sub as [|c sub]; [congruence|].
  unfold delete_by_id, replying, getUserId, paymentsRepo.getPayment,
    Repository.deletePayment, paymentsRepo.docClient_send, after_read, after_delete,
    reply, bind, ret, effect, get.
  cbn beta iota delta [Js.truthy_string calls log count_call elapse table fst snd].
  destruct (db_send env (calls w Database)) as [latency [err|]];
    cbn beta iota delta [fst snd]; [reflexivity|].
  change (table (elapse (Z.of_N latency)
            (count_call Database (log (EvDbGet (String c sub, paymentId)) w))))
    with (table w).
  destruct (table w !! (String c sub, paymentId)) as [payment|]; [|reflexivity].
  destruct (deletable (payment !! "status")); [|reflexivity].
  cbn beta iota delta [negb calls log count_call elapse table fst snd bool_decide decide
                       decide_rel Endpoint_eq_dec Endpoint_rect Endpoint_rec].
  destruct (db_send env _) as [latency2 [err|]]; reflexivity.
Qed.

(** X11.  DELETE /:id changes the table only by removing the record under
    the caller's own user id and the given id, only together with the
    answer 204, and only when the stored status is authorization_required,
    authorizing or failed. *)
Theorem delete_only_unpaid_own_payments :
  forall (sub paymentId : string) (w : World),
    let res := fst (delete_by_id env (Some sub) paymentId w) in
    let w' := snd (delete_by_id env (Some sub) paymentId w) in
    (reply_status res <> 204 /\ table w' = table w)
    \/ (res = {| reply_status := 204; reply_body := SentNothing |}
        /\ table w' = delete (sub, paymentId) (table w)
        /\ exists payment s,
             table w !! (sub, paymentId) = Some payment
             /\ payment !! "status" = Some (VStatus s)
             /\ (s = authorization_required \/ s = authorizing \/ s = failed)).
Proof.
  intros sub paymentId w res w'. subst res w'.
  destruct (decide (sub = EmptyString)) as [-> | Hsub];
    [left; split; [discriminate | reflexivity]|].
  rewrite (delete_by_id_eq sub paymentId w Hsub). cbv zeta.
  destruct (snd (db_send env (calls w Database)));
    [left; split; [discriminate | reflexivity]|].
  destruct (table w !! (sub, paymentId)) as [payment|] eqn:Hfound;
    [|left; split; [discriminate | reflexivity]].
  destruct (deletable (payment !! "status")) eqn:Hdel;
    [|left; split; [discriminate | reflexivity]].
  destruct (snd (db_send env _));
    [left; split; [discriminate | reflexivity]|].
  right. split; [reflexivity|]. split; [reflexivity|].
  unfold deletable in Hdel.
  destruct (payment !! "status") as [[| | | s | |]|] eqn:Hstatus; try discriminate.
  exists payment, s. split; [reflexivity|]. split; [exact Hstatus|].
  destruct s; try (vm_compute in Hdel; discriminate); auto.
Qed.

(** X12.  After a DELETE that was answered 204, GET /:id, DELETE /:id and
    the refresh route answer 404 for that payment; every other record is as
    it was. *)
Theorem deleted_payment_is_gone :
  forall (sub paymentId : string) (w : World),
    db_ok env ->
    let deleted := delete_by_id env (Some sub) paymentId w in
    reply_status (fst deleted) = 204 ->
    fst (get_by_id env (Some sub) paymentId (snd deleted)) = not_found
    /\ fst (delete_by_id env (Some sub) paymentId (snd deleted)) = delete_not_found
    /\ fst (post_refresh_status env (Some sub) paymentId (snd deleted))
       = {| res_status := 404; res_body := JsonError "Not found" "Payment not found" |}
    /\ forall other, other <> (sub, paymentId) ->
         table (snd deleted) !! other = table w !! other.
Proof.
  intros sub paymentId w Hdb deleted. subst deleted.
  destruct (decide (sub = EmptyString)) as [-> | Hsub]; [discriminate|].
  rewrite (delete_by_id_eq sub paymentId w Hsub). cbv zeta.
  rewrite !Hdb.
  destruct (table w !! (sub, paymentId)) as [payment|]; [|discriminate].
  destruct (deletable (payment !! "status")); [|discriminate].
  cbn [fst snd]. intros _.
  set (w1 := set_table _ _).
  assert (Hgone : table w1 !! (sub, paymentId) = None) by apply lookup_delete_eq.
  split; [|split; [|split]].
  - rewrite (get_by_id_eq sub paymentId w1 Hsub). cbv zeta. rewrite Hdb, Hgone. reflexivity.
  - rewrite (delete_by_id_eq sub paymentId w1 Hsub). cbv zeta. rewrite Hdb, Hgone. reflexivity.
  - rewrite (post_refresh_status_eq env sub paymentId w1 Hsub). cbv zeta.
    rewrite Hdb, Hgone. reflexivity.
  - intros other Hother. apply lookup_delete_ne. congruence.
Qed.

(** X9.  For a payment that is not stored under the caller's user id, the
    refresh route, GET /:id and DELETE /:id answer 404 after the one read of
    the table: nothing is fetched from the gateway, nothing is written. *)
Theorem unknown_payment_is_not_fetched :
  forall (sub paymentId : string) (w : World),
    sub <> EmptyString ->
    snd (db_send env (calls w Database)) = None ->
    table w !! (sub, paymentId) = None ->
    post_refresh_status env (Some sub) paymentId w
      = ({| res_status := 404; res_body := JsonError "Not found" "Payment not found" |},
         after_read env (sub, paymentId) w)
    /\ get_by_id env (Some sub) paymentId w = (not_found, after_read env (sub, paymentId) w)
    /\ delete_by_id env (Some sub) paymentId w
       = (delete_not_found, after_read env (sub, paymentId) w)
    /\ trace (after_read env (sub, paymentId) w) = EvDbGet (sub, paymentId) :: trace w
    /\ table (after_read env (sub, paymentId) w) = table w.
Proof.
  intros sub paymentId w Hsub Hdb Hnone.
  rewrite (post_refresh_status_eq env sub paymentId w Hsub),
    (get_by_id_eq sub paymentId w Hsub), (delete_by_id_eq sub paymentId w Hsub).
  cbv zeta. rewrite Hdb, Hnone. repeat split.
Qed.

End OnePayment.

Section RepositoryMore.
Variable env : Env.

Lemma repo_getPayment_reads userId paymentId w :
  db_ok env ->
  fst (paymentsRepo.getPayment env userId paymentId w) = Ok (table w !! (userId, paymentId))
  /\ table (snd (paymentsRepo.getPayment env userId paymentId w)) = table w.
Proof.
  intros Hdb. unfold paymentsRepo.getPayment, paymentsRepo.docClient_send, bind, effect, get.
  cbn beta iota delta [calls log].
  specialize (Hdb (calls w Database)).
  destruct (db_send env (calls w Database)) as [latency failure]. simpl in Hdb. subst failure.
  split; reflexivity.
Qed.

(** X13.  A payment stored with [createPayment] of the repository is what
    [getPayment] then reads under its key, and no other record changes. *)
Theorem stored_payment_is_read_back :
  forall (payment : gmap string Val) (userId paymentId : string) (w : World),
    db_ok env ->
    paymentsRepo.item_key payment = Some (userId, paymentId) ->
    let stored := paymentsRepo.createPayment env payment w in
    fst stored = Ok payment
    /\ fst (paymentsRepo.getPayment env userId paymentId (snd stored)) = Ok (Some payment)
    /\ forall other, other <> (userId, paymentId) ->
         table (snd stored) !! other = table w !! other.
Proof.
  intros payment userId paymentId w Hdb Hkey stored. subst stored.
  destruct (repo_createPayment_stored env payment (userId, paymentId) w Hdb Hkey)
    as (w1 & Heq & Htab & _).
  rewrite Heq. cbn [fst snd].
  destruct (repo_getPayment_reads userId paymentId w1 Hdb) as [Hread _].
  split; [reflexivity|]. split.
  - rewrite Hread, Htab, lookup_insert_eq. reflexivity.
  - intros other Hother. rewrite Htab. apply lookup_insert_ne. congruence.
Qed.

(** X14.  [updatePaymentStatus] of the repository sets [status] and
    [updatedAt] (the instant at which the command is built), sets
    [trueLayerData] only when it is given, and leaves every other attribute
    and every other record as they were; for a key that is not stored it
    creates a record with the key attributes and these. *)
Theorem update_touches_three_attributes :
  forall (userId paymentId : string) (newStatus : PaymentStatus)
         (data : option TrueLayerPaymentResponse) (w : World),
    db_ok env ->
    let old := item_or_key w userId paymentId in
    let updated := paymentsRepo.updatePaymentStatus env userId paymentId newStatus data w in
    exists item,
      fst updated = Ok item
      /\ fst (paymentsRepo.getPayment env userId paymentId (snd updated)) = Ok (Some item)
      /\ item !! "status" = Some (VStatus newStatus)
      /\ item !! "updatedAt" = Some (VDate (now w))
      /\ item !! "trueLayerData"
         = match data with
           | Some d => Some (VData d)
           | None => old !! "trueLayerData"
           end
      /\ (forall attribute,
            attribute <> "status" -> attribute <> "updatedAt" ->
            attribute <> "trueLayerData" ->
            item !! attribute = old !! attribute)
      /\ forall other, other <> (userId, paymentId) ->
           table (snd updated) !! other = table w !! other.
Proof.
  intros userId paymentId newStatus data w Hdb old updated. subst updated.
  unfold paymentsRepo.updatePaymentStatus, paymentsRepo.docClient_send,
    new_Date_toISOString, bind, ret, effect, get.
  cbn beta iota delta [calls log count_call elapse table now fst snd].
  pose proof (Hdb (calls w Database)) as Hsend.
  destruct (db_send env (calls w Database)) as [latency failure]. simpl in Hsend.
  subst failure. cbn beta iota.
  fold (item_or_key w userId paymentId). fold old.
  eexists. split; [reflexivity|]. cbn [fst snd].
  match goal with
  | |- context [paymentsRepo.getPayment env userId paymentId ?x] =>
      destruct (repo_getPayment_reads userId paymentId x Hdb) as [Hread _];
      rewrite Hread
  end.
  split; [simpl; rewrite lookup_insert_eq; reflexivity|].
  unfold paymentsRepo.set_status_attributes.
  destruct data as [d|].
  - split; [by simplify_map_eq|]. split; [by simplify_map_eq|].
    split; [by simplify_map_eq|]. split.
    + intros attribute H1 H2 H3. by simplify_map_eq.
    + intros other Hother. simpl. apply lookup_insert_ne. congruence.
  - split; [by simplify_map_eq|]. split; [by simplify_map_eq|].
    split; [by simplify_map_eq|]. split.
    + intros attribute H1 H2 H3. by simplify_map_eq.
    + intros other Hother. simpl. apply lookup_insert_ne. congruence.
Qed.

End RepositoryMore.

Section InMemory.
Import MemoryStore.

Lemma append_cons (c : ascii) (a b : string) : String c a +:+ b = String c (a +:+ b).
Proof. reflexivity. Qed.

Lemma append_nil (b : string) : EmptyString +:+ b = b.
Proof. reflexivity. Qed.

Lemma string_append_assoc (a b c : string) : (a +:+ b) +:+ c = a +:+ (b +:+ c).
Proof.
  induction a as [|x a IH]; [reflexivity|].
  rewrite !append_cons. f_equal. exact IH.
Qed.

Lemma key_injective user pid user' pid' :
  hash_free user = true -> hash_free user' = true ->
  key user pid = key user' pid' -> user = user' /\ pid = pid'.
Proof.
  unfold key. revert user'.
  induction user as [|c user IH]; intros [|c' user'] Hfree Hfree' Heq;
    rewrite ?append_cons, ?append_nil in Heq; simpl in Hfree, Hfree'.
  - inversion Heq. auto.
  - inversion Heq; subst. rewrite Ascii.eqb_refl in Hfree'. discriminate.
  - inversion Heq; subst. rewrite Ascii.eqb_refl in Hfree. discriminate.
  - inversion Heq; subst.
    apply andb_prop in Hfree as [_ Hfree]. apply andb_prop in Hfree' as [_ Hfree'].
    destruct (IH user' Hfree Hfree' H1) as [-> ->]. auto.
Qed.

Lemma Map_get_set_eq k v m : Map_get k (Map_set k v m) = Some v.
Proof.
  induction m as [|[k' v'] m IH]; simpl.
  - now rewrite String.eqb_refl.
  - destruct (String.eqb k k') eqn:Heq; simpl; [now rewrite String.eqb_refl|].
    now rewrite Heq.
Qed.

Lemma Map_get_set_ne k k' v m : k <> k' -> Map_get k' (Map_set k v m) = Map_get k' m.
Proof.
  intros Hne. induction m as [|[k0 v0] m IH]; simpl.
  - destruct (String.eqb k' k) eqn:Heq; [|reflexivity].
    apply String.eqb_eq in Heq. congruence.
  - destruct (String.eqb k k0) eqn:Heq; simpl.
    + apply String.eqb_eq in Heq. subst k0.
      destruct (String.eqb k' k) eqn:Heq'; [|reflexivity].
      apply String.eqb_eq in Heq'. congruence.
    + now rewrite IH.
Qed.

Lemma Map_set_same k v m : Map_get k m = Some v -> Map_set k v m = m.
Proof.
  induction m as [|[k' v'] m IH]; simpl; [discriminate|].
  destruct (String.eqb k k') eqn:Heq.
  - intros H. inversion H. apply String.eqb_eq in Heq. now subst.
  - intros H. now rewrite IH.
Qed.

(** X15.  In the in-memory store, a payment created for a user is found
    under that user and id, and the creation changes no other lookup,
    provided the user ids hold no [#]. *)
Theorem created_payment_is_found_by_its_owner_only :
  forall (payment : nat) (obj : Payment) (st : Store) (user pid : string),
    objects st !! payment = Some obj ->
    hash_free (userId obj) = true -> hash_free user = true ->
    let st' := snd (createPayment payment st) in
    fst (createPayment payment st) = payment
    /\ objects st' = objects st
    /\ getPayment (userId obj) (paymentId obj) st' = Some payment
    /\ ((user, pid) <> (userId obj, paymentId obj) ->
        getPayment user pid st' = getPayment user pid st).
Proof.
  intros payment obj st user pid Hobj Hfree Hfree' st'. subst st'.
  unfold createPayment, getPayment. rewrite Hobj. cbn [fst snd objects payments].
  split; [reflexivity|]. split; [reflexivity|]. split; [apply Map_get_set_eq|].
  intros Hne. apply Map_get_set_ne. intros Heq.
  destruct (key_injective _ _ _ _ Hfree Hfree' Heq) as [H1 H2]. congruence.
Qed.

(** X16.  The key of the in-memory store is [userId#paymentId]: a payment
    [q] of user [u#p] is found by user [u] under the id [p#q]. *)
Theorem hash_in_a_user_id_breaks_isolation :
  forall (payment : nat) (obj : Payment) (st : Store) (user part : string),
    objects st !! payment = Some obj ->
    userId obj = user +:+ "#" +:+ part ->
    getPayment user (part +:+ "#" +:+ paymentId obj) (snd (createPayment payment st))
    = Some payment.
Proof.
  intros payment obj st user part Hobj Huser.
  unfold createPayment, getPayment. rewrite Hobj. cbn [snd payments].
  replace (key user (part +:+ "#" +:+ paymentId obj))
    with (key (userId obj) (paymentId obj)); [apply Map_get_set_eq|].
  unfold key. rewrite Huser. rewrite !string_append_assoc. reflexivity.
Qed.

(** X17.  [updatePaymentStatus] of the in-memory store throws
    "Payment not found" and changes nothing for a key that is not stored.
    Otherwise it changes the stored object in place: status and [updatedAt]
    are set, [trueLayerData] only when given, the other fields, the other
    objects and the Map stay as they are. *)
Theorem memory_update_changes_the_object_in_place :
  forall (at_ms : Z) (user pid : string) (s : PaymentStatus)
         (data : option TrueLayerPaymentResponse) (st : Store),
    let res := fst (updatePaymentStatus at_ms user pid s data st) in
    let st' := snd (updatePaymentStatus at_ms user pid s data st) in
    match getPayment user pid st with
    | None => res = Throw (Error_ "Payment not found") /\ st' = st
    | Some payment =>
        res = Ok payment
        /\ payments st' = payments st
        /\ (forall other, other <> payment -> objects st' !! other = objects st !! other)
        /\ forall obj,
             objects st !! payment = Some obj ->
             exists obj',
               objects st' !! payment = Some obj'
               /\ p_status obj' = s /\ updatedAt obj' = at_ms
               /\ trueLayerData obj' = match data with
                                       | Some d => Some d
                                       | None => trueLayerData obj
                                       end
               /\ userId obj' = userId obj /\ paymentId obj' = paymentId obj
               /\ p_amount obj' = p_amount obj /\ p_currency obj' = p_currency obj
               /\ p_reference obj' = p_reference obj /\ createdAt obj' = createdAt obj
               /\ paymentLink obj' = paymentLink obj
    end.
Proof.
  intros at_ms user pid s data st res st'. subst res st'.
  unfold updatePaymentStatus, getPayment.
  destruct (Map_get (key user pid) (payments st)) as [payment|] eqn:Hget;
    [|split; reflexivity].
  destruct (objects st !! payment) as [obj|] eqn:Hobj; cbn [fst snd objects payments].
  - split; [reflexivity|]. split; [apply Map_set_same; exact Hget|].
    split; [intros other Hother; apply lookup_insert_ne; congruence|].
    intros obj0 Heq. inversion Heq; subst obj0.
    eexists. split; [apply lookup_insert_eq|]. simpl. repeat split.
  - split; [reflexivity|]. split; [reflexivity|]. split; [reflexivity|].
    intros obj Habs. discriminate.
Qed.

Lemma elem_of_values r obj st :
  (r, obj) ∈ values st <-> (exists k, (k, r) ∈ payments st) /\ objects st !! r = Some obj.
Proof.
  unfold values. rewrite list_elem_of_omap. split.
  - intros ([k r'] & Hin & Hf). simpl in Hf.
    destruct (objects st !! r') as [o|] eqn:Ho; [|discriminate].
    inversion Hf; subst. split; [exists k; exact Hin | exact Ho].
  - intros [[k Hin] Ho]. exists (k, r). split; [exact Hin|]. simpl. rewrite Ho. reflexivity.
Qed.

Lemma elem_of_listPayments :
  forall (user : string) (wanted : option PaymentStatus) (st : Store) (r : nat),
    r ∈ listPayments user wanted st
    <-> exists k obj,
          (k, r) ∈ payments st /\ objects st !! r = Some obj
          /\ userId obj = user
          /\ match wanted with
             | Some s => p_status obj = s
             | None => True
             end.
Proof.
  intros user wanted st r. unfold listPayments.
  destruct wanted as [s|]; rewrite list_elem_of_fmap; split.
  - intros ([r' obj] & -> & Hin). simpl.
    apply list_elem_of_filter in Hin as [Hs Hin].
    apply list_elem_of_filter in Hin as [Hu Hin].
    apply elem_of_values in Hin as [[k Hk] Ho]. exists k, obj. auto.
  - intros (k & obj & Hk & Ho & Hu & Hs). exists (r, obj). split; [reflexivity|].
    apply list_elem_of_filter. split; [exact Hs|].
    apply list_elem_of_filter. split; [exact Hu|].
    apply elem_of_values. split; [exists k; exact Hk | exact Ho].
  - intros ([r' obj] & -> & Hin). simpl.
    apply list_elem_of_filter in Hin as [Hu Hin].
    apply elem_of_values in Hin as [[k Hk] Ho]. exists k, obj. auto.
  - intros (k & obj & Hk & Ho & Hu & _). exists (r, obj). split; [reflexivity|].
    apply list_elem_of_filter. split; [exact Hu|].
    apply elem_of_values. split; [exists k; exact Hk | exact Ho].
Qed.

(** X18.  [listPayments] of the in-memory store lists exactly the stored
    objects whose user id is the one asked for and, with a status filter,
    whose status is that one. *)
Theorem listed_payments_are_the_users_own :
  forall (user : string) (wanted : option PaymentStatus) (st : Store) (r : nat),
    r ∈ listPayments user wanted st
    <-> exists k obj,
          (k, r) ∈ payments st /\ objects st !! r = Some obj
          /\ userId obj = user
          /\ match wanted with
             | Some s => p_status obj = s
             | None => True
             end.
Proof. exact elem_of_listPayments. Qed.

Lemma values_sublist st : sublist (fst <$> values st) (snd <$> payments st).
Proof.
  unfold values. induction (payments st) as [|[k r] m IH]; simpl; [constructor|].
  destruct (objects st !! r); simpl; [apply sublist_skip | apply sublist_cons]; exact IH.
Qed.

(** X19.  The list with a status filter is a sublist of the list without,
    which is a sublist of the stored addresses in the order of
    insertion. *)
Theorem lists_keep_the_order_of_insertion :
  forall (user : string) (s : PaymentStatus) (st : Store),
    sublist (listPayments user (Some s) st) (listPayments user None st)
    /\ sublist (listPayments user None st) (snd <$> payments st).
Proof.
  intros user s st. unfold listPayments. split.
  - apply fmap_sublist. apply sublist_filter.
  - etransitivity; [|apply values_sublist].
    apply fmap_sublist. apply sublist_filter.
Qed.

(** X20.  After [updatePaymentStatus] of the in-memory store, the payment
    is listed under its new status and under no other status. *)
Theorem updated_payment_is_listed_under_its_new_status :
  forall (at_ms : Z) (user pid : string) (s : PaymentStatus)
         (data : option TrueLayerPaymentResponse) (st : Store) (payment : nat)
         (obj : Payment),
    getPayment user pid st = Some payment ->
    objects st !! payment = Some obj ->
    let st' := snd (updatePaymentStatus at_ms user pid s data st) in
    payment ∈ listPayments (userId obj) (Some s) st'
    /\ forall other, other <> s -> payment ∉ listPayments (userId obj) (Some other) st'.
Proof.
  intros at_ms user pid s data st payment obj Hget Hobj st'. subst st'.
  unfold updatePaymentStatus. unfold getPayment in Hget. rewrite Hget, Hobj.
  cbn [snd]. rewrite (Map_set_same _ _ _ Hget).
  assert (Hin : exists k, (k, payment) ∈ payments st).
  { clear Hobj. exists (key user pid). revert Hget.
    induction (payments st) as [|[k r] m IH]; simpl; [discriminate|].
    destruct (String.eqb (key user pid) k) eqn:Heq.
    - intros H. inversion H; subst. apply String.eqb_eq in Heq. subst. left.
    - intros H. right. apply IH. exact H. }
  destruct Hin as [k Hk]. split.
  - apply elem_of_listPayments. eexists k, _. simpl.
    split; [exact Hk|]. split; [apply lookup_insert_eq|]. split; reflexivity.
  - intros other Hother Hlisted.
    apply elem_of_listPayments in Hlisted
      as (k' & obj' & _ & Ho & _ & Hs). simpl in Ho.
    rewrite lookup_insert_eq in Ho. inversion Ho; subst obj'. simpl in Hs. congruence.
Qed.

End InMemory.

Section SignatureTestMore.
Import TrueLayerService SignatureTest PaymentRoutes.
Variable env : Env.
Variable test_endpoint : nat -> HttpRequest -> N * (JsError + Z).

Lemma axiosInstance_request_is_send e oracle method path body headers :
  axiosInstance_request env e oracle method path body headers
  = axiosInstance_send env e oracle method path body headers.
Proof. reflexivity. Qed.

Lemma validateStatus_204 a latency :
  validateStatus a = (latency, inr 204) -> a = (latency, inr 204).
Proof.
  unfold validateStatus. destruct a as [l [e | code]]; [discriminate|].
  destruct ((200 <=? code) && (code <? 300)); [|discriminate].
  intros H. inversion H. reflexivity.
Qed.

Lemma testSignature_cases w :
  exists valid w',
    testSignature env test_endpoint w = (Ok valid, w')
    /\ table w' = table w
    /\ (valid = true ->
        exists rq latency,
          test_endpoint (calls w GatewayPost) rq = (latency, inr 204)
          /\ rq_method rq = "POST" /\ rq_path rq = "/test-signature"
          /\ rq_body rq = Some testBody
          /\ header "Idempotency-Key" (rq_headers rq)
             = Some (randomUUID env (calls w RandomUUID))
          /\ sign_events (trace w')
             = {| sg_kid := kid env; sg_method := "POST"; sg_path := "/test-signature";
                  sg_headers := [("Idempotency-Key", randomUUID env (calls w RandomUUID))];
                  sg_body := JSON_stringify env testBody |} :: sign_events (trace w))
    /\ (auth_ok env ->
        (forall rq, snd (test_endpoint (calls w GatewayPost) rq) = inr 204) ->
        valid = true).
Proof.
  unfold testSignature, try_catch, bind, crypto_randomUUID, signRequest,
    axiosInstance_request, bind, ret, throw.
  change (Js.toUpperCase "POST") with "POST".
  match goal with
  | |- context [getAccessToken env ?x] =>
      pose proof (getAccessToken_auth_ok env x) as Hok;
      destruct (getAccessToken_cases env x)
        as [[Hvalid Heq] | [[Hvalid (lat & response & Hans & Heq)]
                           | [Hvalid (lat & Hans & Heq)]]];
      rewrite Heq in *; clear Heq
  end; cbn [fst snd] in *.
  - cbn beta iota delta [calls count_call log].
    rewrite !bool_decide_eq_false_2 by discriminate.
    match goal with
    | |- context [test_endpoint (calls w GatewayPost) ?rq] =>
        pose (sent := rq);
        destruct (test_endpoint (calls w GatewayPost) rq) as [latency a] eqn:Hep
    end.
    destruct (validateStatus (latency, a)) as [l [e | code]] eqn:Hv; simpl.
    + eexists. eexists. split; [reflexivity|]. split; [reflexivity|].
      split; [discriminate|].
      intros _ H204. specialize (H204 sent). subst sent. rewrite Hep in H204.
      simpl in H204. subst a. discriminate.
    + eexists. eexists. split; [reflexivity|]. split; [reflexivity|]. split.
      * intros H. apply Z.eqb_eq in H. subst code.
        apply validateStatus_204 in Hv. inversion Hv; subst.
        exists sent, l. subst sent. repeat split. exact Hep.
      * intros _ H204. specialize (H204 sent). subst sent. rewrite Hep in H204.
        simpl in H204. subst a. simpl in Hv. inversion Hv. reflexivity.
  - cbn beta iota delta [calls count_call log exchanged set_token elapse].
    rewrite !bool_decide_eq_false_2 by discriminate.
    match goal with
    | |- context [test_endpoint (calls w GatewayPost) ?rq] =>
        pose (sent := rq);
        destruct (test_endpoint (calls w GatewayPost) rq) as [latency a] eqn:Hep
    end.
    destruct (validateStatus (latency, a)) as [l [e | code]] eqn:Hv; simpl.
    + eexists. eexists. split; [reflexivity|]. split; [reflexivity|].
      split; [discriminate|].
      intros _ H204. specialize (H204 sent). subst sent. rewrite Hep in H204.
      simpl in H204. subst a. discriminate.
    + eexists. eexists. split; [reflexivity|]. split; [reflexivity|]. split.
      * intros H. apply Z.eqb_eq in H. subst code.
        apply validateStatus_204 in Hv. inversion Hv; subst.
        exists sent, l. subst sent. repeat split. exact Hep.
      * intros _ H204. specialize (H204 sent). subst sent. rewrite Hep in H204.
        simpl in H204. subst a. simpl in Hv. inversion Hv. reflexivity.
  - eexists. eexists. split; [reflexivity|]. split; [reflexivity|].
    split; [discriminate|].
    intros Hauth _. destruct (Hok Hauth) as [token Habs]. discriminate.
Qed.

(** X21.  GET /test-signature always answers 200 and writes nothing.  Its
    [valid] flag is true only if the gateway answered 204 to a POST of the
    test body to /test-signature whose Idempotency-Key header is the key
    that was signed, and it is true whenever the token endpoint answers and
    the gateway answers 204. *)
Theorem signature_test_always_answers :
  forall w : World,
    let res := fst (get_test_signature env test_endpoint w) in
    let w' := snd (get_test_signature env test_endpoint w) in
    reply_status res = 200
    /\ table w' = table w
    /\ exists valid,
         reply_body res
         = SentValid valid (if valid then "Signature is valid!"
                            else "Signature validation failed - check logs")
         /\ (valid = true ->
             exists rq latency,
               test_endpoint (calls w GatewayPost) rq = (latency, inr 204)
               /\ rq_method rq = "POST" /\ rq_path rq = "/test-signature"
               /\ rq_body rq = Some testBody
               /\ header "Idempotency-Key" (rq_headers rq)
                  = Some (randomUUID env (calls w RandomUUID))
               /\ sign_events (trace w')
                  = {| sg_kid := kid env; sg_method := "POST";
                       sg_path := "/test-signature";
                       sg_headers :=
                         [("Idempotency-Key", randomUUID env (calls w RandomUUID))];
                       sg_body := JSON_stringify env testBody |}
                    :: sign_events (trace w))
         /\ (auth_ok env ->
             (forall rq, snd (test_endpoint (calls w GatewayPost) rq) = inr 204) ->
             valid = true).
Proof.
  intros w res w'. subst res w'.
  destruct (testSignature_cases w) as (valid & w1 & Heq & Htab & Htrue & Hconv).
  unfold get_test_signature, replying, reply, bind, ret. rewrite Heq. cbn [fst snd].
  split; [reflexivity|]. split; [exact Htab|].
  exists valid. split; [reflexivity|]. split; assumption.
Qed.

End SignatureTestMore.

(** ** Runs of the scenarios, continued *)

(** A one-minute token is fetched again at once; a four-hour token is
    reused an hour later. *)
Lemma token_reused_inside_its_window_witness :
  (token_is_valid Scenario.fresh = false
   /\ calls (snd (getAccessToken Scenario2.env_one_minute
                    (elapse 0 (snd (getAccessToken Scenario2.env_one_minute Scenario.fresh)))))
        TokenEndpoint = 2%nat)
  /\ (let w' := snd (getAccessToken (Scenario.env_with Scenario.always_pending)
                       Scenario.fresh) in
      getAccessToken (Scenario.env_with Scenario.always_pending) (elapse 3600000 w')
      = (Ok "token-a", elapse 3600000 w')).
Proof.
  split.
  - split; [reflexivity|].
    apply (token_reused_inside_its_window Scenario2.env_one_minute Scenario.fresh 120%N
             {| access_token := "token-m"; expires_in := 60 |} 0
             eq_refl eq_refl ltac:(discriminate)).
    simpl. lia.
  - apply (token_reused_inside_its_window (Scenario.env_with Scenario.always_pending)
             Scenario.fresh 120%N
             {| access_token := "token-a"; expires_in := 14400 |} 3600000
             eq_refl eq_refl ltac:(discriminate)).
    simpl. lia.
Defined.

(** A process that has just started holds no token. *)
Lemma cache_holds_issued_tokens_witness :
  (forall token, accessToken Scenario.fresh = Some token ->
     issued (Scenario.env_with Scenario.always_pending) token)
  /\ issued (Scenario.env_with Scenario.always_pending) "token-a".
Proof.
  assert (Hinv : forall token, accessToken Scenario.fresh = Some token ->
                   issued (Scenario.env_with Scenario.always_pending) token)
    by (intros token H; discriminate).
  split; [exact Hinv|].
  exact (proj2 (cache_holds_issued_tokens (Scenario.env_with Scenario.always_pending)
                  Scenario.fresh Hinv)).
Defined.

(** A request for zero pounds. *)
Lemma invalid_creation_has_no_effect_witness :
  Js.truthy_number (amount Scenario2.zero_pounds) = false
  /\ res_status (fst (post_root (Scenario.env_with Scenario.always_pending)
                        (Some "user-1") Scenario2.zero_pounds Scenario.fresh)) = 400
  /\ snd (post_root (Scenario.env_with Scenario.always_pending)
            (Some "user-1") Scenario2.zero_pounds Scenario.fresh) = Scenario.fresh.
Proof.
  split; [reflexivity|].
  destruct (invalid_creation_has_no_effect (Scenario.env_with Scenario.always_pending)
              "user-1" Scenario2.zero_pounds Scenario.fresh
              ltac:(discriminate) (or_introl eq_refl)) as (Hcode & _ & Hworld).
  split; [exact Hcode | exact Hworld].
Defined.

(** Fifty pounds in lower-case gbp. *)
Lemma stored_currency_and_reference_are_those_sent_witness :
  let run := post_root (Scenario.env_with Scenario.always_pending) (Some "user-1")
               Scenario.fifty_pounds Scenario.fresh in
  res_status (fst run) = 201
  /\ exists payment,
       res_body (fst run) = JsonPayment payment
       /\ sent_body (snd run) ≫= json_path ["currency"] = Some (JStr "GBP")
       /\ payment !! "currency" = Some (VStr "GBP")
       /\ sent_body (snd run) ≫= json_path ["payment_method"; "beneficiary"; "reference"]
          = Some (JStr "inv-1")
       /\ payment !! "reference" = Some (VStr "inv-1").
Proof.
  intros run.
  assert (Hcode : res_status (fst run) = 201) by (vm_compute; reflexivity).
  split; [exact Hcode|].
  exact (stored_currency_and_reference_are_those_sent
           (Scenario.env_with Scenario.always_pending) (Some "user-1")
           Scenario.fifty_pounds Scenario.fresh Hcode).
Defined.

(** The status changes on the third attempt. *)
Lemma refresh_reports_the_stored_status_witness :
  let run := post_refresh_status (Scenario.env_with Scenario.changes_on_third)
               (Some "user-1") "pay-1" Scenario.with_payment in
  res_status (fst run) = 200
  /\ exists reported stored,
       res_body (fst run) = JsonPayment reported
       /\ table (snd run) !! ("user-1", "pay-1") = Some stored
       /\ stored !! "status" = reported !! "status".
Proof.
  intros run.
  assert (Hcode : res_status (fst run) = 200) by (vm_compute; reflexivity).
  split; [exact Hcode|].
  exact (refresh_reports_the_stored_status (Scenario.env_with Scenario.changes_on_third)
           "user-1" "pay-1" Scenario.with_payment Hcode).
Defined.

(** A process that has stored nothing. *)
Lemma unknown_payment_is_not_fetched_witness :
  table Scenario.fresh !! ("user-1", "pay-1") = None
  /\ res_status (fst (post_refresh_status (Scenario.env_with Scenario.always_pending)
                        (Some "user-1") "pay-1" Scenario.fresh)) = 404
  /\ fst (PaymentRoutes.get_by_id (Scenario.env_with Scenario.always_pending)
            (Some "user-1") "pay-1" Scenario.fresh) = not_found
  /\ fst (PaymentRoutes.delete_by_id (Scenario.env_with Scenario.always_pending)
            (Some "user-1") "pay-1" Scenario.fresh) = delete_not_found.
Proof.
  split; [reflexivity|].
  destruct (unknown_payment_is_not_fetched (Scenario.env_with Scenario.always_pending)
              "user-1" "pay-1" Scenario.fresh ltac:(discriminate) eq_refl eq_refl)
    as (Hrefresh & Hget & Hdelete & _).
  rewrite Hrefresh, Hget, Hdelete. repeat split.
Defined.

(** The gateway is down. *)
Lemma get_by_id_survives_gateway_failures_witness :
  let run := PaymentRoutes.get_by_id (Scenario.env_with Scenario.always_down)
               (Some "user-1") "pay-1" Scenario.with_payment in
  res_status (fst run) = 200
  /\ getPayment_events (trace (snd run)) = ["pay-1"]
  /\ sleep_events (trace (snd run)) = [].
Proof.
  intros run.
  destruct (get_by_id_survives_gateway_failures (Scenario.env_with Scenario.always_down)
              "user-1" "pay-1" Scenario.with_payment Scenario.stored_payment
              ltac:(discriminate) eq_refl stored_payment_found)
    as (Hcode & Hgets & Hsleeps & _).
  split; [exact Hcode|]. split; [exact Hgets | exact Hsleeps].
Defined.

(** The stored payment awaits authorization, so it can be deleted. *)
Lemma deleted_payment_is_gone_witness :
  let deleted := PaymentRoutes.delete_by_id (Scenario.env_with Scenario.always_pending)
                   (Some "user-1") "pay-1" Scenario.with_payment in
  PaymentRoutes.reply_status (fst deleted) = 204
  /\ fst (PaymentRoutes.get_by_id (Scenario.env_with Scenario.always_pending)
            (Some "user-1") "pay-1" (snd deleted)) = not_found.
Proof.
  intros deleted.
  assert (Hcode : PaymentRoutes.reply_status (fst deleted) = 204) by (vm_compute; reflexivity).
  split; [exact Hcode|].
  exact (proj1 (deleted_payment_is_gone (Scenario.env_with Scenario.always_pending)
                  "user-1" "pay-1" Scenario.with_payment (db_ok_env_with _) Hcode)).
Defined.

Lemma stored_payment_key :
  paymentsRepo.item_key Scenario.stored_payment = Some ("user-1", "pay-1").
Proof. apply item_key_new_payment. Qed.

(** The payment of the scenarios, stored by a process that has just
    started. *)
Lemma stored_payment_is_read_back_witness :
  let stored := paymentsRepo.createPayment (Scenario.env_with Scenario.always_pending)
                  Scenario.stored_payment Scenario.fresh in
  fst stored = Ok Scenario.stored_payment
  /\ fst (paymentsRepo.getPayment (Scenario.env_with Scenario.always_pending)
            "user-1" "pay-1" (snd stored)) = Ok (Some Scenario.stored_payment).
Proof.
  intros stored.
  destruct (stored_payment_is_read_back (Scenario.env_with Scenario.always_pending)
              Scenario.stored_payment "user-1" "pay-1" Scenario.fresh
              (db_ok_env_with _) stored_payment_key) as (Hput & Hget & _).
  split; [exact Hput | exact Hget].
Defined.

(** An update of a record that is not stored. *)
Lemma update_touches_three_attributes_witness :
  let updated := paymentsRepo.updatePaymentStatus (Scenario.env_with Scenario.always_pending)
                   "user-1" "pay-1" executed None Scenario.fresh in
  exists item,
    fst updated = Ok item
    /\ item !! "status" = Some (VStatus executed)
    /\ item !! "userId" = Some (VStr "user-1")
    /\ item !! "amount" = None.
Proof.
  intros updated.
  destruct (update_touches_three_attributes (Scenario.env_with Scenario.always_pending)
              "user-1" "pay-1" executed None Scenario.fresh (db_ok_env_with _))
    as (item & Hres & _ & Hstatus & _ & _ & Hframe & _).
  exists item. split; [exact Hres|]. split; [exact Hstatus|].
  split; [rewrite Hframe by discriminate; reflexivity
         |rewrite Hframe by discriminate; reflexivity].
Defined.

(** Alice's payment. *)
Lemma created_payment_is_found_by_its_owner_only_witness :
  MemoryStore.getPayment "alice" "pay-1" Scenario2.store_with_alice = Some 7%nat
  /\ MemoryStore.getPayment "bob" "pay-1" Scenario2.store_with_alice = None.
Proof.
  destruct (created_payment_is_found_by_its_owner_only 7 Scenario2.alice_payment
              Scenario2.heap_with_alice "bob" "pay-1"
              ltac:(apply lookup_singleton_eq) eq_refl eq_refl)
    as (_ & _ & Hown & Hother).
  split; [exact Hown|]. apply Hother. discriminate.
Defined.

(** The payment of user [al#ice] is found by user [al]. *)
Lemma hash_in_a_user_id_breaks_isolation_witness :
  MemoryStore.getPayment "al" "ice#pay-9"
    (snd (MemoryStore.createPayment 3 Scenario2.heap_with_odd)) = Some 3%nat.
Proof.
  exact (hash_in_a_user_id_breaks_isolation 3 Scenario2.odd_payment
           Scenario2.heap_with_odd "al" "ice"
           ltac:(apply lookup_singleton_eq) eq_refl).
Defined.

(** Alice's payment is executed. *)
Lemma updated_payment_is_listed_under_its_new_status_witness :
  let st' := snd (MemoryStore.updatePaymentStatus 1714557660000 "alice" "pay-1" executed
                    None Scenario2.store_with_alice) in
  7%nat ∈ MemoryStore.listPayments "alice" (Some executed) st'
  /\ 7%nat ∉ MemoryStore.listPayments "alice" (Some authorization_required) st'.
Proof.
  intros st'.
  destruct (updated_payment_is_listed_under_its_new_status 1714557660000 "alice" "pay-1"
              executed None Scenario2.store_with_alice 7 Scenario2.alice_payment
              eq_refl ltac:(apply lookup_singleton_eq)) as [Hin Hout].
  split; [exact Hin|]. apply Hout. discriminate.
Defined.

(** A gateway that accepts the signature. *)
Lemma signature_test_always_answers_witness :
  auth_ok (Scenario.env_with Scenario.always_pending)
  /\ fst (PaymentRoutes.get_test_signature (Scenario.env_with Scenario.always_pending)
            Scenario2.accepts Scenario.fresh)
     = {| PaymentRoutes.reply_status := 200;
          PaymentRoutes.reply_body := PaymentRoutes.SentValid true "Signature is valid!" |}.
Proof.
  split; [apply auth_ok_env_with|].
  destruct (signature_test_always_answers (Scenario.env_with Scenario.always_pending)
              Scenario2.accepts Scenario.fresh)
    as (Hcode & _ & valid & Hbody & _ & Hvalid).
  rewrite (Hvalid (auth_ok_env_with _) ltac:(intros rq; reflexivity)) in Hbody.
  destruct (fst (PaymentRoutes.get_test_signature _ _ _)) as [code body].
  simpl in *. subst. reflexivity.
Defined.

(** Alice's payment is executed: the object at its address changes, its
    amount does not. *)
Lemma memory_update_changes_the_object_in_place_witness :
  let st' := snd (MemoryStore.updatePaymentStatus 1714557660000 "alice" "pay-1" executed
                    None Scenario2.store_with_alice) in
  exists obj',
    MemoryStore.objects st' !! 7%nat = Some obj'
    /\ MemoryStore.p_status obj' = executed
    /\ MemoryStore.updatedAt obj' = 1714557660000
    /\ MemoryStore.p_amount obj' = 50%float.
Proof.
  intros st'.
  pose proof (memory_update_changes_the_object_in_place 1714557660000 "alice" "pay-1"
                executed None Scenario2.store_with_alice) as Hupdate.
  change (MemoryStore.getPayment "alice" "pay-1" Scenario2.store_with_alice)
    with (Some 7%nat) in Hupdate.
  destruct Hupdate as (_ & _ & _ & Hobject).
  destruct (Hobject Scenario2.alice_payment ltac:(apply lookup_singleton_eq))
    as (obj' & Hat & Hstatus & Htime & _ & _ & _ & Hamount & _).
  exists obj'. split; [exact Hat|]. split; [exact Hstatus|]. split; [exact Htime|].
  exact Hamount.
Defined.
